(** * SLMonitor: truth-table builder and light-curve assembler

    A shallow embedding of [python/desc/monitor/CreateTruthDB.py] and
    [python/desc/monitor/monitor.py].

    - Python exceptions are an explicit [result]; a method that mutates
      [self] or talks to an external service is a function of a world that
      is threaded through, and the world reached when an exception is
      raised is kept (Python does not roll back).
    - Floating-point numbers are an abstract type [F] with the operations
      the code applies to them (class [Float]); the theorems hold for every
      interpretation, and [R_Float] interprets them as real numbers for
      concrete runs.
    - External collaborators (catalog database, observation metadata,
      SED/bandpass/SNR routines, files, plotting) are fields of an
      environment record; what they return, and whether they raise, is the
      environment's choice.  The calls the statements speak of are logged
      as events, in the order they are made. *)

From Stdlib Require Import ZArith QArith Qreals Reals Lra Ascii String List.
From stdpp Require Import base option list gmap strings.

Local Open Scope string_scope.
Local Open Scope list_scope.

(** ** Exceptions and the effect monad *)

Inductive exn : Type :=
| ValueError (msg : string)
| AttributeError (attr : string)
| UnboundLocalError (name : string)
| KeyError (key : string)
| IndexError
| TypeError (msg : string)
| IOError (path : string).

Inductive result (A : Type) : Type :=
| Ok (a : A)
| Raise (e : exn).
Arguments Ok {A} a.
Arguments Raise {A} e.

(** A computation over a world [W]: it returns a value or raises, and in
    both cases hands back the world as it is at that point. *)
Definition Py (W A : Type) : Type := W -> result A * W.

Definition ret {W A} (a : A) : Py W A := fun w => (Ok a, w).

Definition raise {W A} (e : exn) : Py W A := fun w => (Raise e, w).

Definition bind {W A B} (m : Py W A) (k : A -> Py W B) : Py W B :=
  fun w =>
    match m w with
    | (Ok a, w') => k a w'
    | (Raise e, w') => (Raise e, w')
    end.

Definition get {W} : Py W W := fun w => (Ok w, w).

Definition modify {W} (f : W -> W) : Py W unit := fun w => (Ok tt, f w).

(** A pure fallible step, such as an external read. *)
Definition lift {W A} (r : result A) : Py W A := fun w => (r, w).

Declare Scope py_scope.
Delimit Scope py_scope with py.
Notation "x <- m ;; k" := (bind m (fun x => k))
  (at level 100, m at next level, right associativity) : py_scope.
Notation "m ;;; k" := (bind m (fun _ => k))
  (at level 100, right associativity) : py_scope.

(** [for x in l: body x] *)
Fixpoint for_each {W A} (l : list A) (body : A -> Py W unit) : Py W unit :=
  match l with
  | [] => ret tt
  | x :: l' => bind (body x) (fun _ => for_each l' body)
  end.

(** A [for] loop that updates a local variable. *)
Fixpoint for_fold {W A S} (l : list A) (s : S) (body : S -> A -> Py W S)
  : Py W S :=
  match l with
  | [] => ret s
  | x :: l' => bind (body s x) (fun s' => for_fold l' s' body)
  end.

(** Reading a local variable or an attribute that may not have been
    assigned yet. *)
Definition local {W A} (name : string) (v : option A) : Py W A :=
  match v with
  | Some a => ret a
  | None => raise (UnboundLocalError name)
  end.

Definition attribute {W A} (name : string) (v : option A) : Py W A :=
  match v with
  | Some a => ret a
  | None => raise (AttributeError name)
  end.

(** ** Floating-point operations used by the code *)

Class Float (F : Type) : Type := {
  lit : Q -> F;                (* the float written as a decimal literal *)
  fsub : F -> F -> F;          (* x - y *)
  fmul : F -> F -> F;          (* x * y *)
  fdiv : F -> F -> F;          (* x / y *)
  fpower : F -> F -> F;        (* np.power(x, y) *)
  fgt : F -> F -> bool         (* x > y *)
}.

(** Real numbers as the ideal interpretation. *)
Definition Rgtb (x y : R) : bool := if Rgt_dec x y then true else false.

#[export] Instance R_Float : Float R := {
  lit := Q2R;
  fsub := Rminus;
  fmul := Rmult;
  fdiv := Rdiv;
  fpower := Rpower;
  fgt := Rgtb
}.

(** Python string indexing used by the code. *)
Definition last_char (s : string) : option string :=   (* s[-1] *)
  match String.length s with
  | O => None
  | S n => Some (String.substring n 1 s)
  end.

Definition slice_1_m3 (s : string) : string :=          (* s[1:-3] *)
  String.substring 1 (String.length s - 4) s.

(** * monitor.py *)

Module monitor.
Section LightCurve.
Context {F : Type} `{Float F}.

(** Rows handed back by the database connection.  The connection is an
    object the caller passes in ([dbConnection.dbInterface], outside these
    two files), so it is a record of the three methods called on it.  The
    object table has columns [ra] and [dec], the forced-source table the
    five columns read below. *)
Record ObjRow : Type := {
  obj_ra : F;
  obj_dec : F
}.

Record FsRow : Type := {
  fs_filter : string;
  fs_obs_start : string;
  fs_visit_id : Z;
  fs_psf_flux : F;
  fs_psf_flux_err : F
}.

Record dbInterface : Type := {
  objectFromId : Z -> list ObjRow;
  all_fs_visits_from_id : Z -> list FsRow;
  objectFromRaDec : F -> F -> F -> list ObjRow
}.

(** A row of the second HDU of a per-visit forced-photometry FITS file. *)
Record FitsRow : Type := {
  objectId : Z;
  coord_ra : F;
  coord_dec : F;
  base_PsfFlux_flux : F;
  base_PsfFlux_fluxSigma : F
}.

(** The light-curve table, column by column, as the [lightcurve] dict
    handed to [Table(data=...)].  Only the database path has an
    [obsHistId] column. *)
Record Table : Type := {
  col_bandpass : list string;
  col_obsHistId : option (list Z);
  col_mjd : list F;
  col_ra : list F;
  col_dec : list F;
  col_flux : list F;
  col_flux_error : list F;
  col_zp : list F;
  col_zpsys : list string
}.

(** The figure returned by [sncosmo.plot_lc]. *)
Inductive Figure : Type :=
| plot_lc (data : Table).

(** What [np.genfromtxt] returns for a file of numbers: a scalar for a
    single number, a vector for a single line or a single column, a matrix
    otherwise. *)
Inductive ndarray : Type :=
| array0 (x : F)
| array1 (xs : list F)
| array2 (rows : list (list F)).

(** What a [for] loop over an array yields: the numbers of a vector, the
    rows of a matrix. *)
Inductive item : Type :=
| item_scalar (x : F)
| item_row (xs : list F).

Definition items (a : ndarray) : result (list item) :=
  match a with
  | array0 _ => Raise (TypeError "iteration over a 0-d array")
  | array1 xs => Ok (item_scalar <$> xs)
  | array2 rows => Ok (item_row <$> rows)
  end.

(** [v[i]] on an item of the loop: a number cannot be indexed. *)
Definition item_index (v : item) (i : nat) : result F :=
  match v with
  | item_scalar _ => Raise IndexError
  | item_row xs =>
      match xs !! i with
      | Some x => Ok x
      | None => Raise IndexError
      end
  end.

(** Files and libraries the class reads. *)
Record Env : Type := {
  throughputs_dir : string;                          (* getPackageDir('throughputs') *)
  load_bandpass : string -> string -> result unit;   (* np.genfromtxt + sncosmo.Bandpass *)
  genfromtxt_mjd : option string -> result ndarray;  (* np.genfromtxt(mjd_file, delimiter=',') *)
  str_int : F -> result string;                      (* str(int(x)); int raises on nan and inf *)
  listdir : string -> result (list string);
  fits_open : string -> result (list FitsRow);       (* hdulist[1].data *)
  Time_mjd : list string -> option (list F)          (* Time(t, scale='utc').mjd, on the column *)
}.

(** A [LightCurve] object.  An attribute that has not been assigned is
    [None]; [lightcurve] is [Some None] when it holds Python's [None]. *)
Record LightCurve : Type := {
  dbConn_lc : dbInterface;
  fp_table_dir : option string;
  bandpasses : option (list string);
  visit_map : option (gmap string (list string));
  lightcurve : option (option Table);
  visit_mjd : option (gmap string F)
}.

Definition set_fp_table_dir (v : string) (o : LightCurve) : LightCurve :=
  {| dbConn_lc := dbConn_lc o; fp_table_dir := Some v;
     bandpasses := bandpasses o; visit_map := visit_map o;
     lightcurve := lightcurve o; visit_mjd := visit_mjd o |}.

Definition set_bandpasses (v : list string) (o : LightCurve) : LightCurve :=
  {| dbConn_lc := dbConn_lc o; fp_table_dir := fp_table_dir o;
     bandpasses := Some v; visit_map := visit_map o;
     lightcurve := lightcurve o; visit_mjd := visit_mjd o |}.

Definition set_visit_map (v : gmap string (list string)) (o : LightCurve)
  : LightCurve :=
  {| dbConn_lc := dbConn_lc o; fp_table_dir := fp_table_dir o;
     bandpasses := bandpasses o; visit_map := Some v;
     lightcurve := lightcurve o; visit_mjd := visit_mjd o |}.

Definition set_lightcurve (v : option Table) (o : LightCurve) : LightCurve :=
  {| dbConn_lc := dbConn_lc o; fp_table_dir := fp_table_dir o;
     bandpasses := bandpasses o; visit_map := visit_map o;
     lightcurve := Some v; visit_mjd := visit_mjd o |}.

Definition set_visit_mjd (v : gmap string F) (o : LightCurve) : LightCurve :=
  {| dbConn_lc := dbConn_lc o; fp_table_dir := fp_table_dir o;
     bandpasses := bandpasses o; visit_map := visit_map o;
     lightcurve := lightcurve o; visit_mjd := Some v |}.

(** Calls that leave the process, in the order they are made. *)
Inductive event : Type :=
| DbObjectFromId (objid : Z)
| DbAllFsVisitsFromId (objid : Z)
| DbObjectFromRaDec (ra dec tol : F)
| Print (obj_info : list ObjRow)
| FitsOpen (path : string)
| PlotLc (data : Table).

Record World : Type := {
  self : LightCurve;
  events : list event
}.

Definition log (e : event) : Py World unit :=
  modify (fun w => {| self := self w; events := events w ++ [e] |}).

Definition set_self (f : LightCurve -> LightCurve) : Py World unit :=
  modify (fun w => {| self := f (self w); events := events w |}).

Definition default_filter_list : list string := ["u"; "g"; "r"; "i"; "z"; "y"].

(** [LightCurve.__init__], lines 50-86.  [blank] is the object right after
    line 53.  Registering a bandpass with sncosmo only touches sncosmo's
    registry and its failure is swallowed (lines 65-68). *)
Definition blank (dbConn : dbInterface) : LightCurve :=
  {| dbConn_lc := dbConn; fp_table_dir := None; bandpasses := None;
     visit_map := None; lightcurve := None; visit_mjd := None |}.

(** The body of the loop over the date file, line 81: the right-hand side
    [visit_date[1]] is evaluated first, then the key
    [str(int(visit_date[0]))]. *)
Definition date_body (E : Env) (visit_date : item) : Py LightCurve unit :=
  (mjd <- lift (item_index visit_date 1) ;;
   o <- get ;;
   m <- attribute "visit_mjd" (visit_mjd o) ;;
   x <- lift (item_index visit_date 0) ;;
   key <- lift (str_int E x) ;;
   modify (set_visit_mjd (<[key := mjd]> m)))%py.

Definition init (E : Env) (fp_table_dir_arg mjd_file : option string)
    (filter_list : list string) : Py LightCurve unit :=
  (for_each filter_list (fun filter_name =>
     lift (load_bandpass E
             (throughputs_dir E +:+ "/baseline/total_" +:+ filter_name +:+ ".dat")
             ("lsst" +:+ filter_name))) ;;;
   match fp_table_dir_arg with
   | None => ret tt
   | Some dir =>
       modify (set_fp_table_dir dir) ;;;
       modify (set_bandpasses filter_list) ;;;
       modify (set_visit_map (list_to_map (map (fun x => (x, [])) filter_list))) ;;;
       modify (set_lightcurve None) ;;;
       modify (set_visit_mjd ∅) ;;;
       mjd_list <- lift (genfromtxt_mjd E mjd_file) ;;
       visit_dates <- lift (items mjd_list) ;;
       for_each visit_dates (date_body E) ;;;
       dirs <- lift (listdir E (dir +:+ "/0/")) ;;
       for_each dirs (fun visit_dir =>
         visit_band <- match last_char visit_dir with
                       | Some c => ret c
                       | None => raise IndexError
                       end ;;
         let visit_num := slice_1_m3 visit_dir in
         o <- get ;;
         vm <- attribute "visit_map" (visit_map o) ;;
         match vm !! visit_band with
         | Some l => modify (set_visit_map (<[visit_band := l ++ [visit_num]]> vm))
         | None => raise (KeyError visit_band)
         end)
   end)%py.

(** [LightCurve(dbConn, fp_table_dir, mjd_file, filter_list)] *)
Definition new (E : Env) (dbConn : dbInterface)
    (fp_table_dir_arg mjd_file : option string) (filter_list : list string)
  : result LightCurve :=
  match init E fp_table_dir_arg mjd_file filter_list (blank dbConn) with
  | (Ok _, o) => Ok o
  | (Raise e, _) => Raise e
  end.

(** The columns of the [lightcurve] dict of [build_lightcurve], lines
    92-100, and one [append] per column, lines 111-118. *)
Definition empty_columns : Table :=
  {| col_bandpass := []; col_obsHistId := None; col_mjd := []; col_ra := [];
     col_dec := []; col_flux := []; col_flux_error := []; col_zp := [];
     col_zpsys := [] |}.

Definition append_row (t : Table) (bandpass : string) (mjd : F) (r : FitsRow)
  : Table :=
  {| col_bandpass := col_bandpass t ++ ["lsst" +:+ bandpass];
     col_obsHistId := col_obsHistId t;
     col_mjd := col_mjd t ++ [mjd];
     col_ra := col_ra t ++ [coord_ra r];
     col_dec := col_dec t ++ [coord_dec r];
     col_flux := col_flux t ++ [base_PsfFlux_flux r];
     col_flux_error := col_flux_error t ++ [base_PsfFlux_fluxSigma r];
     col_zp := col_zp t ++ [lit 25.0];
     col_zpsys := col_zpsys t ++ ["ab"] |}.

(** [LightCurve.build_lightcurve], lines 88-119. *)
Definition build_lightcurve (E : Env) (objid : Z) : Py World unit :=
  (w <- get ;;
   bps <- attribute "bandpasses" (bandpasses (self w)) ;;
   lc <- for_fold bps empty_columns (fun lc bandpass =>
     vm <- attribute "visit_map" (visit_map (self w)) ;;
     visits <- match vm !! bandpass with
               | Some l => ret l
               | None => raise (KeyError bandpass)
               end ;;
     for_fold visits lc (fun lc visit =>
       dir <- attribute "fp_table_dir" (fp_table_dir (self w)) ;;
       let path := dir +:+ "/0/v" +:+ visit +:+ "-f" +:+ bandpass +:+ "/R22/S11.fits" in
       log (FitsOpen path) ;;;
       data <- lift (fits_open E path) ;;
       let obj_data := filter (fun r => objectId r = objid) data in
       match obj_data with
       | [] => ret lc
       | r :: _ =>
           mjds <- attribute "visit_mjd" (visit_mjd (self w)) ;;
           match mjds !! visit with
           | Some mjd => ret (append_row lc bandpass mjd r)
           | None => raise (KeyError visit)
           end
       end)) ;;
   set_self (set_lightcurve (Some lc)))%py.

(** [Table(data=lightcurve)] of line 157: the columns of the dict must
    have one length.  Every column but [mjd] is built from [fs_info]; [mjd]
    is what [Time] returns for the column of start times. *)
Definition Table_of (t : Table) : result Table :=
  if decide (length (col_mjd t) = length (col_bandpass t)) then Ok t
  else Raise (ValueError "Inconsistent data column lengths").

(** The [ValueError] of [Time] on input it cannot convert. *)
Definition msg_time : string :=
  "Input values did not match any of the formats where the format keyword is optional".

(** [LightCurve.build_lightcurve_from_db], lines 121-157.  [obj_info] and
    [fs_info] are local variables that a path may leave unassigned.  [Time]
    is applied to the whole column of start times (line 147) and raises
    [ValueError] on input it cannot convert, an empty column included. *)
Definition build_lightcurve_from_db (E : Env) (objid : option Z)
    (ra_dec : option (F * F)) (tol : F) : Py World unit :=
  (match objid, ra_dec with
   | None, None =>
       raise (ValueError "Must specify either objid or ra,dec location.")
   | Some _, Some _ =>
       raise (ValueError "Please specify only one of objid or ra,dec location.")
   | _, _ => ret tt
   end ;;;
   w <- get ;;
   let db := dbConn_lc (self w) in
   locals <- match objid with
             | Some id =>
                 log (DbObjectFromId id) ;;;
                 log (DbAllFsVisitsFromId id) ;;;
                 ret (Some (objectFromId db id), Some (all_fs_visits_from_id db id))
             | None => ret (None, None)
             end ;;
   let fs_info := snd locals in
   obj_info <- match ra_dec with
               | Some (ra, dec) =>
                   log (DbObjectFromRaDec ra dec tol) ;;;
                   let obj_info := objectFromRaDec db ra dec tol in
                   if decide (length obj_info = 0%nat) then
                     raise (ValueError "No objects within specified ra,dec range.")
                   else
                     (if decide (1 < length obj_info)%nat
                      then log (Print obj_info) else ret tt) ;;;
                     ret (Some obj_info)
               | None => ret (fst locals)
               end ;;
   fs_info <- local "fs_info" fs_info ;;
   let num_results := length fs_info in
   mjd <- match Time_mjd E (map fs_obs_start fs_info) with
          | Some mjd => ret mjd
          | None => raise (ValueError msg_time)
          end ;;
   obj_info <- local "obj_info" obj_info ;;
   ra0 <- match map obj_ra obj_info with
          | x :: _ => ret x
          | [] => raise IndexError
          end ;;
   dec0 <- match map obj_dec obj_info with
           | x :: _ => ret x
           | [] => raise IndexError
           end ;;
   t <- lift (Table_of
     {| col_bandpass := map (fun x => "lsst" +:+ x) (map fs_filter fs_info);
        col_obsHistId := Some (map fs_visit_id fs_info);
        col_mjd := mjd;
        col_ra := replicate num_results ra0;
        col_dec := replicate num_results dec0;
        col_flux := map fs_psf_flux fs_info;
        col_flux_error := map fs_psf_flux_err fs_info;
        col_zp := replicate num_results (lit 25.0);
        col_zpsys := replicate num_results "ab" |}) ;;
   set_self (set_lightcurve (Some t)))%py.

(** The two invalid-argument messages of lines 128 and 130-131. *)
Definition msg_neither : string :=
  "Must specify either objid or ra,dec location.".

Definition msg_both : string :=
  "Please specify only one of objid or ra,dec location.".

(** [LightCurve.visualize_lightcurve], lines 159-168. *)
Definition visualize_lightcurve : Py World Figure :=
  (w <- get ;;
   lc <- attribute "lightcurve" (lightcurve (self w)) ;;
   match lc with
   | None => raise (ValueError "No lightcurve yet. Use build_lightcurve first.")
   | Some t => log (PlotLc t) ;;; ret (plot_lc t)
   end)%py.

(** ** Vocabulary of the statements *)

Definition add_events (evs : list event) (w : World) : World :=
  {| self := self w; events := events w ++ evs |}.

(** The file of one visit in one bandpass (lines 105-107). *)
Definition fits_path (dir visit bandpass : string) : string :=
  dir +:+ "/0/v" +:+ visit +:+ "-f" +:+ bandpass +:+ "/R22/S11.fits".

(** The name of a visit directory: what lines 84-85 take apart and lines
    105-107 put together. *)
Definition visit_dir_name (visit bandpass : string) : string :=
  "v" +:+ visit +:+ "-f" +:+ bandpass.

(** The body of the inner loop of [build_lightcurve], lines 104-118, on
    the object [o] the method was called on. *)
Definition visit_body (E : Env) (objid : Z) (o : LightCurve) (bandpass : string)
    (lc : Table) (visit : string) : Py World Table :=
  (dir <- attribute "fp_table_dir" (fp_table_dir o) ;;
   let path := dir +:+ "/0/v" +:+ visit +:+ "-f" +:+ bandpass +:+ "/R22/S11.fits" in
   log (FitsOpen path) ;;;
   data <- lift (fits_open E path) ;;
   let obj_data := filter (fun r => objectId r = objid) data in
   match obj_data with
   | [] => ret lc
   | r :: _ =>
       mjds <- attribute "visit_mjd" (visit_mjd o) ;;
       match mjds !! visit with
       | Some mjd => ret (append_row lc bandpass mjd r)
       | None => raise (KeyError visit)
       end
   end)%py.

(** The body of the outer loop, lines 102-103. *)
Definition bandpass_body (E : Env) (objid : Z) (o : LightCurve) (lc : Table)
    (bandpass : string) : Py World Table :=
  (vm <- attribute "visit_map" (visit_map o) ;;
   visits <- match vm !! bandpass with
             | Some l => ret l
             | None => raise (KeyError bandpass)
             end ;;
   for_fold visits lc (visit_body E objid o bandpass))%py.

(** The first row of a visit's table that belongs to the object, when the
    file opens and holds one. *)
Definition measurement (E : Env) (dir : string) (objid : Z)
    (bandpass visit : string) : option FitsRow :=
  match fits_open E (fits_path dir visit bandpass) with
  | Ok data => head (filter (fun r => objectId r = objid) data)
  | Raise _ => None
  end.

(** The (bandpass, visit) pairs in the order the two loops reach them. *)
Definition visit_pairs (bps : list string) (vm : gmap string (list string))
  : list (string * string) :=
  bps ≫= (fun b => (fun v => (b, v)) <$> default [] (vm !! b)).

(** The rows of the light curve: one for every pair whose table holds the
    object and whose visit has a date. *)
Definition measured_rows (E : Env) (dir : string) (objid : Z)
    (mjds : gmap string F) (pairs : list (string * string))
  : list (string * F * FitsRow) :=
  omap (fun p => r ← measurement E dir objid p.1 p.2;
                 mjd ← mjds !! p.2; Some (p.1, mjd, r)) pairs.

Definition add_row (t : Table) (x : string * F * FitsRow) : Table :=
  append_row t x.1.1 x.1.2 x.2.

Definition table_of_rows (rows : list (string * F * FitsRow)) : Table :=
  foldl add_row empty_columns rows.

(** A table whose columns all have [n] entries. *)
Definition rectangular (n : nat) (t : Table) : Prop :=
  length (col_bandpass t) = n /\ length (col_mjd t) = n /\
  length (col_ra t) = n /\ length (col_dec t) = n /\
  length (col_flux t) = n /\ length (col_flux_error t) = n /\
  length (col_zp t) = n /\ length (col_zpsys t) = n /\
  match col_obsHistId t with Some ids => length ids = n | None => True end.

(** The file-opening event of a (bandpass, visit) pair. *)
Definition open_event (dir : string) (p : string * string) : event :=
  FitsOpen (fits_path dir p.2 p.1).

(** A pair the loop gets past: its file opens, and its visit has a date if
    its table holds the object. *)
Definition usable (E : Env) (dir : string) (objid : Z) (mjds : gmap string F)
    (p : string * string) : Prop :=
  (exists data, fits_open E (fits_path dir p.2 p.1) = Ok data) /\
  (is_Some (measurement E dir objid p.1 p.2) -> is_Some (mjds !! p.2)).

(** The body of the loop over the directory listing, lines 83-86. *)
Definition dir_body (visit_dir : string) : Py LightCurve unit :=
  (visit_band <- match last_char visit_dir with
                 | Some c => ret c
                 | None => raise IndexError
                 end ;;
   let visit_num := slice_1_m3 visit_dir in
   o <- get ;;
   vm <- attribute "visit_map" (visit_map o) ;;
   match vm !! visit_band with
   | Some l => modify (set_visit_map (<[visit_band := l ++ [visit_num]]> vm))
   | None => raise (KeyError visit_band)
   end)%py.

(** The visit numbers the listing files under band [b]. *)
Definition visits_of_band (dirs : list string) (b : string) : list string :=
  slice_1_m3 <$> filter (fun d => last_char d = Some b) dirs.

(** The object right after lines 71-75. *)
Definition prepared (dbConn : dbInterface) (dir : string) (filter_list : list string)
  : LightCurve :=
  {| dbConn_lc := dbConn; fp_table_dir := Some dir; bandpasses := Some filter_list;
     visit_map := Some (list_to_map (map (fun x => (x, [])) filter_list));
     lightcurve := Some None; visit_mjd := Some ∅ |}.

(** The key and the date a line of the date file gives, when line 81 can
    read both: the line has two fields and the first converts to an
    integer. *)
Definition date_line (E : Env) (visit_date : item) : option (string * F) :=
  match item_index visit_date 1, item_index visit_date 0 with
  | Ok mjd, Ok x =>
      match str_int E x with
      | Ok key => Some (key, mjd)
      | Raise _ => None
      end
  | _, _ => None
  end.

(** The visit dates as the loop of lines 80-81 leaves them, starting from
    [m]. *)
Definition mjd_map (lines : list (string * F)) (m : gmap string F)
  : gmap string F :=
  foldl (fun m line => <[line.1 := line.2]> m) m lines.

End LightCurve.

Arguments ObjRow F : clear implicits.
Arguments FsRow F : clear implicits.
Arguments dbInterface F : clear implicits.
Arguments FitsRow F : clear implicits.
Arguments Table F : clear implicits.
Arguments Figure F : clear implicits.
Arguments ndarray F : clear implicits.
Arguments item F : clear implicits.
Arguments Env F : clear implicits.
Arguments LightCurve F : clear implicits.
Arguments event F : clear implicits.
Arguments World F : clear implicits.
End monitor.

(** * CreateTruthDB.py *)

Module CreateTruthDB.
Section TrueStars.
Context {F : Type} `{Float F}.
(** Objects of the photometry library, opaque to this code. *)
Context {Bandpass Sed PhotParams : Type}.

(** A star of the cached truth database with the catalog columns the code
    reads; [gmag] is the database column the query constraint names. *)
Record Star : Type := {
  uniqueId : Z;
  raJ2000 : F;
  decJ2000 : F;
  gmag : F;
  sedFilepath : string;
  phoSimMagNorm : F;
  galacticAv : F
}.

(** [obs_metadata]: the pointing and the three [OpsimMetaData] entries read. *)
Record ObsMetaData : Type := {
  pointingRA : F;
  pointingDec : F;
  obs_filter : string;            (* OpsimMetaData['filter'] *)
  fiveSigmaDepth : F;             (* OpsimMetaData['fiveSigmaDepth'] *)
  obsHistID : Z                   (* OpsimMetaData['obsHistID'] *)
}.

(** The SQL constraint given to the catalog: ['gmag > v']. *)
Inductive sql_constraint : Type :=
| gmag_gt (v : Q).

Definition satisfies (c : sql_constraint) (s : Star) : bool :=
  match c with
  | gmag_gt v => fgt (gmag s) (lit v)
  end.

(** What [SedList] is given for one star (lines 132-135). *)
Record SedEntry : Type := {
  sed_name : string;
  sed_magNorm : F;
  sed_galacticAv : F
}.

Definition sed_entry (s : Star) : SedEntry :=
  {| sed_name := sedFilepath s; sed_magNorm := phoSimMagNorm s;
     sed_galacticAv := galacticAv s |}.

(** A row of [star_df]; the columns of lines 100-102. *)
Record DfRow : Type := {
  df_uniqueId : Z;
  df_ra : F;
  df_dec : F;
  df_filter : string;
  df_true_flux : F;
  df_true_flux_error : F;
  df_obsHistId : Z
}.

(** The [obsHistID] column of the visits file as [np.genfromtxt] gives it:
    a scalar when the file has a single data row, a vector otherwise. *)
Inductive id_column : Type :=
| id_scalar (id : Z)
| id_array (ids : list Z).

(** External services. *)
Record Env : Type := {
  selectedVisits : result id_column;                 (* '../data/selectedVisits.csv', obsHistID *)
  getObservationMetaData : string -> Z -> list ObsMetaData;
  in_field : ObsMetaData -> Star -> bool;            (* the catalog's spatial selection *)
  iter_column_names : list string;
  loadTotalBandpassesFromFiles : result (gmap string Bandpass);
  load_sed : SedEntry -> result Sed;                 (* one entry of SedList *)
  calcMag : Sed -> Bandpass -> F;                    (* one entry of magArrayForSedList *)
  PhotometricParameters : PhotParams;
  calcSNR_m5 : F -> Bandpass -> F -> PhotParams -> F * F;
  connect : string -> result unit                    (* opening the SQLite file for writing *)
}.

(** A [TrueStars] object; [star_df] is unassigned until [get_true_stars]
    finishes. *)
Record TrueStars : Type := {
  dbConn : list Star;
  opsimDB : string;
  star_df : option (list DfRow)
}.

Inductive event : Type :=
| ReadSelectedVisits                    (* np.genfromtxt('../data/selectedVisits.csv', ...) *)
| PrintObsMetadata (n total : nat)      (* "Generated %i out of %i obs_metadata" *)
| PrintFluxes (n total : nat)           (* "Generated fluxes for %i out of %i visits" *)
| GetObservationMetaData (obsHistID : Z)
| LoadTotalBandpasses                   (* BandpassDict.loadTotalBandpassesFromFiles() *)
| CatalogQuery (obs : ObsMetaData) (constraint : sql_constraint)
| SedListLoad (entries : list SedEntry)
| MagArrayForSedList (seds : list Sed)
| NewPhotometricParameters              (* PhotometricParameters() *)
| CalcSNR_m5 (mags : list F) (visit_filter : string) (five_sigma_depth : F).

(** A table of the SQLite file: the frame's index and its rows. *)
Definition SqlTable : Type := list (nat * DfRow).

Record World : Type := {
  self : TrueStars;
  events : list event;
  files : gmap string (gmap string SqlTable)
}.

Definition log (e : event) : Py World unit :=
  modify (fun w => {| self := self w; events := events w ++ [e];
                      files := files w |}).

Definition set_star_df (df : list DfRow) : Py World unit :=
  modify (fun w => {| self := {| dbConn := dbConn (self w);
                                 opsimDB := opsimDB (self w);
                                 star_df := Some df |};
                      events := events w; files := files w |}).

(** [TruthCatalogPoint(dbConn, obs_metadata, constraint).iter_catalog()].
    The catalog class lives in [desc.monitor.TruthCatalogDefs], outside
    these two files; what the call site fixes is kept: the rows come from
    the connection, restricted to the field of the observation (the
    parameter [in_field]) and to the SQL constraint. *)
Definition iter_catalog (E : Env) (db : list Star) (obs : ObsMetaData)
    (c : sql_constraint) : list Star :=
  List.filter (fun s => in_field E obs s && satisfies c s) db.

(** [SedList(...)]: the SEDs are loaded one after the other. *)
Fixpoint SedList (E : Env) (entries : list SedEntry) : result (list Sed) :=
  match entries with
  | [] => Ok []
  | e :: rest =>
      match load_sed E e with
      | Raise x => Raise x
      | Ok s =>
          match SedList E rest with
          | Raise x => Raise x
          | Ok l => Ok (s :: l)
          end
      end
  end.

(** [bp_dict.magArrayForSedList(sed_list)]: for each bandpass, the
    magnitudes of the SEDs of the list. *)
Definition magArrayForSedList (E : Env) (bp_dict : gmap string Bandpass)
    (sed_list : list Sed) : gmap string (list F) :=
  (fun bp => map (fun sed => calcMag E sed bp) sed_list) <$> bp_dict.

(** Line 142, for one magnitude. *)
Definition flux_of_mag (m : F) : F :=
  fpower (lit 10) (fmul (lit (-0.4)) (fsub m (lit 22.5))).

(** Lines 151-159: the seven columns are stacked and transposed, which
    needs them to have one length. *)
Definition visit_frame (chunk_data : list Star) (visit_filter : string)
    (flux_array flux_error : list F) (obs_hist_id : Z) : result (list DfRow) :=
  if decide (length flux_array = length chunk_data) then
    Ok (zip_with (fun s ff =>
          {| df_uniqueId := uniqueId s; df_ra := raJ2000 s; df_dec := decJ2000 s;
             df_filter := visit_filter; df_true_flux := fst ff;
             df_true_flux_error := snd ff; df_obsHistId := obs_hist_id |})
        chunk_data (zip flux_array flux_error))
  else Raise (ValueError "Shape of passed values does not match the columns").

(** Lines 141-147: what [calcSNR_m5] is called on, the magnitudes and the
    bandpass of the visit's filter and the photometric parameters. *)
Definition visit_inputs (bp_dict : gmap string Bandpass)
    (mag_array : gmap string (list F)) (phot_params : option PhotParams)
    (obs_metadata : ObsMetaData) : result (list F * Bandpass * PhotParams) :=
  let visit_filter := obs_filter obs_metadata in
  match mag_array !! visit_filter with
  | None => Raise (ValueError "no field of name")
  | Some mags =>
      match bp_dict !! visit_filter with
      | None => Raise (KeyError visit_filter)
      | Some bp =>
          match phot_params with
          | None => Raise (UnboundLocalError "phot_params")
          | Some pp => Ok (mags, bp, pp)
          end
      end
  end.

(** Lines 142-159: the rows of one visit from those inputs. *)
Definition visit_rows (E : Env) (chunk_data : list Star)
    (obs_metadata : ObsMetaData) (inputs : list F * Bandpass * PhotParams)
  : result (list DfRow) :=
  let '(mags, bp, pp) := inputs in
  let flux_array := map flux_of_mag mags in
  let five_sigma_depth := fiveSigmaDepth obs_metadata in
  let snr := map (fun m => fst (calcSNR_m5 E m bp five_sigma_depth pp)) mags in
  let flux_error := zip_with fdiv flux_array snr in
  visit_frame chunk_data (obs_filter obs_metadata) flux_array flux_error
    (obsHistID obs_metadata).

(** Lines 141-159: the rows of one visit, from the magnitude array that is
    in scope. *)
Definition visit_table (E : Env) (bp_dict : gmap string Bandpass)
    (mag_array : gmap string (list F)) (phot_params : option PhotParams)
    (chunk_data : list Star) (obs_metadata : ObsMetaData)
  : result (list DfRow) :=
  match visit_inputs bp_dict mag_array phot_params obs_metadata with
  | Raise e => Raise e
  | Ok inputs => visit_rows E chunk_data obs_metadata inputs
  end.

(** The local variables of the second loop, lines 100-111. *)
Record Locals : Type := {
  column_names : option (list string);
  seds_loaded : bool;
  mag_array : option (gmap string (list F));
  phot_params : option PhotParams;
  star_df_acc : list DfRow;
  visit_on : nat
}.

Definition initial_locals : Locals :=
  {| column_names := None; seds_loaded := false; mag_array := None;
     phot_params := None; star_df_acc := []; visit_on := 0 |}.

(** The catalog of one visit, lines 117-127. *)
Definition star_constraint : sql_constraint := gmag_gt 11.   (* 'gmag > 11' *)

Definition chunk_of (E : Env) (db : list Star) (obs_metadata : ObsMetaData)
  : list Star :=
  iter_catalog E db obs_metadata star_constraint.

(** Lines 131-139: the SEDs and their magnitudes, loaded when
    [seds_loaded] is still [False]. *)
Definition load_seds (E : Env) (bp_dict : gmap string Bandpass) (st : Locals)
    (chunk_data : list Star)
  : Py World (option (gmap string (list F)) * option PhotParams) :=
  (if seds_loaded st then ret (mag_array st, phot_params st)
   else
     log (SedListLoad (map sed_entry chunk_data)) ;;;
     sed_list <- lift (SedList E (map sed_entry chunk_data)) ;;
     log (MagArrayForSedList sed_list) ;;;
     log NewPhotometricParameters ;;;
     ret (Some (magArrayForSedList E bp_dict sed_list),
          Some (PhotometricParameters E)))%py.

(** One iteration of the second loop, lines 113-172.  Stacking the columns
    with the filter names turns the numbers into strings, and lines 161-172
    turn them back; the columns are typed here and the round trip is taken
    to give the numbers back. *)
Definition visit_step (E : Env) (bp_dict : gmap string Bandpass) (total : nat)
    (st : Locals) (obs_metadata : ObsMetaData) : Py World Locals :=
  ((if decide (visit_on st mod 100 = 0)%nat
    then log (PrintFluxes (visit_on st + 1) total) else ret tt) ;;;
   w <- get ;;
   log (CatalogQuery obs_metadata star_constraint) ;;;
   let chunk_data := chunk_of E (dbConn (self w)) obs_metadata in
   let column_names' :=
     match column_names st with
     | None => Some (iter_column_names E)
     | Some c => Some c
     end in
   loaded <- load_seds E bp_dict st chunk_data ;;
   mag_array' <- local "mag_array" (fst loaded) ;;
   inputs <- lift (visit_inputs bp_dict mag_array' (snd loaded) obs_metadata) ;;
   log (CalcSNR_m5 (fst (fst inputs)) (obs_filter obs_metadata)
          (fiveSigmaDepth obs_metadata)) ;;;
   visit_df <- lift (visit_rows E chunk_data obs_metadata inputs) ;;
   ret {| column_names := column_names'; seds_loaded := true;
          mag_array := Some mag_array'; phot_params := snd loaded;
          star_df_acc := star_df_acc st ++ visit_df;
          visit_on := visit_on st + 1 |})%py.

(** The first loop, lines 87-98: one metadata record per visit id. *)
Definition metadata_step (E : Env) (opsim : string) (total : nat)
    (acc : nat * list ObsMetaData) (obsHistID : Z)
  : Py World (nat * list ObsMetaData) :=
  ((if decide (fst acc mod 100 = 0)%nat
    then log (PrintObsMetadata (fst acc + 1) total) else ret tt) ;;;
   log (GetObservationMetaData obsHistID) ;;;
   match getObservationMetaData E opsim obsHistID with
   | [] => raise IndexError
   | m :: _ => ret (fst acc + 1, snd acc ++ [m])%nat
   end)%py.

(** Lines 82-85 and the [for] of line 89: the visit ids the loops run
    over.  The column read from the visits file cannot be iterated when it
    is a scalar. *)
Definition visit_ids (E : Env) (for_obsHistIds : option (list Z))
  : Py World (list Z) :=
  (match for_obsHistIds with
   | None =>
       log ReadSelectedVisits ;;;
       survey_info <- lift (selectedVisits E) ;;
       match survey_info with
       | id_array ids => ret ids
       | id_scalar _ => raise (TypeError "iteration over a 0-d array")
       end
   | Some l => ret l
   end)%py.

(** [TrueStars.get_true_stars], lines 65-174.  [bp_indices] (lines 104-106)
    is never read and is left out. *)
Definition get_true_stars (E : Env) (for_obsHistIds : option (list Z))
  : Py World unit :=
  (ids <- visit_ids E for_obsHistIds ;;
   w <- get ;;
   acc <- for_fold ids (0%nat, []) (metadata_step E (opsimDB (self w)) (length ids)) ;;
   let obs_metadata_list := snd acc in
   log LoadTotalBandpasses ;;;
   bp_dict <- lift (loadTotalBandpassesFromFiles E) ;;
   st <- for_fold obs_metadata_list initial_locals
           (visit_step E bp_dict (length ids)) ;;
   set_star_df (star_df_acc st))%py.

(** The names for which ['sqlite:///%s' % filename] denotes a database in
    memory, which is gone when the engine is dropped at the end of the
    call. *)
Definition in_memory (filename : string) : bool :=
  String.eqb filename "" || String.eqb filename ":memory:".

(** [TrueStars.write_to_db], lines 176-190.  [to_sql] opens the file of
    the engine, which can fail, refuses to overwrite an existing table and
    writes the frame's index along with its rows. *)
Definition to_sql (E : Env) (df : list DfRow) (name : string) (filename : string)
  : Py World unit :=
  (if in_memory filename then ret tt
   else
     lift (connect E filename) ;;;
     w <- get ;;
     let db := default ∅ (files w !! filename) in
     match db !! name with
     | Some _ => raise (ValueError "Table already exists.")
     | None =>
         modify (fun w => {| self := self w; events := events w;
                             files := <[filename := <[name := imap (fun i r => (i, r)) df]> db]>
                                        (files w) |})
     end)%py.

Definition write_to_db (E : Env) (filename : string) (table_name : string)
  : Py World unit :=
  (w <- get ;;
   df <- attribute "star_df" (star_df (self w)) ;;
   to_sql E df "stars" filename)%py.

(** Reading a table of a file back. *)
Definition read_table (w : World) (filename table_name : string)
  : option (list DfRow) :=
  db ← files w !! filename; t ← db !! table_name; Some (map snd t).

(** ** Vocabulary of the statements *)

Definition add_events (evs : list event) (w : World) : World :=
  {| self := self w; events := events w ++ evs; files := files w |}.

(** The progress line of an iteration (lines 113-115). *)
Definition progress (st : Locals) (total : nat) : list event :=
  if decide (visit_on st mod 100 = 0)%nat
  then [PrintFluxes (visit_on st + 1) total] else [].

(** The locals at the end of an iteration. *)
Definition next_locals (E : Env) (st : Locals) (ma : gmap string (list F))
    (pp : option PhotParams) (visit_df : list DfRow) : Locals :=
  {| column_names := match column_names st with
                     | None => Some (iter_column_names E)
                     | Some c => Some c
                     end;
     seds_loaded := true; mag_array := Some ma; phot_params := pp;
     star_df_acc := star_df_acc st ++ visit_df; visit_on := visit_on st + 1 |}.

Definition is_query (e : event) : bool :=
  match e with CatalogQuery _ _ => true | _ => false end.

Definition is_sed_load (e : event) : bool :=
  match e with SedListLoad _ => true | _ => false end.

Definition is_mag_array (e : event) : bool :=
  match e with MagArrayForSedList _ => true | _ => false end.

Definition is_load (e : event) : bool := is_sed_load e || is_mag_array e.

(** The query of a visit is issued with the fixed constraint. *)
Definition query_of (obs : ObsMetaData) : event :=
  CatalogQuery obs star_constraint.

(** Events of the iterations that follow the first. *)
Definition later_event (e : event) : Prop :=
  is_load e = false /\ (is_query e = true -> exists obs, e = query_of obs).

(** Events that are neither a query nor a load. *)
Definition quiet_event (e : event) : Prop :=
  is_load e = false /\ is_query e = false.

(** The loads of the first iteration: the SED list, then (if it loaded)
    the magnitude array. *)
Definition first_loads (E : Env) (chunk0 : list Star) (L : list event) : Prop :=
  L = [SedListLoad (map sed_entry chunk0)] \/
  exists seds, SedList E (map sed_entry chunk0) = Ok seds /\
    L = [SedListLoad (map sed_entry chunk0); MagArrayForSedList seds].

(** The shape of the events of one call: the metadata phase, then the
    first visit with its loads, then the later visits. *)
Definition trace_shape (E : Env) (db : list Star) (new : list event) : Prop :=
  Forall quiet_event new \/
  exists P obs0 L C,
    new = P ++ query_of obs0 :: L ++ C /\ Forall quiet_event P /\
    first_loads E (chunk_of E db obs0) L /\ Forall later_event C.

(** The ids a call works on (lines 82-89). *)
Definition ids_of (E : Env) (for_obsHistIds : option (list Z)) : result (list Z) :=
  match for_obsHistIds with
  | None =>
      match selectedVisits E with
      | Ok (id_array ids) => Ok ids
      | Ok (id_scalar _) => Raise (TypeError "iteration over a 0-d array")
      | Raise e => Raise e
      end
  | Some l => Ok l
  end.

(** The read of the visits file, made when no ids are given. *)
Definition read_events (for_obsHistIds : option (list Z)) : list event :=
  match for_obsHistIds with
  | None => [ReadSelectedVisits]
  | Some _ => []
  end.

(** The call of [calcSNR_m5] of a visit, made when its arguments can be
    evaluated. *)
Definition snr_call (bp_dict : gmap string Bandpass)
    (mag_array : gmap string (list F)) (phot_params : option PhotParams)
    (obs : ObsMetaData) : list event :=
  match visit_inputs bp_dict mag_array phot_params obs with
  | Ok inputs => [CalcSNR_m5 (fst (fst inputs)) (obs_filter obs) (fiveSigmaDepth obs)]
  | Raise _ => []
  end.

(** The visits a list of ids stands for: the first metadata record of each. *)
Definition visits_of (E : Env) (opsim : string) (ids : list Z)
    (obs_list : list ObsMetaData) : Prop :=
  Forall2 (fun id obs => head (getObservationMetaData E opsim id) = Some obs)
    ids obs_list.

(** The table a successful call leaves: visit after visit, the rows
    computed from the magnitudes of the first visit's SEDs. *)
Definition run_tables (E : Env) (db : list Star) (obs_list : list ObsMetaData)
    (df : list DfRow) : Prop :=
  exists bp_dict,
    loadTotalBandpassesFromFiles E = Ok bp_dict /\
    match obs_list with
    | [] => df = []
    | obs0 :: _ =>
        exists seds blocks,
          SedList E (map sed_entry (chunk_of E db obs0)) = Ok seds /\
          df = concat blocks /\
          Forall2 (fun obs block =>
                     visit_table E bp_dict (magArrayForSedList E bp_dict seds)
                       (Some (PhotometricParameters E)) (chunk_of E db obs) obs
                     = Ok block) obs_list blocks
    end.

(** The row of a star in a visit when its magnitudes are those of [sed]. *)
Definition star_row (E : Env) (bp : Bandpass) (obs : ObsMetaData) (s : Star)
    (sed : Sed) : DfRow :=
  let m := calcMag E sed bp in
  {| df_uniqueId := uniqueId s; df_ra := raJ2000 s; df_dec := decJ2000 s;
     df_filter := obs_filter obs;
     df_true_flux := flux_of_mag m;
     df_true_flux_error :=
       fdiv (flux_of_mag m)
            (fst (calcSNR_m5 E m bp (fiveSigmaDepth obs) (PhotometricParameters E)));
     df_obsHistId := obsHistID obs |}.

(** The magnitude of a star in a bandpass: that of its own SED. *)
Definition star_mag (E : Env) (s : Star) (visit_filter : string) : option F :=
  match load_sed E (sed_entry s), loadTotalBandpassesFromFiles E with
  | Ok sed, Ok bp_dict =>
      match bp_dict !! visit_filter with
      | Some bp => Some (calcMag E sed bp)
      | None => None
      end
  | _, _ => None
  end.

(** The signal-to-noise ratio the external routine gives a star in a
    visit: for the star's magnitude, the visit's bandpass and depth. *)
Definition star_snr (E : Env) (s : Star) (obs : ObsMetaData) : option F :=
  match load_sed E (sed_entry s), loadTotalBandpassesFromFiles E with
  | Ok sed, Ok bp_dict =>
      match bp_dict !! obs_filter obs with
      | Some bp =>
          Some (fst (calcSNR_m5 E (calcMag E sed bp) bp (fiveSigmaDepth obs)
                       (PhotometricParameters E)))
      | None => None
      end
  | _, _ => None
  end.

(** A visit whose query returns, row for row, the SED inputs of the
    reference visit. *)
Definition same_sed_inputs (E : Env) (db : list Star) (obs0 obs : ObsMetaData)
  : Prop :=
  map sed_entry (chunk_of E db obs) = map sed_entry (chunk_of E db obs0).

(** [TrueStars.__init__], lines 57-63: the observation-metadata generator
    is the environment's [getObservationMetaData] at [opsimDB]. *)
Definition TrueStars_new (dbConn : list Star) (opsimDB_filename : string)
  : TrueStars :=
  {| dbConn := dbConn; opsimDB := opsimDB_filename; star_df := None |}.

(** The events of the first loop from counter [start] on: a progress line
    when the counter is a multiple of 100, then the metadata request. *)
Fixpoint meta_events (total start : nat) (ids : list Z) : list event :=
  match ids with
  | [] => []
  | id :: rest =>
      (if decide (start mod 100 = 0)%nat
       then [PrintObsMetadata (start + 1) total] else [])
      ++ [GetObservationMetaData id] ++ meta_events total (start + 1) rest
  end.

(** The call of [calcSNR_m5] of a visit whose filter the magnitude array
    [ma] has. *)
Definition snr_event (ma : gmap string (list F)) (obs : ObsMetaData) : event :=
  CalcSNR_m5 (default [] (ma !! obs_filter obs)) (obs_filter obs) (fiveSigmaDepth obs).

(** The events of the visits after the first, from counter [start] on: a
    progress line when the counter is a multiple of 100, the catalog query
    and the signal-to-noise call. *)
Fixpoint visit_events (ma : gmap string (list F)) (total start : nat)
    (obs_list : list ObsMetaData) : list event :=
  match obs_list with
  | [] => []
  | obs :: rest =>
      (if decide (start mod 100 = 0)%nat
       then [PrintFluxes (start + 1) total] else [])
      ++ [query_of obs; snr_event ma obs] ++ visit_events ma total (start + 1) rest
  end.

(** All the events of a successful call on [ids], whose visits are
    [obs_list], whose bandpasses are [bp_dict] and whose first visit's SEDs
    are [seds]. *)
Definition call_events (E : Env) (db : list Star)
    (for_obsHistIds : option (list Z)) (ids : list Z)
    (obs_list : list ObsMetaData) (bp_dict : gmap string Bandpass)
    (seds : list Sed) : list event :=
  read_events for_obsHistIds ++ meta_events (length ids) 0 ids ++
  [LoadTotalBandpasses] ++
  match obs_list with
  | [] => []
  | obs0 :: rest =>
      let ma := magArrayForSedList E bp_dict seds in
      [PrintFluxes 1 (length ids); query_of obs0;
       SedListLoad (map sed_entry (chunk_of E db obs0)); MagArrayForSedList seds;
       NewPhotometricParameters; snr_event ma obs0]
      ++ visit_events ma (length ids) 1 rest
  end.

(** A star brighter than a cutoff: its magnitude is the smaller number. *)
Definition brighter_than (cutoff : F) (s : Star) : bool := fgt cutoff (gmag s).

End TrueStars.

Arguments Star F : clear implicits.
Arguments ObsMetaData F : clear implicits.
Arguments SedEntry F : clear implicits.
Arguments DfRow F : clear implicits.
Arguments Env F Bandpass Sed PhotParams : clear implicits.
Arguments TrueStars F : clear implicits.
Arguments event F Sed : clear implicits.
Arguments SqlTable F : clear implicits.
Arguments World F Sed : clear implicits.
Arguments Locals F PhotParams : clear implicits.
End CreateTruthDB.

(** * Concrete inputs *)

Module monitor_demo.
Import monitor.

Definition obj1 : ObjRow R := {| obj_ra := lit 53.010; obj_dec := lit (-27.440) |}.
Definition obj2 : ObjRow R := {| obj_ra := lit 53.012; obj_dec := lit (-27.441) |}.

Definition fs1 : FsRow R :=
  {| fs_filter := "r"; fs_obs_start := "2022-09-17 04:12:31"; fs_visit_id := 200%Z;
     fs_psf_flux := lit 1523.4; fs_psf_flux_err := lit 21.7 |}.

Definition fs2 : FsRow R :=
  {| fs_filter := "g"; fs_obs_start := "2022-09-20 05:01:02"; fs_visit_id := 230%Z;
     fs_psf_flux := lit 1498.0; fs_psf_flux_err := lit 25.2 |}.

(** A connection whose coordinate lookup returns [matches]. *)
Definition db (matches : list (ObjRow R)) : dbInterface R :=
  {| objectFromId := fun _ => [obj1];
     all_fs_visits_from_id := fun _ => [fs1; fs2];
     objectFromRaDec := fun _ _ _ => matches |}.

Definition fits_row (id : Z) : FitsRow R :=
  {| objectId := id; coord_ra := lit 0.9252; coord_dec := lit (-0.4789);
     base_PsfFlux_flux := lit 1523.4; base_PsfFlux_fluxSigma := lit 21.7 |}.

(** A date file of two lines, both for visit 200, and the items a loop
    over it yields. *)
Definition date_file : ndarray R :=
  array2 [[lit 200; lit 59839.100]; [lit 200; lit 59839.175]].

Definition date_items : list (item R) :=
  [item_row [lit 200; lit 59839.100]; item_row [lit 200; lit 59839.175]].

(** One visit, number 200 in the r band, whose table holds objects 7 and 8.
    [Time] refuses an empty column and dates every start time alike. *)
Definition demo_env : Env R :=
  {| throughputs_dir := "/opt/lsst/throughputs";
     load_bandpass := fun _ _ => Ok tt;
     genfromtxt_mjd := fun _ => Ok date_file;
     str_int := fun _ => Ok "200";
     listdir := fun _ => Ok ["v200-fr"];
     fits_open := fun _ => Ok [fits_row 7; fits_row 8];
     Time_mjd := fun starts =>
       match starts with
       | [] => None
       | _ => Some (map (fun _ => lit 59839.175) starts)
       end |}.

(** The same files with a date file of one line, which [np.genfromtxt]
    reads as a vector. *)
Definition one_line_env : Env R :=
  {| throughputs_dir := throughputs_dir demo_env;
     load_bandpass := load_bandpass demo_env;
     genfromtxt_mjd := fun _ => Ok (array1 [lit 200; lit 59839.175]);
     str_int := str_int demo_env;
     listdir := listdir demo_env;
     fits_open := fits_open demo_env;
     Time_mjd := Time_mjd demo_env |}.

(** [LightCurve(dbConn)] with every other argument left at its default,
    before any method is called. *)
Definition fresh (matches : list (ObjRow R)) : World R :=
  {| self := blank (db matches); events := [] |}.

Definition here : R * R := (lit 53.010, lit (-27.440)).
Definition default_tol : R := lit 0.005.

(** [LightCurve(dbConn, '/data/fp', 'mjd.csv')] in [demo_env]: visit 200 is
    filed under r and dated. *)
Definition file_vm : gmap string (list string) :=
  <["r" := ["200"]]> (list_to_map (map (fun x => (x, [])) default_filter_list)).

Definition file_mjds : gmap string R := {[ "200" := lit 59839.175 ]}.

Definition file_object : LightCurve R :=
  set_visit_map file_vm
    (set_visit_mjd file_mjds (prepared (db []) "/data/fp" default_filter_list)).

Definition file_world : World R := {| self := file_object; events := [] |}.

(** The same instance with the date of visit 200 missing. *)
Definition undated_world : World R :=
  {| self := set_visit_mjd ∅ file_object; events := [] |}.

(** A connection that knows no object and has no forced-source row. *)
Definition empty_db : dbInterface R :=
  {| objectFromId := fun _ => [];
     all_fs_visits_from_id := fun _ => [];
     objectFromRaDec := fun _ _ _ => [] |}.

End monitor_demo.

Module CreateTruthDB_demo.
Import CreateTruthDB.

(** Three stars of magnitudes 22.5, 20 and 10. *)
Definition star (id : Z) (mag : Q) (sed : string) : Star R :=
  {| uniqueId := id; raJ2000 := lit 0.925; decJ2000 := lit (-0.478);
     gmag := lit mag; sedFilepath := sed; phoSimMagNorm := lit mag;
     galacticAv := lit 0.03 |}.

Definition starA : Star R := star 1 22.5 "starSED/kurucz/a.txt.gz".
Definition starB : Star R := star 2 20 "starSED/kurucz/b.txt.gz".
Definition starC : Star R := star 3 10 "starSED/kurucz/c.txt.gz".

Definition demo_db : list (Star R) := [starA; starB; starC].

(** Visit [id]: odd visits are taken in r, even ones in g, each with its
    own pointing. *)
Definition visit (id : Z) : ObsMetaData R :=
  {| pointingRA := lit (53 + inject_Z id * 0.2); pointingDec := lit (-27.4);
     obs_filter := if Z.even id then "g" else "r";
     fiveSigmaDepth := lit 22.5; obsHistID := id |}.

(** The two bandpasses of the throughput files, named by their file. *)
Definition demo_bandpasses : gmap string string :=
  {[ "g" := "total_g.dat"; "r" := "total_r.dat" ]}.

(** Bandpasses are named by their file, a loaded SED by its entry.  Visit 1
    is pointed so that star B falls outside its field and visit 2 so that
    star A does; every other visit sees all three stars.  The magnitude of
    an SED is its normalisation in every band, and the signal-to-noise
    ratio is 5 at the five-sigma depth. *)
Definition demo_env : Env R string (SedEntry R) unit :=
  {| selectedVisits := Ok (id_array [3; 4]%Z);
     getObservationMetaData := fun _ id => [visit id];
     in_field := fun obs s =>
       match obsHistID obs with
       | 1%Z => negb (uniqueId s =? 2)%Z
       | 2%Z => negb (uniqueId s =? 1)%Z
       | _ => true
       end;
     iter_column_names := ["uniqueId"; "raJ2000"; "decJ2000"; "sedFilepath";
                           "phoSimMagNorm"; "galacticAv"];
     loadTotalBandpassesFromFiles := Ok demo_bandpasses;
     load_sed := fun e => Ok e;
     calcMag := fun sed _ => sed_magNorm sed;
     PhotometricParameters := tt;
     calcSNR_m5 := fun m _ m5 _ =>
       (fmul (lit 5) (fpower (lit 10) (fmul (lit 0.4) (fsub m5 m))), lit 0.039);
     connect := fun filename =>
       if String.prefix "/missing/" filename then Raise (IOError filename) else Ok tt |}.

Definition demo_world : World R (SedEntry R) :=
  {| self := {| dbConn := demo_db; opsimDB := "minion_1016_sqlite.db";
                star_df := None |};
     events := []; files := ∅ |}.

(** The table of visits 1 and 2, between which the field drifts: the row
    written for star B in visit 2 is computed from the SED of star A. *)
Definition drifted_row : DfRow R :=
  star_row demo_env "total_g.dat" (visit 2) starB (sed_entry starA).

Definition drifted_df : list (DfRow R) :=
  [star_row demo_env "total_r.dat" (visit 1) starA (sed_entry starA); drifted_row].

(** The table of the default visits 3 and 4, which see the same stars. *)
Definition steady_df : list (DfRow R) :=
  [star_row demo_env "total_r.dat" (visit 3) starA (sed_entry starA);
   star_row demo_env "total_r.dat" (visit 3) starB (sed_entry starB);
   star_row demo_env "total_g.dat" (visit 4) starA (sed_entry starA);
   star_row demo_env "total_g.dat" (visit 4) starB (sed_entry starB)].

(** A builder that holds a one-row table, and no file on disk yet. *)
Definition demo_df : list (DfRow R) :=
  [star_row demo_env "total_r.dat" (visit 1) starA (sed_entry starA)].

Definition built_world : World R (SedEntry R) :=
  {| self := {| dbConn := demo_db; opsimDB := "minion_1016_sqlite.db";
                star_df := Some demo_df |};
     events := []; files := ∅ |}.

(** An OpSim database without visit 9. *)
Definition sparse_env : Env R string (SedEntry R) unit :=
  {| selectedVisits := selectedVisits demo_env;
     getObservationMetaData := fun _ id => if (id =? 9)%Z then [] else [visit id];
     in_field := in_field demo_env;
     iter_column_names := iter_column_names demo_env;
     loadTotalBandpassesFromFiles := loadTotalBandpassesFromFiles demo_env;
     load_sed := load_sed demo_env;
     calcMag := calcMag demo_env;
     PhotometricParameters := tt;
     calcSNR_m5 := calcSNR_m5 demo_env;
     connect := connect demo_env |}.

(** An SED library in which the file of star B is missing. *)
Definition broken_env : Env R string (SedEntry R) unit :=
  {| selectedVisits := selectedVisits demo_env;
     getObservationMetaData := getObservationMetaData demo_env;
     in_field := in_field demo_env;
     iter_column_names := iter_column_names demo_env;
     loadTotalBandpassesFromFiles := loadTotalBandpassesFromFiles demo_env;
     load_sed := fun e =>
       if String.eqb (sed_name e) "starSED/kurucz/b.txt.gz"
       then Raise (IOError (sed_name e)) else Ok e;
     calcMag := calcMag demo_env;
     PhotometricParameters := tt;
     calcSNR_m5 := calcSNR_m5 demo_env;
     connect := connect demo_env |}.

End CreateTruthDB_demo.

(** * Properties *)

Example last_char_of_visit_dir : last_char "v200-fr" = Some "r".
Proof. reflexivity. Qed.

Example slice_of_visit_dir : slice_1_m3 "v200-fr" = "200".
Proof. reflexivity. Qed.

Example slice_of_short_name : slice_1_m3 "ab" = "".
Proof. reflexivity. Qed.

Lemma bind_Ok_inv {W A B} (m : Py W A) (k : A -> Py W B) w b w' :
  bind m k w = (Ok b, w') ->
  exists a w1, m w = (Ok a, w1) /\ k a w1 = (Ok b, w').
Proof.
  unfold bind. destruct (m w) as [[a|e] w1]; intros Hk.
  - exists a, w1. split; [reflexivity | exact Hk].
  - discriminate Hk.
Qed.

Lemma bind_Raise_inv {W A B} (m : Py W A) (k : A -> Py W B) w e w' :
  bind m k w = (Raise e, w') ->
  m w = (Raise e, w') \/ exists a w1, m w = (Ok a, w1) /\ k a w1 = (Raise e, w').
Proof.
  unfold bind. destruct (m w) as [[a|e0] w1]; intros Hk.
  - right. exists a, w1. split; [reflexivity | exact Hk].
  - left. injection Hk as -> ->. reflexivity.
Qed.

Lemma for_each_invariant {W A} (P : W -> Prop) (l : list A)
    (body : A -> Py W unit) :
  (forall x w r w', P w -> body x w = (r, w') -> P w') ->
  forall w r w', P w -> for_each l body w = (r, w') -> P w'.
Proof.
  intros Hbody. induction l as [|x l IH]; intros w r w' Hw Hrun; simpl in Hrun.
  - injection Hrun as _ <-. exact Hw.
  - unfold bind in Hrun. destruct (body x w) as [[u|e] w1] eqn:Hx.
    + apply (IH w1 r w'); [eapply Hbody; eauto | exact Hrun].
    + injection Hrun as _ <-. eapply Hbody; eauto.
Qed.

Module monitor_spec.
Import monitor.
Section Properties.
Context {F : Type} `{Float F}.

Lemma from_db_neither (E : Env F) (tol : F) w :
  build_lightcurve_from_db E None None tol w = (Raise (ValueError msg_neither), w).
Proof. reflexivity. Qed.

Lemma from_db_both (E : Env F) id rd (tol : F) w :
  build_lightcurve_from_db E (Some id) (Some rd) tol w = (Raise (ValueError msg_both), w).
Proof. reflexivity. Qed.

Lemma from_db_objid (E : Env F) id (tol : F) w :
  build_lightcurve_from_db E (Some id) None tol w =
  let db := dbConn_lc (self w) in
  let ev := events w ++ [DbObjectFromId id] ++ [DbAllFsVisitsFromId id] in
  let fs_info := all_fs_visits_from_id db id in
  let n := length fs_info in
  match Time_mjd E (map fs_obs_start fs_info) with
  | None => (Raise (ValueError msg_time), {| self := self w; events := ev |})
  | Some mjd =>
      match objectFromId db id with
      | [] => (Raise IndexError, {| self := self w; events := ev |})
      | o :: _ =>
          match Table_of
            {| col_bandpass := map (fun x => "lsst" +:+ x) (map fs_filter fs_info);
               col_obsHistId := Some (map fs_visit_id fs_info);
               col_mjd := mjd;
               col_ra := replicate n (obj_ra o);
               col_dec := replicate n (obj_dec o);
               col_flux := map fs_psf_flux fs_info;
               col_flux_error := map fs_psf_flux_err fs_info;
               col_zp := replicate n (lit 25.0);
               col_zpsys := replicate n "ab" |} with
          | Raise e => (Raise e, {| self := self w; events := ev |})
          | Ok t => (Ok tt, {| self := set_lightcurve (Some t) (self w); events := ev |})
          end
      end
  end.
Proof.
  unfold build_lightcurve_from_db, bind, log, modify, get, ret, raise, local, lift,
    set_self. simpl.
  rewrite <- app_assoc. simpl.
  destruct (Time_mjd E _) as [mjd|]; [|reflexivity].
  destruct (objectFromId (dbConn_lc (self w)) id) as [|o rest]; [reflexivity|].
  simpl. destruct (Table_of _) as [t|e]; reflexivity.
Qed.

Lemma from_db_ra_dec (E : Env F) ra dec (tol : F) w :
  build_lightcurve_from_db E None (Some (ra, dec)) tol w =
  let obj_info := objectFromRaDec (dbConn_lc (self w)) ra dec tol in
  let ev := events w ++ [DbObjectFromRaDec ra dec tol] in
  match obj_info with
  | [] => (Raise (ValueError "No objects within specified ra,dec range."),
           {| self := self w; events := ev |})
  | [_] => (Raise (UnboundLocalError "fs_info"), {| self := self w; events := ev |})
  | _ => (Raise (UnboundLocalError "fs_info"),
          {| self := self w; events := ev ++ [Print obj_info] |})
  end.
Proof.
  unfold build_lightcurve_from_db, bind, log, modify, get, ret, local, set_self. simpl.
  destruct (objectFromRaDec (dbConn_lc (self w)) ra dec tol) as [|o [|o' rest]]; reflexivity.
Qed.

(** C3.  A call to [build_lightcurve_from_db] that is given both an object
    id and a sky coordinate, or neither, raises [ValueError] with the
    message that says which of the two mistakes was made. *)
Theorem from_db_invalid_selectors (E : Env F) objid ra_dec (tol : F) w :
  (objid = None /\ ra_dec = None) \/ (objid <> None /\ ra_dec <> None) ->
  fst (build_lightcurve_from_db E objid ra_dec tol w) =
  Raise (ValueError (match objid with None => msg_neither | Some _ => msg_both end)).
Proof.
  intros [[-> ->] | [Ho Hr]].
  - reflexivity.
  - destruct objid as [id|]; [|congruence]. destruct ra_dec as [rd|]; [|congruence].
    reflexivity.
Qed.

(** C10.  Whenever [build_lightcurve_from_db] raises one of its two
    invalid-argument errors, both selectors or neither were supplied, no
    event was added to the log (so no database lookup had been made) and
    the [lightcurve] attribute is what it was before the call. *)
Theorem from_db_invalid_before_lookup (E : Env F) objid ra_dec (tol : F) w msg :
  fst (build_lightcurve_from_db E objid ra_dec tol w) = Raise (ValueError msg) ->
  msg = msg_neither \/ msg = msg_both ->
  ((objid = None /\ ra_dec = None) \/ (objid <> None /\ ra_dec <> None)) /\
  events (snd (build_lightcurve_from_db E objid ra_dec tol w)) = events w /\
  lightcurve (self (snd (build_lightcurve_from_db E objid ra_dec tol w)))
    = lightcurve (self w).
Proof.
  destruct objid as [id|], ra_dec as [[ra dec]|].
  - intros _ _. rewrite from_db_both. simpl. split; [right; split; congruence | auto].
  - rewrite from_db_objid. cbv zeta.
    destruct (Time_mjd E _) as [mjd|]; simpl.
    + destruct (objectFromId _ id); simpl; [intros Hr; discriminate Hr|].
      unfold Table_of. destruct (decide _); simpl; intros Hr; [discriminate Hr|].
      injection Hr as <-. intros [Hm | Hm]; discriminate Hm.
    + intros Hr. injection Hr as <-. intros [Hm | Hm]; discriminate Hm.
  - rewrite from_db_ra_dec. simpl.
    destruct (objectFromRaDec _ ra dec tol) as [|o [|o' rest]]; simpl; intros Hr;
      try discriminate Hr.
    injection Hr as <-. intros [Hm | Hm]; discriminate Hm.
  - intros _ _. rewrite from_db_neither. simpl. split; [left; split; reflexivity | auto].
Qed.

Lemma init_sets_lightcurve (E : Env F) dir mjd_file filter_list (o0 : LightCurve F) r o :
  init E (Some dir) mjd_file filter_list o0 = (r, o) ->
  r = Ok tt -> lightcurve o = Some None.
Proof.
  unfold init. intros Hrun ->.
  apply bind_Ok_inv in Hrun as (u & o1 & _ & Hrun).
  unfold bind at 1 2 3 4 5, modify at 1 2 3 4 5 in Hrun. simpl in Hrun.
  apply bind_Ok_inv in Hrun as (mjd_list & o2 & Hmjd & Hrun).
  unfold lift in Hmjd. injection Hmjd as _ <-.
  apply bind_Ok_inv in Hrun as (visit_dates & o2' & Hdates & Hrun).
  unfold lift in Hdates. injection Hdates as _ <-.
  apply bind_Ok_inv in Hrun as (u1 & o3 & Hloop1 & Hrun).
  apply bind_Ok_inv in Hrun as (dirs & o4 & Hdirs & Hloop2).
  unfold lift in Hdirs. injection Hdirs as _ <-.
  set (P := fun x : LightCurve F => lightcurve x = Some None).
  assert (H3 : P o3).
  { eapply (for_each_invariant P); [| |exact Hloop1]; [|reflexivity].
    intros x w r w' Hw Hx.
    unfold date_body, bind, get, attribute, modify, raise, ret, lift in Hx.
    destruct (item_index x 1); [|injection Hx as _ <-; exact Hw].
    destruct (visit_mjd w); [|injection Hx as _ <-; exact Hw].
    destruct (item_index x 0); [|injection Hx as _ <-; exact Hw].
    destruct (str_int E _); injection Hx as _ <-; exact Hw. }
  eapply (for_each_invariant P); [| exact H3 |exact Hloop2].
  intros x w r w' Hw Hx. unfold bind, get, attribute, modify, raise, ret in Hx.
  destruct (last_char x); [|injection Hx as _ <-; exact Hw].
  destruct (visit_map w) as [vm|]; [|injection Hx as _ <-; exact Hw].
  destruct (vm !! s); injection Hx as _ <-; exact Hw.
Qed.

Lemma init_without_table_dir (E : Env F) mjd_file filter_list (o0 : LightCurve F) r o :
  init E None mjd_file filter_list o0 = (r, o) -> o = o0.
Proof.
  unfold init. intros Hrun.
  assert (Hloop : forall l w r' w',
    for_each l (fun filter_name : string =>
       lift (W:=LightCurve F) (load_bandpass E
               (throughputs_dir E +:+ "/baseline/total_" +:+ filter_name +:+ ".dat")
               ("lsst" +:+ filter_name))) w = (r', w') -> w' = w).
  { intros l w r' w'. apply (for_each_invariant (fun x => x = w)); [|reflexivity].
    intros x w1 r1 w1' -> Hx. unfold lift in Hx. injection Hx as _ <-. reflexivity. }
  unfold bind in Hrun.
  destruct (for_each filter_list _ o0) as [[u|e] o1] eqn:Hl; apply Hloop in Hl; subst o1.
  - unfold ret in Hrun. injection Hrun as _ <-. reflexivity.
  - injection Hrun as _ <-. reflexivity.
Qed.

(** An instance built over a forced-photometry directory refuses to plot
    before a light curve is built. *)
Lemma visualize_before_build (E : Env F) dbConn dir mjd_file filter_list o ev :
  new E dbConn (Some dir) mjd_file filter_list = Ok o ->
  visualize_lightcurve {| self := o; events := ev |} =
  (Raise (ValueError "No lightcurve yet. Use build_lightcurve first."),
   {| self := o; events := ev |}).
Proof.
  unfold new. destruct (init _ _ _ _ _) as [[u|e] o1] eqn:Hinit; [|discriminate].
  intros Ho. injection Ho as ->. destruct u.
  pose proof (init_sets_lightcurve _ _ _ _ _ _ _ Hinit eq_refl) as Hlc.
  unfold visualize_lightcurve, bind, get, attribute. simpl. rewrite Hlc. reflexivity.
Qed.

(** Without a forced-photometry directory the attribute is never assigned. *)
Lemma visualize_without_attribute (E : Env F) dbConn mjd_file filter_list o ev :
  new E dbConn None mjd_file filter_list = Ok o ->
  visualize_lightcurve {| self := o; events := ev |} =
  (Raise (AttributeError "lightcurve"), {| self := o; events := ev |}).
Proof.
  unfold new. destruct (init _ _ _ _ _) as [[u|e] o1] eqn:Hinit; [|discriminate].
  intros Ho. injection Ho as ->. apply init_without_table_dir in Hinit. subst o.
  reflexivity.
Qed.

Lemma visualize_stored_table (w : World F) t :
  lightcurve (self w) = Some (Some t) ->
  visualize_lightcurve w =
  (Ok (plot_lc t), {| self := self w; events := events w ++ [PlotLc t] |}).
Proof.
  intros Hlc. unfold visualize_lightcurve, bind, get, attribute. simpl.
  rewrite Hlc. reflexivity.
Qed.

Lemma build_lightcurve_stores (E : Env F) objid w w' :
  build_lightcurve E objid w = (Ok tt, w') ->
  exists t, lightcurve (self w') = Some (Some t).
Proof.
  unfold build_lightcurve. intros Hrun.
  apply bind_Ok_inv in Hrun as (w0 & w1 & _ & Hrun).
  apply bind_Ok_inv in Hrun as (bps & w2 & _ & Hrun).
  apply bind_Ok_inv in Hrun as (lc & w3 & _ & Hset).
  unfold set_self, modify in Hset. injection Hset as <-. exists lc. reflexivity.
Qed.

Lemma build_lightcurve_from_db_stores (E : Env F) objid ra_dec (tol : F) w w' :
  build_lightcurve_from_db E objid ra_dec tol w = (Ok tt, w') ->
  exists t, lightcurve (self w') = Some (Some t).
Proof.
  destruct objid as [id|], ra_dec as [[ra dec]|].
  - rewrite from_db_both. discriminate.
  - rewrite from_db_objid. cbv zeta.
    destruct (Time_mjd E _) as [mjd|]; [|discriminate].
    destruct (objectFromId _ id); [discriminate|].
    destruct (Table_of _) as [t|e]; [|discriminate].
    intros Hr. injection Hr as <-. eexists. reflexivity.
  - rewrite from_db_ra_dec. simpl.
    destruct (objectFromRaDec _ ra dec tol) as [|o [|o' rest]]; discriminate.
  - rewrite from_db_neither. discriminate.
Qed.

End Properties.

Section Concrete.
Import monitor_demo.

(** The file-based path on one visit directory: the instance is built,
    the light curve of object 7 is assembled from the visit's table, and
    the plot shows the stored table. *)
Example file_instance_built :
  exists o,
    new demo_env (db []) (Some "/data/fp") (Some "mjd.csv") default_filter_list
    = Ok o /\
    lightcurve o = Some None /\ bandpasses o = Some default_filter_list /\
    (visit_map o ≫= (.!! "r")) = Some ["200"] /\
    (visit_map o ≫= (.!! "g")) = Some [].
Proof.
  eexists. split; [vm_compute; reflexivity|].
  repeat split; vm_compute; reflexivity.
Qed.

Example file_lightcurve_plotted :
  exists o w' t,
    new demo_env (db []) (Some "/data/fp") (Some "mjd.csv") default_filter_list
    = Ok o /\
    build_lightcurve demo_env 7 {| self := o; events := [] |} = (Ok tt, w') /\
    events w' = [FitsOpen "/data/fp/0/v200-fr/R22/S11.fits"] /\
    lightcurve (self w') = Some (Some t) /\
    col_bandpass t = ["lsstr"] /\ col_flux t = [lit 1523.4] /\
    fst (visualize_lightcurve w') = Ok (plot_lc t).
Proof.
  do 3 eexists. split; [vm_compute; reflexivity|].
  split; [vm_compute; reflexivity|].
  repeat split; vm_compute; reflexivity.
Qed.

(** The object-id path of the database mode on the same instance. *)
Example db_lightcurve_by_id :
  exists w' t,
    build_lightcurve_from_db demo_env (Some 7%Z) None default_tol (fresh [obj1])
    = (Ok tt, w') /\
    events w' = [DbObjectFromId 7; DbAllFsVisitsFromId 7] /\
    lightcurve (self w') = Some (Some t) /\
    col_bandpass t = ["lsstr"; "lsstg"] /\
    col_obsHistId t = Some [200; 230]%Z /\
    col_ra t = [obj_ra obj1; obj_ra obj1] /\
    col_zpsys t = ["ab"; "ab"].
Proof.
  do 2 eexists. rewrite from_db_objid. split; [reflexivity|].
  repeat split; reflexivity.
Qed.

(** The invalid-selector error at a call without any selector. *)
Lemma from_db_invalid_selectors_witness :
  fst (build_lightcurve_from_db demo_env None None default_tol (fresh [obj1]))
  = Raise (ValueError msg_neither).
Proof.
  apply (from_db_invalid_selectors demo_env None None default_tol (fresh [obj1])).
  left. split; reflexivity.
Defined.

(** Nothing is looked up or stored at a call with both selectors. *)
Lemma from_db_invalid_before_lookup_witness :
  events (snd (build_lightcurve_from_db demo_env (Some 7%Z) (Some here) default_tol
                 (fresh [obj1]))) = [] /\
  lightcurve (self (snd (build_lightcurve_from_db demo_env (Some 7%Z) (Some here)
                           default_tol (fresh [obj1])))) = None.
Proof.
  apply (from_db_invalid_before_lookup demo_env (Some 7%Z) (Some here) default_tol
           (fresh [obj1]) msg_both).
  - reflexivity.
  - right. reflexivity.
Defined.

(** C4.  A call with a sky coordinate that matches exactly one object does
    not assemble a table: the forced-source rows are fetched on the object-id
    path only, so line 144 reads the unassigned local [fs_info] and the call
    ends in [UnboundLocalError], the [lightcurve] attribute untouched. *)
Theorem from_db_single_match_unbound :
  length (objectFromRaDec (db [obj1]) (fst here) (snd here) default_tol) = 1%nat /\
  build_lightcurve_from_db demo_env None (Some here) default_tol (fresh [obj1])
  = (Raise (UnboundLocalError "fs_info"),
     {| self := blank (db [obj1]);
        events := [DbObjectFromRaDec (fst here) (snd here) default_tol] |}).
Proof. split; [reflexivity|]. unfold here. rewrite from_db_ra_dec. reflexivity. Qed.

(** C5.  A coordinate lookup without a match raises the no-match
    [ValueError].  With two matches the objects are printed and no error is
    raised for the ambiguity, yet the call still ends in an error: line 144
    reads the unassigned local [fs_info]. *)
Theorem from_db_coordinate_lookup :
  build_lightcurve_from_db demo_env None (Some here) default_tol (fresh [])
  = (Raise (ValueError "No objects within specified ra,dec range."),
     {| self := blank (db []);
        events := [DbObjectFromRaDec (fst here) (snd here) default_tol] |}) /\
  build_lightcurve_from_db demo_env None (Some here) default_tol (fresh [obj1; obj2])
  = (Raise (UnboundLocalError "fs_info"),
     {| self := blank (db [obj1; obj2]);
        events := [DbObjectFromRaDec (fst here) (snd here) default_tol;
                   Print [obj1; obj2]] |}).
Proof. unfold here. rewrite !from_db_ra_dec. split; reflexivity. Qed.

(** C6.  An instance built without a forced-photometry directory never gets
    its [lightcurve] attribute (line 74 sits inside the [if] of line 70), so
    [visualize_lightcurve] called before any assembly fails on the attribute
    access with [AttributeError] and not with the not-yet-built
    [ValueError] of line 164. *)
Theorem visualize_fresh_instance :
  new demo_env (db [obj1]) None None default_filter_list = Ok (blank (db [obj1])) /\
  visualize_lightcurve (fresh [obj1])
  = (Raise (AttributeError "lightcurve"), fresh [obj1]).
Proof. split; reflexivity. Qed.

End Concrete.

End monitor_spec.

Module CreateTruthDB_spec.
Import CreateTruthDB.
Section Properties.
Context {F : Type} `{Float F} {Bandpass Sed PhotParams : Type}.
Abbreviation Env' := (Env F Bandpass Sed PhotParams).
Abbreviation World' := (World F Sed).

Lemma add_events_nil (w : World') : add_events [] w = w.
Proof. destruct w. unfold add_events. simpl. rewrite app_nil_r. reflexivity. Qed.

Lemma add_events_app (a b : list (event F Sed)) (w : World') :
  add_events b (add_events a w) = add_events (a ++ b) w.
Proof. unfold add_events. simpl. rewrite app_assoc. reflexivity. Qed.

Lemma visit_step_loaded (E : Env') bp_dict total st obs (w : World') :
  seds_loaded st = true ->
  visit_step E bp_dict total st obs w =
  let chunk := chunk_of E (dbConn (self w)) obs in
  let ev := progress st total ++ [CatalogQuery obs star_constraint] in
  match mag_array st with
  | None => (Raise (UnboundLocalError "mag_array"), add_events ev w)
  | Some ma =>
      let w1 := add_events (ev ++ snr_call bp_dict ma (phot_params st) obs) w in
      match visit_table E bp_dict ma (phot_params st) chunk obs with
      | Raise e => (Raise e, w1)
      | Ok visit_df => (Ok (next_locals E st ma (phot_params st) visit_df), w1)
      end
  end.
Proof.
  intros Hl. unfold visit_step, load_seds, progress, snr_call, visit_table. rewrite Hl.
  unfold bind, log, modify, get, ret, local, lift, raise, add_events.
  destruct (decide (visit_on st mod 100 = 0)%nat); simpl;
    destruct (mag_array st) as [ma|]; simpl; rewrite <- ?app_assoc; simpl; try reflexivity;
    destruct (visit_inputs _ _ _ _) as [inputs|err]; simpl;
    rewrite ?app_nil_r, <- ?app_assoc; simpl; try reflexivity;
    destruct (visit_rows _ _ _ _); reflexivity.
Qed.

Lemma visit_step_first (E : Env') bp_dict total st obs (w : World') :
  seds_loaded st = false ->
  visit_step E bp_dict total st obs w =
  let chunk := chunk_of E (dbConn (self w)) obs in
  let ev := progress st total ++ [CatalogQuery obs star_constraint]
            ++ [SedListLoad (map sed_entry chunk)] in
  match SedList E (map sed_entry chunk) with
  | Raise e => (Raise e, add_events ev w)
  | Ok sed_list =>
      let ma := magArrayForSedList E bp_dict sed_list in
      let pp := Some (PhotometricParameters E) in
      let w1 := add_events (ev ++ [MagArrayForSedList sed_list; NewPhotometricParameters]
                            ++ snr_call bp_dict ma pp obs) w in
      match visit_table E bp_dict ma pp chunk obs with
      | Raise e => (Raise e, w1)
      | Ok visit_df => (Ok (next_locals E st ma pp visit_df), w1)
      end
  end.
Proof.
  intros Hl. unfold visit_step, load_seds, progress, snr_call, visit_table. rewrite Hl.
  unfold bind, log, modify, get, ret, local, lift, raise, add_events.
  destruct (decide (visit_on st mod 100 = 0)%nat); simpl;
    destruct (SedList _ _) as [seds|err]; simpl; rewrite <- ?app_assoc; simpl; try reflexivity;
    destruct (visit_inputs _ _ _ _) as [inputs|err]; simpl;
    rewrite ?app_nil_r, <- ?app_assoc; simpl; try reflexivity;
    destruct (visit_rows _ _ _ _); reflexivity.
Qed.

Lemma progress_quiet (st : Locals F PhotParams) total :
  Forall quiet_event (progress (Sed:=Sed) st total).
Proof.
  unfold progress. destruct (decide _); repeat constructor.
Qed.

Lemma snr_call_quiet (bp_dict : gmap string Bandpass) (ma : gmap string (list F))
    (pp : option PhotParams) obs :
  Forall quiet_event (snr_call (Sed:=Sed) bp_dict ma pp obs).
Proof.
  unfold snr_call. destruct (visit_inputs _ _ _ _); repeat constructor.
Qed.

(** The signal-to-noise call of a visit whose table is computed. *)
Lemma snr_call_ok (E : Env') bp_dict ma pp chunk obs block :
  visit_table E bp_dict ma pp chunk obs = Ok block ->
  snr_call (Sed:=Sed) bp_dict ma pp obs = [snr_event ma obs].
Proof.
  unfold visit_table, snr_call, snr_event, visit_inputs.
  destruct (ma !! obs_filter obs) as [mags|]; [|discriminate].
  destruct (bp_dict !! obs_filter obs) as [bp|]; [|discriminate].
  destruct pp as [pp|]; [|discriminate]. reflexivity.
Qed.

Lemma quiet_later (e : event F Sed) : quiet_event e -> later_event e.
Proof. intros [Hl Hq]. split; [exact Hl|]. rewrite Hq. discriminate. Qed.

Lemma filter_quiet (evs : list (event F Sed)) :
  Forall quiet_event evs -> List.filter is_query evs = [].
Proof.
  induction 1 as [|e evs [_ Hq] _ IH]; simpl; [reflexivity|]. rewrite Hq. exact IH.
Qed.

(** The loop once the SEDs are loaded: no further load, one query per
    visit, every table computed from the magnitude array in scope. *)
Lemma visits_loaded (E : Env') bp_dict total l :
  forall st (w : World') r w',
  seds_loaded st = true ->
  for_fold l st (visit_step E bp_dict total) w = (r, w') ->
  exists evs, w' = add_events evs w /\ Forall later_event evs /\
    forall st', r = Ok st' ->
      List.filter is_query evs = map query_of l /\
      seds_loaded st' = true /\ mag_array st' = mag_array st /\
      phot_params st' = phot_params st /\
      exists blocks, star_df_acc st' = star_df_acc st ++ concat blocks /\
        Forall2 (fun obs block => exists ma, mag_array st = Some ma /\
                   visit_table E bp_dict ma (phot_params st)
                     (chunk_of E (dbConn (self w)) obs) obs = Ok block) l blocks.
Proof.
  induction l as [|obs l IH]; intros st w r w' Hl Hrun; simpl in Hrun.
  - injection Hrun as <- <-. exists []. rewrite add_events_nil.
    split; [reflexivity|]. split; [constructor|].
    intros st' Hst. injection Hst as <-. split; [reflexivity|]. split; [exact Hl|]. do 2 (split; [reflexivity|]).
    exists []. simpl. rewrite app_nil_r. split; [reflexivity | constructor].
  - unfold bind in Hrun. rewrite (visit_step_loaded _ _ _ _ _ _ Hl) in Hrun.
    cbv zeta in Hrun.
    set (ev0 := progress st total ++ [CatalogQuery obs star_constraint]) in Hrun.
    assert (Hev0 : Forall later_event ev0).
    { apply Forall_app. split.
      - eapply Forall_impl; [apply progress_quiet | apply quiet_later].
      - repeat constructor. intros _. exists obs. reflexivity. }
    assert (Hq0 : List.filter is_query ev0 = [query_of obs]).
    { unfold ev0. rewrite List.filter_app, (filter_quiet _ (progress_quiet st total)).
      reflexivity. }
    destruct (mag_array st) as [ma|] eqn:Hma.
    2:{ injection Hrun as <- <-. exists ev0. split; [reflexivity|]. split; [exact Hev0|].
        intros st' Hst. discriminate Hst. }
    set (ev1 := ev0 ++ snr_call bp_dict ma (phot_params st) obs) in Hrun.
    assert (Hev1 : Forall later_event ev1).
    { apply Forall_app. split; [exact Hev0|].
      eapply Forall_impl; [apply snr_call_quiet | apply quiet_later]. }
    assert (Hq1 : List.filter is_query ev1 = [query_of obs]).
    { unfold ev1. rewrite List.filter_app, Hq0, (filter_quiet _ (snr_call_quiet _ _ _ _)).
      reflexivity. }
    destruct (visit_table E bp_dict ma (phot_params st) _ obs) as [df|err] eqn:Htab.
    2:{ injection Hrun as <- <-. exists ev1. split; [reflexivity|]. split; [exact Hev1|].
        intros st' Hst. discriminate Hst. }
    apply IH in Hrun; [|reflexivity].
    destruct Hrun as (evs & -> & Hevs & Hok).
    exists (ev1 ++ evs). rewrite add_events_app. split; [reflexivity|].
    split; [apply Forall_app; split; assumption|].
    intros st' Hst. destruct (Hok st' Hst) as (Hq & Hl' & Hma' & Hpp' & blocks & Hdf & Hblocks).
    simpl in *. rewrite List.filter_app, Hq1, Hq. split; [reflexivity|].
    split; [exact Hl'|]. split; [exact Hma'|]. split; [exact Hpp'|].
    exists (df :: blocks). simpl. rewrite Hdf, <- app_assoc. split; [reflexivity|].
    constructor.
    + exists ma. split; [reflexivity | exact Htab].
    + eapply Forall2_impl; [exact Hblocks|]. intros o b (ma' & Hm & Ht).
      simpl in Hm. injection Hm as <-. exists ma. split; [reflexivity | exact Ht].
Qed.

Lemma visits_from_start (E : Env') bp_dict total obs0 rest (w : World') r w' :
  for_fold (obs0 :: rest) initial_locals (visit_step E bp_dict total) w = (r, w') ->
  let db := dbConn (self w) in
  exists P L C,
    w' = add_events (P ++ query_of obs0 :: L ++ C) w /\
    Forall quiet_event P /\ first_loads E (chunk_of E db obs0) L /\
    Forall later_event C /\
    forall st', r = Ok st' ->
      exists seds blocks,
        SedList E (map sed_entry (chunk_of E db obs0)) = Ok seds /\
        List.filter is_query C = map query_of rest /\
        star_df_acc st' = concat blocks /\
        Forall2 (fun obs block =>
                   visit_table E bp_dict (magArrayForSedList E bp_dict seds)
                     (Some (PhotometricParameters E)) (chunk_of E db obs) obs
                   = Ok block) (obs0 :: rest) blocks.
Proof.
  simpl. unfold bind. rewrite visit_step_first by reflexivity. cbv zeta.
  set (chunk0 := chunk_of E (dbConn (self w)) obs0).
  set (P := progress initial_locals total).
  intros Hrun. exists P.
  assert (HP : Forall quiet_event P) by apply progress_quiet.
  destruct (SedList E (map sed_entry chunk0)) as [seds|err] eqn:Hseds.
  2:{ injection Hrun as <- <-. exists [SedListLoad (map sed_entry chunk0)], [].
      split; [reflexivity|]. split; [exact HP|]. split; [left; reflexivity|].
      split; [constructor|]. intros st' Hst. discriminate Hst. }
  set (L := [SedListLoad (map sed_entry chunk0); MagArrayForSedList seds]).
  assert (HL : first_loads E chunk0 L) by (right; exists seds; split; [exact Hseds | reflexivity]).
  set (ma := magArrayForSedList E bp_dict seds) in *.
  set (pp := Some (PhotometricParameters E)) in *.
  set (C0 := NewPhotometricParameters :: snr_call (Sed:=Sed) bp_dict ma pp obs0).
  assert (HC0 : Forall later_event C0).
  { constructor; [split; [reflexivity | discriminate]|].
    eapply Forall_impl; [apply snr_call_quiet | apply quiet_later]. }
  assert (HqC0 : List.filter is_query C0 = []).
  { unfold C0. simpl. apply filter_quiet, snr_call_quiet. }
  assert (Hev : (P ++ [CatalogQuery obs0 star_constraint] ++
                  [SedListLoad (map sed_entry chunk0)]) ++
                [MagArrayForSedList seds; NewPhotometricParameters] ++
                snr_call bp_dict ma pp obs0
                = P ++ query_of obs0 :: L ++ C0).
  { rewrite <- !app_assoc. reflexivity. }
  rewrite Hev in Hrun.
  destruct (visit_table E bp_dict _ _ chunk0 obs0) as [df|err] eqn:Htab.
  2:{ injection Hrun as <- <-. exists L, C0.
      split; [reflexivity|]. split; [exact HP|]. split; [exact HL|].
      split; [exact HC0|]. intros st' Hst. discriminate Hst. }
  apply visits_loaded in Hrun; [|reflexivity].
  destruct Hrun as (C & -> & HC & Hok). exists L, (C0 ++ C).
  rewrite add_events_app.
  replace ((P ++ query_of obs0 :: L ++ C0) ++ C)
    with (P ++ query_of obs0 :: L ++ C0 ++ C)
    by (rewrite <- !app_assoc; simpl; rewrite <- ?app_assoc; reflexivity).
  split; [reflexivity|]. split; [exact HP|]. split; [exact HL|].
  split; [apply Forall_app; split; assumption|].
  intros st' Hst. destruct (Hok st' Hst) as (Hq & _ & _ & _ & blocks & Hdf & Hblocks).
  exists seds, (df :: blocks). split; [reflexivity|].
  split; [rewrite List.filter_app, HqC0; exact Hq|].
  split; [rewrite Hdf; reflexivity|]. constructor; [exact Htab|].
  eapply Forall2_impl; [exact Hblocks|]. intros o b (ma' & Hm & Ht).
  simpl in Hm. injection Hm as <-. exact Ht.
Qed.

Lemma metadata_loop (E : Env') opsim total ids :
  forall acc (w : World') r w',
  for_fold ids acc (metadata_step E opsim total) w = (r, w') ->
  exists evs, w' = add_events evs w /\ Forall quiet_event evs /\
    forall acc', r = Ok acc' ->
      exists ms, snd acc' = snd acc ++ ms /\ visits_of E opsim ids ms.
Proof.
  induction ids as [|id ids IH]; intros acc w r w' Hrun; simpl in Hrun.
  - injection Hrun as <- <-. exists []. rewrite add_events_nil.
    split; [reflexivity|]. split; [constructor|]. intros acc' Hacc.
    injection Hacc as <-. exists []. rewrite app_nil_r. split; [reflexivity|constructor].
  - unfold bind at 1 in Hrun. unfold metadata_step at 1 in Hrun.
    set (P := if decide (fst acc mod 100 = 0)%nat
              then [PrintObsMetadata (Sed:=Sed) (F:=F) (fst acc + 1) total] else []).
    assert (HP : Forall quiet_event (P ++ [GetObservationMetaData id])).
    { unfold P. destruct (decide _); repeat constructor. }
    assert (Hw : forall k : Py World' (nat * list (ObsMetaData F)),
      bind (bind (if decide (fst acc mod 100 = 0)%nat
            then log (PrintObsMetadata (fst acc + 1) total) else ret tt)
           (fun _ => bind (log (GetObservationMetaData id)) (fun _ => k))) 
           (fun s' => for_fold ids s' (metadata_step E opsim total)) w
      = bind k (fun s' => for_fold ids s' (metadata_step E opsim total))
          (add_events (P ++ [GetObservationMetaData id]) w)).
    { intros k. unfold bind, log, modify, ret, add_events, P.
      destruct (decide _); simpl; rewrite <- ?app_assoc; reflexivity. }
    unfold bind at 1 in Hw. rewrite Hw in Hrun. clear Hw.
    destruct (getObservationMetaData E opsim id) as [|m ms0] eqn:Hm.
    + unfold bind, raise in Hrun. injection Hrun as <- <-.
      eexists. split; [reflexivity|]. split; [exact HP|]. intros acc' Hacc. discriminate.
    + unfold bind at 1, ret in Hrun. apply IH in Hrun.
      destruct Hrun as (evs & -> & Hevs & Hok).
      exists ((P ++ [GetObservationMetaData id]) ++ evs). rewrite add_events_app.
      split; [reflexivity|]. split; [apply Forall_app; split; assumption|].
      intros acc' Hacc. destruct (Hok acc' Hacc) as (ms & Hsnd & Hvis).
      exists (m :: ms). simpl in Hsnd. rewrite Hsnd, <- app_assoc. split; [reflexivity|].
      constructor; [rewrite Hm; reflexivity | exact Hvis].
Qed.

Lemma visit_ids_run (E : Env') for_obsHistIds (w : World') :
  visit_ids E for_obsHistIds w
  = (ids_of E for_obsHistIds, add_events (read_events for_obsHistIds) w).
Proof.
  unfold visit_ids, ids_of, read_events. destruct for_obsHistIds as [l|].
  - unfold ret. rewrite add_events_nil. reflexivity.
  - unfold bind, log, modify, lift, ret, raise, add_events. simpl.
    destruct (selectedVisits E) as [[id|ids]|err]; reflexivity.
Qed.

Lemma read_events_quiet (for_obsHistIds : option (list Z)) :
  Forall quiet_event (read_events (F:=F) (Sed:=Sed) for_obsHistIds).
Proof. destruct for_obsHistIds; repeat constructor. Qed.

(** The call up to the second loop: the ids, the metadata records and the
    bandpasses, with the events of each. *)
Lemma get_true_stars_unfold (E : Env') for_obsHistIds (w : World') :
  get_true_stars E for_obsHistIds w =
  let w0 := add_events (read_events for_obsHistIds) w in
  match ids_of E for_obsHistIds with
  | Raise e => (Raise e, w0)
  | Ok ids =>
      match for_fold ids (0%nat, []) (metadata_step E (opsimDB (self w)) (length ids))
              w0 with
      | (Raise e, w1) => (Raise e, w1)
      | (Ok acc, w1) =>
          let w2 := add_events [LoadTotalBandpasses] w1 in
          match loadTotalBandpassesFromFiles E with
          | Raise e => (Raise e, w2)
          | Ok bp_dict =>
              match for_fold (snd acc) initial_locals
                      (visit_step E bp_dict (length ids)) w2 with
              | (Raise e, w3) => (Raise e, w3)
              | (Ok st, w3) =>
                  (Ok tt, {| self := {| dbConn := dbConn (self w3);
                                        opsimDB := opsimDB (self w3);
                                        star_df := Some (star_df_acc st) |};
                             events := events w3; files := files w3 |})
              end
          end
      end
  end.
Proof.
  unfold get_true_stars. unfold bind at 1. rewrite visit_ids_run. cbv zeta.
  destruct (ids_of E for_obsHistIds) as [ids|err]; [|reflexivity].
  unfold bind at 1, get at 1. unfold bind at 1.
  change (opsimDB (self (add_events (read_events for_obsHistIds) w)))
    with (opsimDB (self w)).
  destruct (for_fold ids _ _ _) as [[acc|err] w1]; [|reflexivity].
  unfold bind at 1, log at 1, modify at 1. unfold bind at 1, lift at 1.
  change {| self := self w1; events := events w1 ++ [LoadTotalBandpasses];
            files := files w1 |} with (add_events [LoadTotalBandpasses] w1).
  destruct (loadTotalBandpassesFromFiles E) as [bp_dict|err]; [|reflexivity].
  unfold bind at 1.
  destruct (for_fold (snd acc) _ _ _) as [[st|err] w3]; reflexivity.
Qed.

Lemma get_true_stars_run (E : Env') for_obsHistIds (w : World') r w' :
  get_true_stars E for_obsHistIds w = (r, w') ->
  exists new,
    events w' = events w ++ new /\ files w' = files w /\
    dbConn (self w') = dbConn (self w) /\ opsimDB (self w') = opsimDB (self w) /\
    trace_shape E (dbConn (self w)) new /\
    (forall e, r = Raise e -> star_df (self w') = star_df (self w)) /\
    (r = Ok tt ->
     exists ids obs_list df,
       ids_of E for_obsHistIds = Ok ids /\
       visits_of E (opsimDB (self w)) ids obs_list /\
       List.filter is_query new = map query_of obs_list /\
       star_df (self w') = Some df /\
       run_tables E (dbConn (self w)) obs_list df).
Proof.
  rewrite get_true_stars_unfold. cbv zeta. intros Hrun.
  pose proof (read_events_quiet for_obsHistIds) as Hev0.
  set (ev0 := read_events for_obsHistIds) in *.
  destruct (ids_of E for_obsHistIds) as [ids|err] eqn:Hres.
  2:{ injection Hrun as <- <-. exists ev0.
      do 4 (split; [reflexivity|]). split; [left; exact Hev0|].
      split; [reflexivity|]. discriminate. }
  destruct (for_fold ids _ _ _) as [[acc|err] w1] eqn:Hmeta;
    apply metadata_loop in Hmeta; destruct Hmeta as (ev1 & -> & Hev1 & Hok1).
  2:{ injection Hrun as <- <-. exists (ev0 ++ ev1).
      split; [simpl; rewrite app_assoc; reflexivity|].
      do 3 (split; [reflexivity|]).
      split; [left; apply Forall_app; split; assumption|].
      split; [reflexivity|]. discriminate. }
  destruct (Hok1 acc eq_refl) as (obs_list & Hsnd & Hvis). simpl in Hsnd.
  rewrite Hsnd in Hrun. clear Hsnd Hok1.
  rewrite !add_events_app in Hrun.
  set (evm := ev0 ++ ev1 ++ [LoadTotalBandpasses]) in Hrun.
  assert (Hevm : Forall quiet_event evm).
  { repeat (apply Forall_app; split); try assumption. repeat constructor. }
  destruct (loadTotalBandpassesFromFiles E) as [bp_dict|err] eqn:Hbp.
  2:{ injection Hrun as <- <-. exists evm.
      do 4 (split; [reflexivity|]). split; [left; exact Hevm|].
      split; [reflexivity|]. discriminate. }
  destruct obs_list as [|obs0 rest].
  - simpl in Hrun. unfold ret in Hrun. injection Hrun as <- <-.
    exists evm. do 4 (split; [reflexivity|]). split; [left; exact Hevm|].
    split; [discriminate|]. intros _. exists ids, [], [].
    split; [reflexivity|]. split; [exact Hvis|].
    split; [apply filter_quiet; exact Hevm|]. split; [reflexivity|].
    exists bp_dict. split; [exact Hbp | reflexivity].
  - destruct (for_fold (obs0 :: rest) _ _ _) as [[st|err] w2] eqn:Hloop;
      apply visits_from_start in Hloop; simpl in Hloop;
      destruct Hloop as (P & L & C & -> & HP & HL & HC & Hok2).
    + injection Hrun as <- <-. simpl.
      exists (evm ++ P ++ query_of obs0 :: L ++ C).
      split; [symmetry; apply app_assoc|]. do 3 (split; [reflexivity|]).
      split.
      { right. exists (evm ++ P), obs0, L, C. rewrite <- app_assoc.
        split; [reflexivity|]. split; [apply Forall_app; split; assumption|].
        split; assumption. }
      split; [discriminate|]. intros _.
      destruct (Hok2 st eq_refl) as (seds & blocks & Hseds & Hq & Hdf & Hblocks).
      exists ids, (obs0 :: rest), (star_df_acc st).
      split; [reflexivity|]. split; [exact Hvis|].
      split.
      { rewrite !List.filter_app, (filter_quiet _ Hevm), (filter_quiet _ HP). simpl.
        rewrite List.filter_app.
        assert (HLq : List.filter is_query L = []).
        { destruct HL as [-> | (sd & _ & ->)]; reflexivity. }
        rewrite HLq, Hq. reflexivity. }
      split; [reflexivity|].
      exists bp_dict. split; [exact Hbp|].
      exists seds, blocks. split; [exact Hseds|]. split; [exact Hdf | exact Hblocks].
    + injection Hrun as <- <-. simpl.
      exists (evm ++ P ++ query_of obs0 :: L ++ C).
      split; [symmetry; apply app_assoc|]. do 3 (split; [reflexivity|]).
      split.
      { right. exists (evm ++ P), obs0, L, C. rewrite <- app_assoc.
        split; [reflexivity|]. split; [apply Forall_app; split; assumption|].
        split; assumption. }
      split; [reflexivity|]. discriminate.
Qed.

Lemma zip_rows {A B C D : Type} (f : A -> C * C -> D) (g h : C -> C) (d : C -> C -> C)
    (m : B -> C) (chunk : list A) (seds : list B) :
  zip_with f chunk
    (zip (map g (map m seds)) (zip_with d (map g (map m seds)) (map h (map m seds))))
  = zip_with (fun s sed => f s (g (m sed), d (g (m sed)) (h (m sed)))) chunk seds.
Proof.
  revert chunk. induction seds as [|sed seds IH]; intros [|s chunk]; simpl;
    try reflexivity. rewrite IH. reflexivity.
Qed.

Lemma visit_table_rows (E : Env') bp_dict seds chunk obs block :
  visit_table E bp_dict (magArrayForSedList E bp_dict seds)
    (Some (PhotometricParameters E)) chunk obs = Ok block ->
  exists bp, bp_dict !! obs_filter obs = Some bp /\
    length seds = length chunk /\
    block = zip_with (star_row E bp obs) chunk seds.
Proof.
  unfold visit_table, visit_inputs, visit_rows, magArrayForSedList. rewrite lookup_fmap.
  destruct (bp_dict !! obs_filter obs) as [bp|]; simpl; [|discriminate].
  unfold visit_frame. rewrite !length_map.
  destruct (decide (length seds = length chunk)) as [Hlen|]; [|discriminate].
  intros Hb. injection Hb as <-. exists bp. split; [reflexivity|]. split; [exact Hlen|].
  rewrite (zip_rows _ flux_of_mag
             (fun m => fst (calcSNR_m5 E m bp (fiveSigmaDepth obs) (PhotometricParameters E)))
             fdiv (fun sed => calcMag E sed bp)).
  reflexivity.
Qed.

Lemma SedList_Forall2 (E : Env') entries seds :
  SedList E entries = Ok seds ->
  Forall2 (fun e sed => load_sed E e = Ok sed) entries seds.
Proof.
  revert seds. induction entries as [|e entries IH]; intros seds; simpl.
  - intros Hs. injection Hs as <-. constructor.
  - destruct (load_sed E e) as [sed|] eqn:He; [|discriminate].
    destruct (SedList E entries) as [l|]; [|discriminate].
    intros Hs. injection Hs as <-. constructor; [exact He | apply IH; reflexivity].
Qed.

Lemma own_sed_rows (E : Env') bp obs chunk seds :
  Forall2 (fun e sed => load_sed E e = Ok sed) (map sed_entry chunk) seds ->
  Forall2 (fun s row => exists sed, load_sed E (sed_entry s) = Ok sed /\
                                    row = star_row E bp obs s sed)
    chunk (zip_with (star_row E bp obs) chunk seds).
Proof.
  revert seds. induction chunk as [|s chunk IH]; intros seds Hs; simpl in *.
  - constructor.
  - inversion Hs as [|e sed es seds' He Hrest]; subst. simpl. constructor.
    + exists sed. split; [exact He | reflexivity].
    + apply IH. exact Hrest.
Qed.

(** Every block of a successful call, for a visit with the SED inputs of
    the first visit, holds the rows of the visit's own stars. *)
Lemma run_tables_own_rows (E : Env') db obs_list df :
  run_tables E db obs_list df ->
  exists bp_dict blocks,
    loadTotalBandpassesFromFiles E = Ok bp_dict /\ df = concat blocks /\
    Forall2 (fun obs block =>
      (forall obs0, head obs_list = Some obs0 -> same_sed_inputs E db obs0 obs) ->
      exists bp, bp_dict !! obs_filter obs = Some bp /\
        Forall2 (fun s row => exists sed, load_sed E (sed_entry s) = Ok sed /\
                                          row = star_row E bp obs s sed)
          (chunk_of E db obs) block) obs_list blocks.
Proof.
  intros (bp_dict & Hload & Htab). exists bp_dict. revert Htab.
  destruct obs_list as [|obs0 rest]; simpl.
  - intros ->. exists []. split; [exact Hload|]. split; [reflexivity | constructor].
  - intros (seds & blocks & Hseds & -> & Hblocks). exists blocks.
    split; [exact Hload|].
    split; [reflexivity|]. eapply Forall2_impl; [exact Hblocks|].
    intros obs block Htab Hsame. specialize (Hsame obs0 eq_refl).
    apply visit_table_rows in Htab as (bp & Hbp & _ & ->).
    exists bp. split; [exact Hbp|]. apply own_sed_rows.
    rewrite Hsame. apply SedList_Forall2. exact Hseds.
Qed.

Lemma loads_prefix_no_query (L C pre post : list (event F Sed)) e :
  Forall (fun x => is_query x = false) L ->
  Forall (fun x => is_load x = false) C ->
  L ++ C = pre ++ e :: post -> is_load e = true ->
  List.filter is_query pre = [].
Proof.
  intros HL HC. revert pre. induction HL as [|a L Ha _ IH]; intros pre Heq He.
  - simpl in Heq. exfalso.
    assert (Hin : In e C) by (rewrite Heq; apply in_elt).
    rewrite Forall_forall in HC. apply list_elem_of_In, HC in Hin. congruence.
  - destruct pre as [|p pre]; [reflexivity|]. simpl in Heq. injection Heq as <- Heq.
    simpl. rewrite Ha. apply IH; assumption.
Qed.

Lemma load_after_first_query (X L C pre post : list (event F Sed)) Q e :
  Forall quiet_event X -> is_query Q = true -> is_load Q = false ->
  Forall (fun x => is_query x = false) L ->
  Forall (fun x => is_load x = false) C ->
  X ++ Q :: L ++ C = pre ++ e :: post -> is_load e = true ->
  length (List.filter is_query pre) = 1%nat.
Proof.
  intros HX HQ HQl HL HC. revert pre.
  induction HX as [|x X [Hxl Hxq] _ IH]; intros pre Heq He.
  - destruct pre as [|p pre]; simpl in Heq; injection Heq as <- Heq.
    + congruence.
    + simpl. rewrite HQ. simpl.
      rewrite (loads_prefix_no_query _ _ _ _ _ HL HC Heq He). reflexivity.
  - destruct pre as [|p pre]; simpl in Heq; injection Heq as <- Heq.
    + congruence.
    + simpl. rewrite Hxq. apply IH; assumption.
Qed.

Lemma first_loads_inv (E : Env') chunk0 L :
  first_loads E chunk0 L ->
  Forall (fun x => is_query x = false) L /\
  (length (List.filter is_sed_load L) <= 1)%nat /\
  (length (List.filter is_mag_array L) <= 1)%nat.
Proof.
  intros [-> | (seds & _ & ->)]; simpl; repeat constructor.
Qed.

Lemma later_no_load (C : list (event F Sed)) :
  Forall later_event C -> Forall (fun x => is_load x = false) C.
Proof. intros HC. eapply Forall_impl; [exact HC|]. intros e [Hl _]. exact Hl. Qed.

Lemma quiet_no_load (X : list (event F Sed)) :
  Forall quiet_event X -> Forall (fun x => is_load x = false) X.
Proof. intros HC. eapply Forall_impl; [exact HC|]. intros e [Hl _]. exact Hl. Qed.

Lemma no_load_filters (X : list (event F Sed)) :
  Forall (fun x => is_load x = false) X ->
  List.filter is_sed_load X = [] /\ List.filter is_mag_array X = [].
Proof.
  induction 1 as [|e X He _ [IH1 IH2]]; simpl; [split; reflexivity|].
  unfold is_load in He. apply orb_false_iff in He as [-> ->]. split; assumption.
Qed.

Lemma shape_loads_once (E : Env') db new :
  trace_shape E db new ->
  (length (List.filter is_sed_load new) <= 1)%nat /\
  (length (List.filter is_mag_array new) <= 1)%nat.
Proof.
  intros [Hq | (P & obs0 & L & C & -> & HP & HL & HC)].
  - destruct (no_load_filters _ (quiet_no_load _ Hq)) as [-> ->]. simpl. lia.
  - destruct (no_load_filters _ (quiet_no_load _ HP)) as [HP1 HP2].
    destruct (no_load_filters _ (later_no_load _ HC)) as [HC1 HC2].
    destruct (first_loads_inv _ _ _ HL) as (_ & HL1 & HL2).
    rewrite !List.filter_app. simpl. rewrite !List.filter_app, HP1, HP2, HC1, HC2.
    simpl. rewrite !app_nil_r. split; assumption.
Qed.

Lemma shape_loads_in_first_visit (E : Env') db new pre e post :
  trace_shape E db new ->
  new = pre ++ e :: post -> is_load e = true ->
  length (List.filter is_query pre) = 1%nat.
Proof.
  intros [Hq | (P & obs0 & L & C & -> & HP & HL & HC)] Heq He.
  - exfalso. assert (Hin : In e new) by (rewrite Heq; apply in_elt).
    apply quiet_no_load in Hq. rewrite Forall_forall in Hq.
    apply list_elem_of_In, Hq in Hin. congruence.
  - destruct (first_loads_inv _ _ _ HL) as (HLq & _ & _).
    eapply (load_after_first_query P L C pre post (query_of obs0) e); eauto.
    apply later_no_load. exact HC.
Qed.

Lemma shape_queries (E : Env') db new obs c :
  trace_shape E db new -> In (CatalogQuery obs c) new -> c = star_constraint.
Proof.
  assert (Hlater : forall C : list (event F Sed), Forall later_event C ->
            In (CatalogQuery obs c) C -> c = star_constraint).
  { intros C HC Hin. rewrite Forall_forall in HC.
    apply list_elem_of_In, HC in Hin. destruct Hin as [_ Hq].
    destruct (Hq eq_refl) as [o Ho]. unfold query_of in Ho. congruence. }
  intros [Hq | (P & obs0 & L & C & -> & HP & HL & HC)] Hin.
  - apply Hlater with new; [|exact Hin]. eapply Forall_impl; [exact Hq | apply quiet_later].
  - apply in_app_or in Hin as [Hin | [Hin | Hin]].
    + apply Hlater with P; [|exact Hin]. eapply Forall_impl; [exact HP | apply quiet_later].
    + unfold query_of in Hin. congruence.
    + apply in_app_or in Hin as [Hin | Hin].
      * exfalso. destruct HL as [-> | (seds & _ & ->)]; simpl in Hin;
          intuition discriminate.
      * apply Hlater with C; assumption.
Qed.

(** C1 (amended).  After a successful [get_true_stars] the table is the
    concatenation of one block per visit, and in every visit whose catalog
    query returns, row for row, the SED inputs of the first visit's query,
    the row of each star carries the true flux
    [10 ^ (-0.4 * (m - 22.5))] for [m] the star's own magnitude in the
    visit's bandpass. *)
Theorem true_flux_of_own_magnitude (E : Env') for_obsHistIds (w : World') w' :
  get_true_stars E for_obsHistIds w = (Ok tt, w') ->
  exists ids obs_list blocks,
    ids_of E for_obsHistIds = Ok ids /\
    visits_of E (opsimDB (self w)) ids obs_list /\
    star_df (self w') = Some (concat blocks) /\
    Forall2 (fun obs block =>
      (forall obs0, head obs_list = Some obs0 ->
                    same_sed_inputs E (dbConn (self w)) obs0 obs) ->
      Forall2 (fun s row =>
                 df_uniqueId row = uniqueId s /\ df_obsHistId row = obsHistID obs /\
                 df_filter row = obs_filter obs /\
                 exists m, star_mag E s (obs_filter obs) = Some m /\
                           df_true_flux row = flux_of_mag m)
        (chunk_of E (dbConn (self w)) obs) block) obs_list blocks.
Proof.
  intros Hrun. apply get_true_stars_run in Hrun as (new & _ & _ & _ & _ & _ & _ & Hok).
  destruct (Hok eq_refl) as (ids & obs_list & df & Hids & Hvis & _ & Hdf & Htab).
  apply run_tables_own_rows in Htab as (bp_dict & blocks & Hload & -> & Hblocks).
  exists ids, obs_list, blocks. do 3 (split; [assumption|]).
  eapply Forall2_impl; [exact Hblocks|]. intros obs block Hown Hsame.
  destruct (Hown Hsame) as (bp & Hbp & Hrows).
  eapply Forall2_impl; [exact Hrows|]. intros s row (sed & Hsed & ->). simpl.
  do 3 (split; [reflexivity|]). exists (calcMag E sed bp).
  unfold star_mag. rewrite Hsed, Hload, Hbp. split; reflexivity.
Qed.

(** C2 (amended).  After a successful [get_true_stars], in every visit
    whose catalog query returns, row for row, the SED inputs of the first
    visit's query, the flux error of each star's row is the row's flux
    divided by the signal-to-noise ratio that [calcSNR_m5] gives for the
    star's own magnitude, the visit's bandpass and the visit's five-sigma
    depth. *)
Theorem flux_error_is_flux_over_snr (E : Env') for_obsHistIds (w : World') w' :
  get_true_stars E for_obsHistIds w = (Ok tt, w') ->
  exists ids obs_list blocks,
    ids_of E for_obsHistIds = Ok ids /\
    visits_of E (opsimDB (self w)) ids obs_list /\
    star_df (self w') = Some (concat blocks) /\
    Forall2 (fun obs block =>
      (forall obs0, head obs_list = Some obs0 ->
                    same_sed_inputs E (dbConn (self w)) obs0 obs) ->
      Forall2 (fun s row =>
                 df_uniqueId row = uniqueId s /\ df_obsHistId row = obsHistID obs /\
                 exists snr, star_snr E s obs = Some snr /\
                             df_true_flux_error row = fdiv (df_true_flux row) snr)
        (chunk_of E (dbConn (self w)) obs) block) obs_list blocks.
Proof.
  intros Hrun. apply get_true_stars_run in Hrun as (new & _ & _ & _ & _ & _ & _ & Hok).
  destruct (Hok eq_refl) as (ids & obs_list & df & Hids & Hvis & _ & Hdf & Htab).
  apply run_tables_own_rows in Htab as (bp_dict & blocks & Hload & -> & Hblocks).
  exists ids, obs_list, blocks. do 3 (split; [assumption|]).
  eapply Forall2_impl; [exact Hblocks|]. intros obs block Hown Hsame.
  destruct (Hown Hsame) as (bp & Hbp & Hrows).
  eapply Forall2_impl; [exact Hrows|]. intros s row (sed & Hsed & ->). simpl.
  do 2 (split; [reflexivity|]).
  exists (fst (calcSNR_m5 E (calcMag E sed bp) bp (fiveSigmaDepth obs)
                 (PhotometricParameters E))).
  unfold star_snr. rewrite Hsed, Hload, Hbp. split; reflexivity.
Qed.

Lemma iter_catalog_constraint (E : Env') db obs v s :
  In s (iter_catalog E db obs (gmag_gt v)) ->
  In s db /\ in_field E obs s = true /\ fgt (gmag s) (lit v) = true.
Proof.
  unfold iter_catalog. rewrite List.filter_In. intros [Hin Hb].
  apply andb_true_iff in Hb as [Hf Hc]. auto.
Qed.

(** C8 (amended).  Every catalog query that [get_true_stars] issues carries
    the constraint ['gmag > 11'], so every star it returns has a [gmag]
    greater than 11 (it is fainter than magnitude 11, not brighter); a
    successful call issues exactly one such query per visit. *)
Theorem catalog_query_keeps_gmag_above_11 (E : Env') for_obsHistIds (w : World') r w' :
  get_true_stars E for_obsHistIds w = (r, w') ->
  exists new, events w' = events w ++ new /\
    (forall obs c, In (CatalogQuery obs c) new ->
       c = gmag_gt 11 /\
       forall s, In s (iter_catalog E (dbConn (self w)) obs c) ->
                 fgt (gmag s) (lit 11) = true) /\
    (r = Ok tt ->
     exists ids obs_list,
       ids_of E for_obsHistIds = Ok ids /\
       visits_of E (opsimDB (self w)) ids obs_list /\
       List.filter is_query new
       = map (fun obs => CatalogQuery obs (gmag_gt 11)) obs_list).
Proof.
  intros Hrun. apply get_true_stars_run in Hrun as (new & Hev & _ & _ & _ & Hshape & _ & Hok).
  exists new. split; [exact Hev|]. split.
  - intros obs c Hin. pose proof (shape_queries _ _ _ _ _ Hshape Hin) as ->.
    split; [reflexivity|]. intros s Hs. apply iter_catalog_constraint in Hs. tauto.
  - intros Hr. destruct (Hok Hr) as (ids & obs_list & df & Hids & Hvis & Hq & _).
    exists ids, obs_list. auto.
Qed.

(** The rows of a successful call, visit by visit: the stars of the
    visit's catalog against the SEDs of the first visit's. *)
Lemma run_tables_rows (E : Env') db obs0 rest df :
  run_tables E db (obs0 :: rest) df ->
  exists bp_dict seds blocks,
    loadTotalBandpassesFromFiles E = Ok bp_dict /\
    SedList E (map sed_entry (chunk_of E db obs0)) = Ok seds /\
    df = concat blocks /\
    Forall2 (fun obs block =>
               exists bp, bp_dict !! obs_filter obs = Some bp /\
                 length (chunk_of E db obs) = length seds /\
                 block = zip_with (star_row E bp obs) (chunk_of E db obs) seds)
      (obs0 :: rest) blocks.
Proof.
  intros (bp_dict & Hload & seds & blocks & Hseds & Hdf & Hblocks).
  exists bp_dict, seds, blocks.
  split; [exact Hload|]. split; [exact Hseds|]. split; [exact Hdf|].
  eapply Forall2_impl; [exact Hblocks|]. intros obs block Htab.
  destruct (visit_table_rows E _ _ _ _ _ Htab) as (bp & Hbp & Hlen & Hblock).
  exists bp. split; [exact Hbp|]. split; [symmetry; exact Hlen | exact Hblock].
Qed.

(** C9.  In one call to [get_true_stars] the SED list is loaded at most
    once and the magnitude array is computed at most once; when either
    happens, exactly one catalog query has been issued, that of the first
    visit; and on success every visit's rows are computed from that one
    load: row by row, the star of the visit's own catalog is written with
    the flux and the flux error of the magnitude of the first visit's SED
    at that row, in the visit's bandpass. *)
Theorem seds_and_magnitudes_loaded_once (E : Env') for_obsHistIds (w : World') r w' :
  get_true_stars E for_obsHistIds w = (r, w') ->
  exists new, events w' = events w ++ new /\
    (length (List.filter is_sed_load new) <= 1)%nat /\
    (length (List.filter is_mag_array new) <= 1)%nat /\
    (forall pre e post, new = pre ++ e :: post -> is_load e = true ->
       length (List.filter is_query pre) = 1%nat) /\
    (r = Ok tt ->
     exists ids obs_list df,
       ids_of E for_obsHistIds = Ok ids /\
       visits_of E (opsimDB (self w)) ids obs_list /\
       star_df (self w') = Some df /\
       match obs_list with
       | [] => df = []
       | obs0 :: _ =>
           exists bp_dict seds blocks,
             loadTotalBandpassesFromFiles E = Ok bp_dict /\
             SedList E (map sed_entry (chunk_of E (dbConn (self w)) obs0)) = Ok seds /\
             df = concat blocks /\
             Forall2 (fun obs block =>
                        exists bp, bp_dict !! obs_filter obs = Some bp /\
                          length (chunk_of E (dbConn (self w)) obs) = length seds /\
                          block = zip_with (star_row E bp obs)
                                    (chunk_of E (dbConn (self w)) obs) seds)
               obs_list blocks
       end).
Proof.
  intros Hrun. apply get_true_stars_run in Hrun as (new & Hev & _ & _ & _ & Hshape & _ & Hok).
  exists new. split; [exact Hev|].
  destruct (shape_loads_once _ _ _ Hshape) as [H1 H2].
  split; [exact H1|]. split; [exact H2|]. split.
  - intros pre e post. apply shape_loads_in_first_visit with (E:=E) (db:=dbConn (self w)).
    exact Hshape.
  - intros Hr. destruct (Hok Hr) as (ids & obs_list & df & Hids & Hvis & _ & Hdf & Htab).
    exists ids, obs_list, df. do 3 (split; [assumption|]).
    destruct obs_list as [|obs0 rest].
    + destruct Htab as (bp_dict & _ & Htab). exact Htab.
    + apply run_tables_rows. exact Htab.
Qed.

Lemma imap_rows (df : list (DfRow F)) : map snd (imap (fun i r => (i, r)) df) = df.
Proof.
  assert (Hg : forall (f : nat -> nat) (l : list (DfRow F)),
             map snd (imap (fun i r => (f i, r)) l) = l).
  { intros f l. revert f. induction l as [|r l IH]; intros f; simpl; [reflexivity|].
    f_equal. apply (IH (f ∘ S)). }
  apply (Hg (fun i => i)).
Qed.

Lemma write_to_db_run (E : Env') filename table_name (w : World') :
  write_to_db E filename table_name w =
  match star_df (self w) with
  | None => (Raise (AttributeError "star_df"), w)
  | Some df =>
      if in_memory filename then (Ok tt, w)
      else
        match connect E filename with
        | Raise e => (Raise e, w)
        | Ok _ =>
            let db := default ∅ (files w !! filename) in
            match db !! "stars" with
            | Some _ => (Raise (ValueError "Table already exists."), w)
            | None =>
                (Ok tt, {| self := self w; events := events w;
                           files := <[filename := <["stars" := imap (fun i r => (i, r)) df]> db]>
                                      (files w) |})
            end
        end
  end.
Proof.
  unfold write_to_db, to_sql, bind, get, attribute, modify, raise, ret, lift.
  destruct (star_df (self w)) as [df|]; simpl; [|reflexivity].
  destruct (in_memory filename); [reflexivity|].
  destruct (connect E filename) as [u|e]; [|reflexivity].
  destruct (default ∅ (files w !! filename) !! "stars"); reflexivity.
Qed.

(** The table lands under the name [stars], whatever name is asked for. *)
Lemma write_to_db_table (E : Env') filename table_name (w : World') w' df :
  in_memory filename = false ->
  star_df (self w) = Some df ->
  write_to_db E filename table_name w = (Ok tt, w') ->
  read_table w' filename "stars" = Some df /\
  (table_name <> "stars" ->
   read_table w' filename table_name = read_table w filename table_name).
Proof.
  intros Hfile Hdf. rewrite write_to_db_run, Hdf, Hfile. cbv zeta.
  destruct (connect E filename) as [u|e]; [|discriminate].
  destruct (default ∅ (files w !! filename) !! "stars") eqn:Hst; [discriminate|].
  intros Hw. injection Hw as <-. unfold read_table. simpl.
  rewrite lookup_insert_eq. simpl. rewrite lookup_insert_eq. simpl.
  split; [rewrite imap_rows; reflexivity|].
  intros Hne. rewrite lookup_insert_ne by congruence.
  destruct (files w !! filename) as [db|]; simpl; [reflexivity|].
  rewrite lookup_empty. reflexivity.
Qed.

(** Conversely, the call succeeds whenever every step it takes does. *)
Lemma visit_table_ok (E : Env') bp_dict seds chunk obs bp :
  bp_dict !! obs_filter obs = Some bp ->
  length seds = length chunk ->
  visit_table E bp_dict (magArrayForSedList E bp_dict seds)
    (Some (PhotometricParameters E)) chunk obs
  = Ok (zip_with (star_row E bp obs) chunk seds).
Proof.
  intros Hbp Hlen. unfold visit_table, visit_inputs, visit_rows, magArrayForSedList.
  rewrite lookup_fmap, Hbp.
  simpl. unfold visit_frame. rewrite !length_map.
  destruct (decide (length seds = length chunk)) as [_|]; [|contradiction].
  rewrite (zip_rows _ flux_of_mag
             (fun m => fst (calcSNR_m5 E m bp (fiveSigmaDepth obs) (PhotometricParameters E)))
             fdiv (fun sed => calcMag E sed bp)).
  reflexivity.
Qed.

Lemma metadata_loop_ok (E : Env') opsim total ids ms :
  visits_of E opsim ids ms ->
  forall acc (w : World'),
  exists n evs,
    for_fold ids acc (metadata_step E opsim total) w
    = (Ok (n, snd acc ++ ms), add_events evs w).
Proof.
  induction 1 as [|id m ids ms Hm _ IH]; intros acc w.
  - exists (fst acc), []. simpl. rewrite app_nil_r, add_events_nil.
    destruct acc; reflexivity.
  - simpl. destruct (getObservationMetaData E opsim id) as [|m' rest] eqn:Hg;
      [discriminate|]. simpl in Hm. injection Hm as ->.
    set (P := if decide (fst acc mod 100 = 0)%nat
              then [PrintObsMetadata (Sed:=Sed) (F:=F) (fst acc + 1) total] else []).
    destruct (IH ((fst acc + 1)%nat, snd acc ++ [m])
                 (add_events (P ++ [GetObservationMetaData id]) w)) as (n & evs & Hrun).
    simpl in Hrun. rewrite <- app_assoc in Hrun. simpl in Hrun.
    exists n, ((P ++ [GetObservationMetaData id]) ++ evs).
    rewrite <- add_events_app, <- Hrun.
    unfold bind at 1. unfold metadata_step at 1. rewrite Hg.
    unfold bind, log, modify, ret, add_events, P.
    destruct (decide _); simpl; rewrite <- ?app_assoc; reflexivity.
Qed.

Lemma visits_loaded_ok (E : Env') bp_dict total ma pp db l blocks :
  Forall2 (fun obs block =>
             visit_table E bp_dict ma pp (chunk_of E db obs) obs = Ok block)
    l blocks ->
  forall st (w : World'),
  seds_loaded st = true -> mag_array st = Some ma -> phot_params st = pp ->
  dbConn (self w) = db ->
  exists st' evs,
    for_fold l st (visit_step E bp_dict total) w = (Ok st', add_events evs w) /\
    star_df_acc st' = star_df_acc st ++ concat blocks.
Proof.
  induction 1 as [|obs block l blocks Htab _ IH]; intros st w Hl Hma Hpp Hdb.
  - exists st, []. simpl. rewrite add_events_nil, app_nil_r. split; reflexivity.
  - simpl. unfold bind. rewrite (visit_step_loaded _ _ _ _ _ _ Hl), Hma. cbv zeta.
    rewrite Hpp, Hdb, Htab.
    set (ev0 := (progress st total ++ [CatalogQuery obs star_constraint])
                ++ snr_call bp_dict ma pp obs).
    destruct (IH (next_locals E st ma pp block) (add_events ev0 w)
                 eq_refl eq_refl eq_refl Hdb) as (st' & evs & Hrun & Hdf).
    exists st', (ev0 ++ evs). rewrite <- add_events_app.
    split; [exact Hrun|]. rewrite Hdf. simpl. rewrite app_assoc. reflexivity.
Qed.

Lemma get_true_stars_succeeds (E : Env') for_obsHistIds (w : World') ids obs_list df :
  ids_of E for_obsHistIds = Ok ids ->
  visits_of E (opsimDB (self w)) ids obs_list ->
  run_tables E (dbConn (self w)) obs_list df ->
  exists w', get_true_stars E for_obsHistIds w = (Ok tt, w') /\
             star_df (self w') = Some df.
Proof.
  intros Hids Hvis (bp_dict & Hload & Htab). rewrite get_true_stars_unfold. cbv zeta.
  rewrite Hids.
  destruct (metadata_loop_ok E _ (length ids) _ _ Hvis (0%nat, [])
              (add_events (read_events for_obsHistIds) w)) as (n & ev1 & ->).
  rewrite Hload. simpl snd.
  destruct obs_list as [|obs0 rest]; simpl in Htab.
  - subst df. simpl. eexists. split; reflexivity.
  - destruct Htab as (seds & blocks & Hseds & -> & Hblocks).
    inversion Hblocks as [|o b l bl Htab0 Hrest]; subst.
    simpl for_fold. unfold bind at 1. rewrite visit_step_first by reflexivity.
    cbv zeta. simpl self. rewrite Hseds, Htab0.
    match goal with |- context [for_fold rest ?st ?f ?w1] =>
      destruct (visits_loaded_ok E bp_dict (length ids)
                  _ _ _ rest bl Hrest st w1 eq_refl eq_refl eq_refl eq_refl)
        as (st' & evs & -> & Hdf)
    end.
    eexists. split; [reflexivity|].
    simpl. rewrite Hdf. reflexivity.
Qed.

End Properties.

Section Concrete.
Import CreateTruthDB_demo.

Lemma Rgtb_Q2R (a b : Q) : Rgtb (Q2R a) (Q2R b) = negb (Qle_bool a b).
Proof.
  unfold Rgtb. destruct (Qle_bool a b) eqn:Hq; simpl.
  - apply Qle_bool_iff, Qle_Rle in Hq. destruct (Rgt_dec _ _); [lra | reflexivity].
  - assert (Hlt : (b < a)%Q).
    { apply Qnot_le_lt. intros Hle. apply Qle_bool_iff in Hle. congruence. }
    apply Qlt_Rlt in Hlt. destruct (Rgt_dec _ _); [reflexivity | lra].
Qed.

Ltac eval_catalog :=
  cbv -[Rgtb Q2R]; rewrite ?Rgtb_Q2R; reflexivity.

Lemma chunk_visit_1 : chunk_of demo_env demo_db (visit 1) = [starA].
Proof. eval_catalog. Qed.

Lemma chunk_visit_2 : chunk_of demo_env demo_db (visit 2) = [starB].
Proof. eval_catalog. Qed.

Lemma chunk_visit_3 : chunk_of demo_env demo_db (visit 3) = [starA; starB].
Proof. eval_catalog. Qed.

Lemma chunk_visit_4 : chunk_of demo_env demo_db (visit 4) = [starA; starB].
Proof. eval_catalog. Qed.

Lemma bandpass_r : demo_bandpasses !! "r" = Some "total_r.dat".
Proof. reflexivity. Qed.

Lemma bandpass_g : demo_bandpasses !! "g" = Some "total_g.dat".
Proof. reflexivity. Qed.

(** In the real numbers the flux of line 142 is 1 at magnitude 22.5, 10 at
    magnitude 20, and falls as the magnitude grows. *)
Lemma flux_at_22_5 : flux_of_mag (lit 22.5 : R) = 1%R.
Proof.
  unfold flux_of_mag. simpl.
  replace (Q2R (-0.4) * (Q2R 22.5 - Q2R 22.5))%R with 0%R by (unfold Q2R; simpl; lra).
  apply Rpower_O. unfold Q2R. simpl. lra.
Qed.

Lemma flux_at_20 : flux_of_mag (lit 20 : R) = 10%R.
Proof.
  unfold flux_of_mag. simpl.
  replace (Q2R (-0.4) * (Q2R 20 - Q2R 22.5))%R with 1%R by (unfold Q2R; simpl; lra).
  rewrite Rpower_1; unfold Q2R; simpl; lra.
Qed.

Lemma flux_decreases_with_magnitude (m1 m2 : R) :
  (m1 < m2)%R -> (flux_of_mag m2 < flux_of_mag m1)%R.
Proof.
  intros Hlt. unfold flux_of_mag. simpl. apply Rpower_lt.
  - unfold Q2R. simpl. lra.
  - unfold Q2R. simpl. lra.
Qed.

Lemma snr_at_depth : (5 * Rpower (Q2R 10) (Q2R 0.4 * (Q2R 22.5 - Q2R 22.5)) = 5)%R.
Proof.
  replace (Q2R 0.4 * (Q2R 22.5 - Q2R 22.5))%R with 0%R by (unfold Q2R; simpl; lra).
  rewrite Rpower_O; [lra|]. unfold Q2R. simpl. lra.
Qed.

Lemma snr_at_20 : (5 * Rpower (Q2R 10) (Q2R 0.4 * (Q2R 22.5 - Q2R 20)) = 50)%R.
Proof.
  replace (Q2R 0.4 * (Q2R 22.5 - Q2R 20))%R with 1%R by (unfold Q2R; simpl; lra).
  rewrite Rpower_1; unfold Q2R; simpl; lra.
Qed.

Lemma drifting_run :
  exists w',
    get_true_stars demo_env (Some [1; 2]%Z) demo_world = (Ok tt, w') /\
    star_df (self w') = Some drifted_df.
Proof.
  apply get_true_stars_succeeds with (ids := [1; 2]%Z) (obs_list := [visit 1; visit 2]).
  - reflexivity.
  - repeat constructor.
  - exists demo_bandpasses. split; [reflexivity|].
    change (dbConn (self demo_world)) with demo_db.
    rewrite chunk_visit_1.
    exists [sed_entry starA],
      [[star_row demo_env "total_r.dat" (visit 1) starA (sed_entry starA)];
       [drifted_row]].
    split; [reflexivity|]. split; [reflexivity|].
    constructor; [|constructor; [|constructor]].
    + rewrite chunk_visit_1.
      rewrite (visit_table_ok demo_env _ _ _ _ "total_r.dat"); reflexivity.
    + rewrite chunk_visit_2.
      rewrite (visit_table_ok demo_env _ _ _ _ "total_g.dat"); reflexivity.
Qed.

Lemma steady_run_table :
  exists w',
    get_true_stars demo_env None demo_world = (Ok tt, w') /\
    star_df (self w') = Some steady_df.
Proof.
  apply get_true_stars_succeeds with (ids := [3; 4]%Z) (obs_list := [visit 3; visit 4]).
  - reflexivity.
  - repeat constructor.
  - exists demo_bandpasses. split; [reflexivity|].
    change (dbConn (self demo_world)) with demo_db.
    rewrite chunk_visit_3.
    exists [sed_entry starA; sed_entry starB],
      [zip_with (star_row demo_env "total_r.dat" (visit 3))
         [starA; starB] [sed_entry starA; sed_entry starB];
       zip_with (star_row demo_env "total_g.dat" (visit 4))
         [starA; starB] [sed_entry starA; sed_entry starB]].
    split; [reflexivity|]. split; [reflexivity|].
    constructor; [|constructor; [|constructor]].
    + rewrite chunk_visit_3.
      rewrite (visit_table_ok demo_env _ _ _ _ "total_r.dat"); reflexivity.
    + rewrite chunk_visit_4.
      rewrite (visit_table_ok demo_env _ _ _ _ "total_g.dat"); reflexivity.
Qed.

Lemma steady_run :
  exists w', get_true_stars demo_env None demo_world = (Ok tt, w').
Proof. destruct steady_run_table as (w' & Hrun & _). exists w'. exact Hrun. Qed.

(** On the default visits star B gets its own flux, 10, in visit 4, and
    the error 10 / 50. *)
Example steady_row_of_star_B :
  exists w' df row,
    get_true_stars demo_env None demo_world = (Ok tt, w') /\
    star_df (self w') = Some df /\ df !! 3%nat = Some row /\
    df_uniqueId row = 2%Z /\ df_obsHistId row = 4%Z /\ df_filter row = "g" /\
    df_true_flux row = 10%R /\ df_true_flux_error row = (10 / 50)%R.
Proof.
  destruct steady_run_table as (w' & Hrun & Hdf).
  exists w', steady_df, (star_row demo_env "total_g.dat" (visit 4) starB (sed_entry starB)).
  split; [exact Hrun|]. split; [exact Hdf|]. do 4 (split; [reflexivity|]).
  change (flux_of_mag (lit 20 : R) = 10%R /\
          (flux_of_mag (lit 20 : R) /
             (Q2R 5 * Rpower (Q2R 10) (Q2R 0.4 * (Q2R 22.5 - Q2R 20))))%R
          = (10 / 50)%R).
  replace (Q2R 5) with 5%R by (unfold Q2R; simpl; lra).
  rewrite flux_at_20, snr_at_20. split; reflexivity.
Qed.

Lemma steady_same_sed_inputs : same_sed_inputs demo_env demo_db (visit 3) (visit 4).
Proof. unfold same_sed_inputs. rewrite chunk_visit_3, chunk_visit_4. reflexivity. Qed.

(** Without the condition on the SED inputs the flux formula fails.  The
    field drifts between visits 1 and 2: star B, of magnitude 20, is
    the only star of visit 2, and the flux written for it is 1, the flux of
    star A's magnitude 22.5, where its own magnitude gives 10. *)
Lemma drifting_field_flux :
  exists w' df row m,
    get_true_stars demo_env (Some [1; 2]%Z) demo_world = (Ok tt, w') /\
    star_df (self w') = Some df /\ df !! 1%nat = Some row /\
    df_uniqueId row = uniqueId starB /\ df_obsHistId row = obsHistID (visit 2) /\
    star_mag demo_env starB (obs_filter (visit 2)) = Some m /\
    df_true_flux row = 1%R /\ flux_of_mag m = 10%R /\
    df_true_flux row <> flux_of_mag m.
Proof.
  destruct drifting_run as (w' & Hrun & Hdf).
  exists w', drifted_df, drifted_row, (lit 20). split; [exact Hrun|]. split; [exact Hdf|].
  do 4 (split; [reflexivity|]).
  change (df_true_flux drifted_row) with (flux_of_mag (lit 22.5 : R)).
  rewrite flux_at_22_5, flux_at_20. repeat split; lra.
Qed.

(** Without the condition on the SED inputs the flux-error formula fails
    on the same run: the routine gives star B, of
    magnitude 20, a signal-to-noise ratio of 50 in visit 2, and the error
    written for it is its flux 1 over 5, the ratio of star A's magnitude. *)
Lemma drifting_field_flux_error :
  exists w' df row snr,
    get_true_stars demo_env (Some [1; 2]%Z) demo_world = (Ok tt, w') /\
    star_df (self w') = Some df /\ df !! 1%nat = Some row /\
    df_uniqueId row = uniqueId starB /\ df_obsHistId row = obsHistID (visit 2) /\
    star_snr demo_env starB (visit 2) = Some snr /\
    snr = 50%R /\ df_true_flux_error row = (1 / 5)%R /\
    df_true_flux_error row <> fdiv (df_true_flux row) snr.
Proof.
  destruct drifting_run as (w' & Hrun & Hdf).
  exists w', drifted_df, drifted_row,
    (fst (calcSNR_m5 demo_env (lit 20) "total_g.dat" (fiveSigmaDepth (visit 2)) tt)). split; [exact Hrun|]. split; [exact Hdf|].
  do 4 (split; [reflexivity|]).
  change (df_true_flux_error drifted_row)
    with (flux_of_mag (lit 22.5 : R) /
            (Q2R 5 * Rpower (Q2R 10) (Q2R 0.4 * (Q2R 22.5 - Q2R 22.5))))%R.
  change (df_true_flux drifted_row) with (flux_of_mag (lit 22.5 : R)).
  change (fst (calcSNR_m5 demo_env (lit 20) "total_g.dat" (fiveSigmaDepth (visit 2)) tt))
    with (Q2R 5 * Rpower (Q2R 10) (Q2R 0.4 * (Q2R 22.5 - Q2R 20)))%R.
  change (@fdiv R R_Float) with Rdiv.
  replace (Q2R 5) with 5%R by (unfold Q2R; simpl; lra).
  rewrite flux_at_22_5, snr_at_depth, snr_at_20. repeat split; lra.
Qed.

(** The constraint does not select the stars brighter than the cutoff: the
    star the call writes out is fainter than magnitude 11, and the star
    brighter than magnitude 11 is left out. *)
Lemma fainter_star_returned :
  exists w' df,
    get_true_stars demo_env (Some [1; 2]%Z) demo_world = (Ok tt, w') /\
    star_df (self w') = Some df /\
    In starA (iter_catalog demo_env demo_db (visit 1) (gmag_gt 11)) /\
    In (uniqueId starA) (map df_uniqueId df) /\
    brighter_than (lit 11) starA = false /\
    brighter_than (lit 11) starC = true /\
    ~ In starC (iter_catalog demo_env demo_db (visit 1) (gmag_gt 11)) /\
    ~ In (uniqueId starC) (map df_uniqueId df).
Proof.
  destruct drifting_run as (w' & Hrun & Hdf).
  exists w', drifted_df. split; [exact Hrun|]. split; [exact Hdf|].
  change (iter_catalog demo_env demo_db (visit 1) (gmag_gt 11))
    with (chunk_of demo_env demo_db (visit 1)).
  rewrite chunk_visit_1.
  split; [left; reflexivity|]. split; [left; reflexivity|].
  split; [unfold brighter_than; simpl; rewrite Rgtb_Q2R; reflexivity|].
  split; [unfold brighter_than; simpl; rewrite Rgtb_Q2R; reflexivity|].
  split.
  - intros [Heq | []]. apply (f_equal uniqueId) in Heq. discriminate Heq.
  - simpl. intros [Heq | [Heq | []]]; discriminate Heq.
Qed.

(** No cutoff at all bounds the magnitudes the query lets through. *)
Lemma no_brightness_cutoff (cutoff : R) :
  exists s : Star R,
    In s (iter_catalog demo_env [s] (visit 3) (gmag_gt 11)) /\
    brighter_than cutoff s = false.
Proof.
  exists {| uniqueId := 9; raJ2000 := lit 0.925; decJ2000 := lit (-0.478);
            gmag := (Rmax cutoff (Q2R 11) + 1)%R;
            sedFilepath := "starSED/kurucz/d.txt.gz";
            phoSimMagNorm := lit 21; galacticAv := lit 0.03 |}.
  pose proof (Rmax_l cutoff (Q2R 11)) as Hl. pose proof (Rmax_r cutoff (Q2R 11)) as Hr.
  unfold iter_catalog, brighter_than. simpl. unfold Rgtb.
  destruct (Rgt_dec (Rmax cutoff (Q2R 11) + 1) (Q2R 11)) as [_|Hn]; [|exfalso; lra].
  split; [left; reflexivity|].
  destruct (Rgt_dec cutoff (Rmax cutoff (Q2R 11) + 1)) as [Hgt|_]; [exfalso; lra|].
  reflexivity.
Qed.

(** The flux formula on the default visits, whose fields coincide. *)
Lemma true_flux_of_own_magnitude_witness :
  same_sed_inputs demo_env demo_db (visit 3) (visit 4) /\
  exists w',
    get_true_stars demo_env None demo_world = (Ok tt, w') /\
    exists ids obs_list blocks,
      ids_of demo_env None = Ok ids /\
      visits_of demo_env (opsimDB (self demo_world)) ids obs_list /\
      star_df (self w') = Some (concat blocks) /\
      Forall2 (fun obs block =>
        (forall obs0, head obs_list = Some obs0 ->
                      same_sed_inputs demo_env (dbConn (self demo_world)) obs0 obs) ->
        Forall2 (fun s row =>
                   df_uniqueId row = uniqueId s /\ df_obsHistId row = obsHistID obs /\
                   df_filter row = obs_filter obs /\
                   exists m, star_mag demo_env s (obs_filter obs) = Some m /\
                             df_true_flux row = flux_of_mag m)
          (chunk_of demo_env (dbConn (self demo_world)) obs) block) obs_list blocks.
Proof.
  split; [exact steady_same_sed_inputs|].
  destruct steady_run as (w' & Hrun). exists w'. split; [exact Hrun|].
  exact (true_flux_of_own_magnitude demo_env None demo_world w' Hrun).
Defined.

(** The flux-error formula on the default visits. *)
Lemma flux_error_is_flux_over_snr_witness :
  exists w',
    get_true_stars demo_env None demo_world = (Ok tt, w') /\
    exists ids obs_list blocks,
      ids_of demo_env None = Ok ids /\
      visits_of demo_env (opsimDB (self demo_world)) ids obs_list /\
      star_df (self w') = Some (concat blocks) /\
      Forall2 (fun obs block =>
        (forall obs0, head obs_list = Some obs0 ->
                      same_sed_inputs demo_env (dbConn (self demo_world)) obs0 obs) ->
        Forall2 (fun s row =>
                   df_uniqueId row = uniqueId s /\ df_obsHistId row = obsHistID obs /\
                   exists snr, star_snr demo_env s obs = Some snr /\
                               df_true_flux_error row = fdiv (df_true_flux row) snr)
          (chunk_of demo_env (dbConn (self demo_world)) obs) block) obs_list blocks.
Proof.
  destruct steady_run as (w' & Hrun). exists w'. split; [exact Hrun|].
  exact (flux_error_is_flux_over_snr demo_env None demo_world w' Hrun).
Defined.

(** The queries of the default visits. *)
Lemma catalog_query_keeps_gmag_above_11_witness :
  exists w' new,
    get_true_stars demo_env None demo_world = (Ok tt, w') /\
    events w' = events demo_world ++ new /\
    forall obs c, In (CatalogQuery obs c) new ->
      c = gmag_gt 11 /\
      forall s, In s (iter_catalog demo_env (dbConn (self demo_world)) obs c) ->
                fgt (gmag s) (lit 11) = true.
Proof.
  destruct steady_run as (w' & Hrun).
  destruct (catalog_query_keeps_gmag_above_11 demo_env None demo_world (Ok tt) w' Hrun)
    as (new & Hev & Hq & _).
  exists w', new. split; [exact Hrun|]. split; [exact Hev | exact Hq].
Defined.

(** The loads and the rows of the default visits. *)
Lemma seds_and_magnitudes_loaded_once_witness :
  exists w' new,
    get_true_stars demo_env None demo_world = (Ok tt, w') /\
    events w' = events demo_world ++ new /\
    (length (List.filter is_sed_load new) <= 1)%nat /\
    (length (List.filter is_mag_array new) <= 1)%nat /\
    exists ids obs_list df,
      ids_of demo_env None = Ok ids /\
      visits_of demo_env (opsimDB (self demo_world)) ids obs_list /\
      star_df (self w') = Some df /\
      match obs_list with
      | [] => df = []
      | obs0 :: _ =>
          exists bp_dict seds blocks,
            loadTotalBandpassesFromFiles demo_env = Ok bp_dict /\
            SedList demo_env
              (map sed_entry (chunk_of demo_env (dbConn (self demo_world)) obs0))
            = Ok seds /\
            df = concat blocks /\
            Forall2 (fun obs block =>
                       exists bp, bp_dict !! obs_filter obs = Some bp /\
                         length (chunk_of demo_env (dbConn (self demo_world)) obs)
                         = length seds /\
                         block = zip_with (star_row demo_env bp obs)
                                   (chunk_of demo_env (dbConn (self demo_world)) obs)
                                   seds)
              obs_list blocks
      end.
Proof.
  destruct steady_run as (w' & Hrun).
  destruct (seds_and_magnitudes_loaded_once demo_env None demo_world (Ok tt) w' Hrun)
    as (new & Hev & H1 & H2 & _ & Hok).
  exists w', new. split; [exact Hrun|]. split; [exact Hev|].
  split; [exact H1|]. split; [exact H2|]. exact (Hok eq_refl).
Defined.

(** C7.  [write_to_db] does not use its [table_name] argument: a table that
    is to be written as [truth] is stored under the name [stars], and
    reading [truth] back from the file finds no table. *)
Theorem write_to_db_ignores_table_name :
  exists w',
    write_to_db demo_env "truth.db" "truth" built_world = (Ok tt, w') /\
    read_table w' "truth.db" "truth" = None /\
    read_table w' "truth.db" "stars" = Some demo_df.
Proof.
  eexists. split.
  - rewrite write_to_db_run. reflexivity.
  - unfold read_table. simpl. rewrite lookup_insert_eq. simpl.
    rewrite lookup_insert_ne by discriminate. rewrite lookup_insert_eq. simpl.
    split; reflexivity.
Qed.

End Concrete.

End CreateTruthDB_spec.

(** * Further properties of monitor.py *)

Module monitor_extra.
Import monitor monitor_spec.
Section Properties.
Context {F : Type} `{Float F}.

Lemma lc_add_events_nil (w : World F) : add_events [] w = w.
Proof. destruct w. unfold add_events. simpl. rewrite app_nil_r. reflexivity. Qed.

Lemma lc_add_events_app (a b : list (event F)) (w : World F) :
  add_events b (add_events a w) = add_events (a ++ b) w.
Proof. unfold add_events. simpl. rewrite app_assoc. reflexivity. Qed.

Lemma build_lightcurve_unfold (E : Env F) objid (w : World F) :
  build_lightcurve E objid w =
  match bandpasses (self w) with
  | None => (Raise (AttributeError "bandpasses"), w)
  | Some bps =>
      match for_fold bps empty_columns (bandpass_body E objid (self w)) w with
      | (Ok lc, w1) =>
          (Ok tt, {| self := set_lightcurve (Some lc) (self w1); events := events w1 |})
      | (Raise e, w1) => (Raise e, w1)
      end
  end.
Proof.
  unfold build_lightcurve, bind, get, attribute, ret, raise.
  destruct (bandpasses (self w)) as [bps|]; [|reflexivity].
  change (for_fold bps empty_columns _ w)
    with (for_fold bps empty_columns (bandpass_body E objid (self w)) w).
  destruct (for_fold bps empty_columns (bandpass_body E objid (self w)) w) as [[lc|e] w1];
    reflexivity.
Qed.

Lemma visit_body_run (E : Env F) objid o b lc v (w : World F) :
  visit_body E objid o b lc v w =
  match fp_table_dir o with
  | None => (Raise (AttributeError "fp_table_dir"), w)
  | Some dir =>
      let w1 := add_events [FitsOpen (fits_path dir v b)] w in
      match fits_open E (fits_path dir v b) with
      | Raise e => (Raise e, w1)
      | Ok data =>
          match head (filter (fun r => objectId r = objid) data) with
          | None => (Ok lc, w1)
          | Some r =>
              match visit_mjd o with
              | None => (Raise (AttributeError "visit_mjd"), w1)
              | Some mjds =>
                  match mjds !! v with
                  | Some mjd => (Ok (append_row lc b mjd r), w1)
                  | None => (Raise (KeyError v), w1)
                  end
              end
          end
      end
  end.
Proof.
  unfold visit_body, bind, attribute, log, modify, lift, ret, raise, add_events, fits_path.
  destruct (fp_table_dir o) as [dir|]; [|reflexivity]. simpl.
  destruct (fits_open E _) as [data|e]; [|reflexivity].
  destruct (filter _ data) as [|r rest]; [reflexivity|]. simpl.
  destruct (visit_mjd o) as [mjds|]; [|reflexivity].
  destruct (mjds !! v); reflexivity.
Qed.

Lemma visits_loop (E : Env F) objid o b dir mjds :
  fp_table_dir o = Some dir -> visit_mjd o = Some mjds ->
  forall visits lc (w : World F) r w',
  for_fold visits lc (visit_body E objid o b) w = (r, w') ->
  exists k, (k <= length visits)%nat /\
    w' = add_events (open_event dir <$> take k ((fun v => (b, v)) <$> visits)) w /\
    forall lc', r = Ok lc' ->
      k = length visits /\
      lc' = foldl add_row lc
              (measured_rows E dir objid mjds ((fun v => (b, v)) <$> visits)) /\
      Forall (usable E dir objid mjds) ((fun v => (b, v)) <$> visits).
Proof.
  intros Hdir Hmjd. induction visits as [|v visits IH]; intros lc w r w' Hrun.
  - simpl in Hrun. injection Hrun as <- <-. exists 0%nat. split; [lia|].
    split; [simpl; rewrite lc_add_events_nil; reflexivity|].
    intros lc' Hr. injection Hr as <-. split; [reflexivity|]. split; [reflexivity|constructor].
  - simpl in Hrun. unfold bind in Hrun. rewrite visit_body_run, Hdir, Hmjd in Hrun.
    cbv zeta in Hrun. unfold measured_rows. simpl.
    unfold measurement at 1. simpl.
    destruct (fits_open E (fits_path dir v b)) as [data|e] eqn:Hopen.
    2:{ injection Hrun as <- <-. exists 1%nat. split; [lia|]. split; [reflexivity|].
        intros lc' Hr. discriminate Hr. }
    assert (Hcont : forall lc1,
              for_fold visits lc1 (visit_body E objid o b)
                (add_events [FitsOpen (fits_path dir v b)] w) = (r, w') ->
              exists k, (k <= S (length visits))%nat /\
                w' = add_events (open_event dir <$> take k ((b, v) :: ((fun v => (b, v)) <$> visits))) w /\
                forall lc', r = Ok lc' ->
                  k = S (length visits) /\
                  lc' = foldl add_row lc1
                          (measured_rows E dir objid mjds ((fun v => (b, v)) <$> visits)) /\
                  Forall (usable E dir objid mjds) ((fun v => (b, v)) <$> visits)).
    { intros lc1 Hrest. apply IH in Hrest as (k & Hk & -> & Hok).
      exists (S k). split; [lia|]. split; [rewrite lc_add_events_app; reflexivity|].
      intros lc' Hr. destruct (Hok lc' Hr) as (-> & -> & Hall). auto. }
    destruct (head (filter (fun r0 => objectId r0 = objid) data)) as [row|] eqn:Hhead.
    + destruct (mjds !! v) as [mjd|] eqn:Hlook.
      * apply Hcont in Hrun as (k & Hk & -> & Hok). exists k. split; [exact Hk|].
        split; [reflexivity|]. intros lc' Hr. destruct (Hok lc' Hr) as (-> & -> & Hall).
        split; [reflexivity|]. simpl. split; [reflexivity|]. constructor; [|exact Hall].
        split; [exists data; exact Hopen|]. intros _. simpl. rewrite Hlook. eauto.
      * injection Hrun as <- <-. exists 1%nat. split; [lia|]. split; [reflexivity|].
        intros lc' Hr. discriminate Hr.
    + apply Hcont in Hrun as (k & Hk & -> & Hok). exists k. split; [exact Hk|].
      split; [reflexivity|]. intros lc' Hr. destruct (Hok lc' Hr) as (-> & -> & Hall).
      split; [reflexivity|]. simpl. split; [reflexivity|]. constructor; [|exact Hall].
      split; [exists data; exact Hopen|]. unfold measurement. simpl. rewrite Hopen, Hhead.
      intros [x Hx]. discriminate Hx.
Qed.

Lemma bandpass_body_run (E : Env F) objid o vm lc b (w : World F) :
  visit_map o = Some vm ->
  bandpass_body E objid o lc b w =
  match vm !! b with
  | None => (Raise (KeyError b), w)
  | Some visits => for_fold visits lc (visit_body E objid o b) w
  end.
Proof.
  intros Hvm. unfold bandpass_body, bind, attribute, ret, raise. rewrite Hvm.
  destruct (vm !! b); reflexivity.
Qed.

Lemma visit_pairs_cons b bps (vm : gmap string (list string)) :
  visit_pairs (b :: bps) vm
  = ((fun v => (b, v)) <$> default [] (vm !! b)) ++ visit_pairs bps vm.
Proof. reflexivity. Qed.

Lemma measured_rows_app (E : Env F) dir objid mjds p1 p2 :
  measured_rows E dir objid mjds (p1 ++ p2)
  = measured_rows E dir objid mjds p1 ++ measured_rows E dir objid mjds p2.
Proof. unfold measured_rows. apply omap_app. Qed.

Lemma bandpasses_loop (E : Env F) objid o dir mjds vm :
  fp_table_dir o = Some dir -> visit_mjd o = Some mjds -> visit_map o = Some vm ->
  forall bps lc (w : World F) r w',
  for_fold bps lc (bandpass_body E objid o) w = (r, w') ->
  exists k, (k <= length (visit_pairs bps vm))%nat /\
    w' = add_events (open_event dir <$> take k (visit_pairs bps vm)) w /\
    forall lc', r = Ok lc' ->
      k = length (visit_pairs bps vm) /\
      lc' = foldl add_row lc (measured_rows E dir objid mjds (visit_pairs bps vm)) /\
      Forall (usable E dir objid mjds) (visit_pairs bps vm) /\
      Forall (fun b => is_Some (vm !! b)) bps.
Proof.
  intros Hdir Hmjd Hvm. induction bps as [|b bps IH]; intros lc w r w' Hrun.
  - simpl in Hrun. injection Hrun as <- <-. exists 0%nat. split; [simpl; lia|].
    split; [simpl; rewrite lc_add_events_nil; reflexivity|].
    intros lc' Hr. injection Hr as <-. repeat split; constructor.
  - simpl in Hrun. unfold bind in Hrun. rewrite (bandpass_body_run _ _ _ vm) in Hrun by exact Hvm.
    rewrite visit_pairs_cons.
    destruct (vm !! b) as [visits|] eqn:Hb.
    2:{ injection Hrun as <- <-. exists 0%nat. split; [lia|].
        split; [simpl; rewrite lc_add_events_nil; reflexivity|].
        intros lc' Hr. discriminate Hr. }
    simpl default. set (pb := (fun v => (b, v)) <$> visits).
    destruct (for_fold visits lc (visit_body E objid o b) w) as [[lc1|e] w1] eqn:Hin;
      apply (visits_loop E objid o b dir mjds Hdir Hmjd) in Hin as (k1 & Hk1 & -> & Hok1).
    + destruct (Hok1 lc1 eq_refl) as (-> & -> & Hall1).
      apply IH in Hrun as (k2 & Hk2 & -> & Hok2).
      exists (length pb + k2)%nat. rewrite length_app. split; [lia|].
      rewrite take_app_add. rewrite lc_add_events_app, fmap_app.
      assert (Hlen : length visits = length pb) by (unfold pb; rewrite length_fmap; reflexivity).
      rewrite Hlen, firstn_all. split; [reflexivity|].
      intros lc' Hr. destruct (Hok2 lc' Hr) as (-> & -> & Hall2 & Hbps).
      split; [reflexivity|]. rewrite measured_rows_app, foldl_app.
      split; [reflexivity|]. split; [apply Forall_app; split; assumption|].
      constructor; [rewrite Hb; eauto | exact Hbps].
    + injection Hrun as <- <-. exists k1. rewrite length_app.
      assert (Hlen : length visits = length pb) by (unfold pb; rewrite length_fmap; reflexivity).
      split; [lia|]. rewrite take_app_le by lia. split; [reflexivity|].
      intros lc' Hr. discriminate Hr.
Qed.

(** Everything [build_lightcurve] does on an instance whose four
    file-related attributes are set. *)
Lemma build_lightcurve_run (E : Env F) objid (w : World F) dir bps vm mjds r w'
    (Hdir : fp_table_dir (self w) = Some dir) (Hbps : bandpasses (self w) = Some bps)
    (Hvm : visit_map (self w) = Some vm) (Hmjd : visit_mjd (self w) = Some mjds) :
  build_lightcurve E objid w = (r, w') ->
  let pairs := visit_pairs bps vm in
  exists k, (k <= length pairs)%nat /\
    events w' = events w ++ (open_event dir <$> take k pairs) /\
    (forall e, r = Raise e -> self w' = self w) /\
    (r = Ok tt ->
       k = length pairs /\
       self w' = set_lightcurve
                   (Some (table_of_rows (measured_rows E dir objid mjds pairs))) (self w) /\
       Forall (usable E dir objid mjds) pairs /\
       Forall (fun b => is_Some (vm !! b)) bps).
Proof.
  rewrite build_lightcurve_unfold, Hbps. intros Hrun pairs.
  destruct (for_fold bps empty_columns (bandpass_body E objid (self w)) w)
    as [[lc|e] w1] eqn:Hloop;
    apply (bandpasses_loop E objid (self w) dir mjds vm Hdir Hmjd Hvm) in Hloop
      as (k & Hk & -> & Hok); injection Hrun as <- <-; exists k; (split; [exact Hk|]).
  - split; [reflexivity|]. split; [discriminate|]. intros _.
    destruct (Hok lc eq_refl) as (-> & -> & Hall & Hb). auto.
  - split; [reflexivity|]. split; [reflexivity|]. discriminate.
Qed.

Lemma for_fold_invariant {W A S} (P : W -> Prop) (l : list A)
    (body : S -> A -> Py W S) :
  (forall s x w r w', P w -> body s x w = (r, w') -> P w') ->
  forall s w r w', P w -> for_fold l s body w = (r, w') -> P w'.
Proof.
  intros Hbody. induction l as [|x l IH]; intros s w r w' Hw Hrun; simpl in Hrun.
  - injection Hrun as _ <-. exact Hw.
  - unfold bind in Hrun. destruct (body s x w) as [[s1|e] w1] eqn:Hx.
    + apply (IH s1 w1 r w'); [eapply Hbody; eauto | exact Hrun].
    + injection Hrun as _ <-. eapply Hbody; eauto.
Qed.

Lemma add_row_rectangular n (t : Table F) x :
  rectangular n t -> col_obsHistId t = None ->
  rectangular (S n) (add_row t x) /\ col_obsHistId (add_row t x) = None.
Proof.
  unfold rectangular, add_row, append_row. simpl. rewrite !length_app. simpl.
  intros (H1 & H2 & H3 & H4 & H5 & H6 & H7 & H8 & _) ->.
  repeat apply conj; first [lia | reflexivity | exact I].
Qed.

Lemma table_of_rows_rectangular (rows : list (string * F * FitsRow F)) :
  rectangular (length rows) (table_of_rows rows) /\
  col_obsHistId (table_of_rows rows) = None.
Proof.
  unfold table_of_rows.
  assert (Hgen : forall n t, rectangular n t -> col_obsHistId t = None ->
            rectangular (n + length rows) (foldl add_row t rows) /\
            col_obsHistId (foldl add_row t rows) = None).
  { induction rows as [|x rows IH]; intros n t Hr Ho; simpl.
    - rewrite Nat.add_0_r. auto.
    - destruct (add_row_rectangular n t x Hr Ho) as [Hr' Ho'].
      replace (n + S (length rows))%nat with (S n + length rows)%nat by lia.
      apply IH; assumption. }
  apply (Hgen 0%nat empty_columns); [|reflexivity].
  unfold rectangular. simpl. repeat split; reflexivity.
Qed.

Lemma table_of_rows_constants (rows : list (string * F * FitsRow F)) :
  col_zp (table_of_rows rows) = replicate (length rows) (lit 25.0) /\
  col_zpsys (table_of_rows rows) = replicate (length rows) "ab" /\
  col_bandpass (table_of_rows rows) = (fun x => "lsst" +:+ x.1.1) <$> rows /\
  col_mjd (table_of_rows rows) = (fun x => x.1.2) <$> rows /\
  col_flux (table_of_rows rows) = (fun x => base_PsfFlux_flux x.2) <$> rows /\
  col_flux_error (table_of_rows rows) = (fun x => base_PsfFlux_fluxSigma x.2) <$> rows /\
  col_ra (table_of_rows rows) = (fun x => coord_ra x.2) <$> rows /\
  col_dec (table_of_rows rows) = (fun x => coord_dec x.2) <$> rows.
Proof.
  unfold table_of_rows.
  assert (Hgen : forall t : Table F,
    let t' := foldl add_row t rows in
    col_zp t' = col_zp t ++ replicate (length rows) (lit 25.0) /\
    col_zpsys t' = col_zpsys t ++ replicate (length rows) "ab" /\
    col_bandpass t' = col_bandpass t ++ ((fun x => "lsst" +:+ x.1.1) <$> rows) /\
    col_mjd t' = col_mjd t ++ ((fun x => x.1.2) <$> rows) /\
    col_flux t' = col_flux t ++ ((fun x => base_PsfFlux_flux x.2) <$> rows) /\
    col_flux_error t' = col_flux_error t ++ ((fun x => base_PsfFlux_fluxSigma x.2) <$> rows) /\
    col_ra t' = col_ra t ++ ((fun x => coord_ra x.2) <$> rows) /\
    col_dec t' = col_dec t ++ ((fun x => coord_dec x.2) <$> rows)).
  { induction rows as [|x rows IH]; intros t; simpl.
    - rewrite !app_nil_r. repeat split; reflexivity.
    - destruct (IH (add_row t x)) as (H1 & H2 & H3 & H4 & H5 & H6 & H7 & H8).
      rewrite H1, H2, H3, H4, H5, H6, H7, H8. unfold add_row, append_row. simpl.
      rewrite <- !app_assoc. repeat split; reflexivity. }
  apply (Hgen empty_columns).
Qed.

Lemma measured_rows_length (E : Env F) dir objid mjds pairs :
  (length (measured_rows E dir objid mjds pairs) <= length pairs)%nat.
Proof.
  unfold measured_rows. induction pairs as [|p pairs IH]; [simpl; lia|].
  cbn [omap list_omap].
  match goal with |- context [match ?x with _ => _ end] => destruct x end;
    cbn [length]; lia.
Qed.

Lemma measured_rows_bandpass (E : Env F) dir objid mjds pairs x :
  x ∈ measured_rows E dir objid mjds pairs ->
  exists v, (x.1.1, v) ∈ pairs /\ measurement E dir objid x.1.1 v = Some x.2 /\
            mjds !! v = Some x.1.2.
Proof.
  unfold measured_rows. rewrite list_elem_of_omap. intros ([b v] & Hin & Hx).
  simpl in Hx. destruct (measurement E dir objid b v) as [r|] eqn:Hm; [|discriminate].
  simpl in Hx. destruct (mjds !! v) as [mjd|] eqn:Hl; [|discriminate].
  injection Hx as <-. simpl. exists v. auto.
Qed.

(** X1.  On an instance whose file attributes are set, a successful
    [build_lightcurve] stores the table with one row for every
    (bandpass, visit) pair whose FITS table holds the object, in
    bandpass-then-visit order, built from the first matching row and the
    visit's date; every such visit has a date, and no other attribute of
    the instance changes. *)
Theorem build_lightcurve_table (E : Env F) objid (w : World F) dir bps vm mjds w' :
  fp_table_dir (self w) = Some dir -> bandpasses (self w) = Some bps ->
  visit_map (self w) = Some vm -> visit_mjd (self w) = Some mjds ->
  build_lightcurve E objid w = (Ok tt, w') ->
  self w' = set_lightcurve
              (Some (table_of_rows
                       (measured_rows E dir objid mjds (visit_pairs bps vm))))
              (self w) /\
  Forall (fun p => is_Some (measurement E dir objid p.1 p.2) -> is_Some (mjds !! p.2))
    (visit_pairs bps vm).
Proof.
  intros Hdir Hbps Hvm Hmjd Hrun.
  destruct (build_lightcurve_run E objid w dir bps vm mjds _ _ Hdir Hbps Hvm Hmjd Hrun)
    as (k & _ & _ & _ & Hok).
  destruct (Hok eq_refl) as (_ & Hself & Hall & _). split; [exact Hself|].
  eapply Forall_impl; [exact Hall|]. intros p [_ Hp]. exact Hp.
Qed.

(** X2.  [build_lightcurve] opens the FITS files of the (bandpass, visit)
    pairs in loop order, each at most once and nothing else: a prefix of
    them when it raises, all of them when it returns. *)
Theorem build_lightcurve_files (E : Env F) objid (w : World F) dir bps vm mjds r w' :
  fp_table_dir (self w) = Some dir -> bandpasses (self w) = Some bps ->
  visit_map (self w) = Some vm -> visit_mjd (self w) = Some mjds ->
  build_lightcurve E objid w = (r, w') ->
  exists k, (k <= length (visit_pairs bps vm))%nat /\
    events w' = events w ++
      ((fun p => FitsOpen (fits_path dir p.2 p.1)) <$> take k (visit_pairs bps vm)) /\
    (r = Ok tt -> k = length (visit_pairs bps vm)).
Proof.
  intros Hdir Hbps Hvm Hmjd Hrun.
  destruct (build_lightcurve_run E objid w dir bps vm mjds _ _ Hdir Hbps Hvm Hmjd Hrun)
    as (k & Hk & Hev & _ & Hok).
  exists k. split; [exact Hk|]. split; [exact Hev|]. intros Hr. apply Hok. exact Hr.
Qed.

(** X3.  The table a successful [build_lightcurve] stores is rectangular:
    all eight columns have one length, at most the number of files opened;
    it has no [obsHistId] column, its zeropoint is 25.0 and its system is
    'ab' in every row, and every bandpass entry is 'lsst' followed by one
    of the instance's bandpasses. *)
Theorem build_lightcurve_rectangular (E : Env F) objid (w : World F) dir bps vm mjds w' :
  fp_table_dir (self w) = Some dir -> bandpasses (self w) = Some bps ->
  visit_map (self w) = Some vm -> visit_mjd (self w) = Some mjds ->
  build_lightcurve E objid w = (Ok tt, w') ->
  exists t n,
    lightcurve (self w') = Some (Some t) /\ rectangular n t /\
    (n <= length (visit_pairs bps vm))%nat /\
    col_obsHistId t = None /\
    col_zp t = replicate n (lit 25.0) /\ col_zpsys t = replicate n "ab" /\
    Forall (fun s => exists b, b ∈ bps /\ s = "lsst" +:+ b) (col_bandpass t).
Proof.
  intros Hdir Hbps Hvm Hmjd Hrun.
  destruct (build_lightcurve_run E objid w dir bps vm mjds _ _ Hdir Hbps Hvm Hmjd Hrun)
    as (k & _ & _ & _ & Hok).
  destruct (Hok eq_refl) as (_ & Hself & _ & _).
  set (rows := measured_rows E dir objid mjds (visit_pairs bps vm)) in *.
  exists (table_of_rows rows), (length rows). rewrite Hself. simpl.
  destruct (table_of_rows_rectangular rows) as [Hrect Hobs].
  destruct (table_of_rows_constants rows) as (Hzp & Hsys & Hbp & _).
  split; [reflexivity|]. split; [exact Hrect|].
  split; [apply measured_rows_length|]. split; [exact Hobs|].
  split; [exact Hzp|]. split; [exact Hsys|].
  rewrite Hbp. apply Forall_fmap, Forall_forall. intros x Hx. simpl.
  apply measured_rows_bandpass in Hx as (v & Hin & _).
  exists x.1.1. split; [|reflexivity].
  unfold visit_pairs in Hin. apply list_elem_of_bind in Hin as (b & Hin & Hb).
  apply list_elem_of_fmap in Hin as (v' & Heq & _). injection Heq as -> _. exact Hb.
Qed.

(** X4.  Whatever it raises, [build_lightcurve] leaves the instance as it
    was: the light curve of an earlier assembly, if any, stays in place. *)
Theorem build_lightcurve_failure_keeps_object (E : Env F) objid (w : World F) e w' :
  build_lightcurve E objid w = (Raise e, w') -> self w' = self w.
Proof.
  rewrite build_lightcurve_unfold. destruct (bandpasses (self w)) as [bps|].
  2:{ intros Hr. injection Hr as _ <-. reflexivity. }
  destruct (for_fold bps empty_columns (bandpass_body E objid (self w)) w)
    as [[lc|e1] w1] eqn:Hloop; [discriminate|].
  intros Hr. injection Hr as _ <-.
  revert Hloop. apply (for_fold_invariant (fun x : World F => self x = self w)); [|reflexivity].
  intros lc b w0 r0 w0' Hw0 Hb. unfold bandpass_body, bind, attribute, ret, raise in Hb.
  destruct (visit_map (self w)) as [vm|]; [|injection Hb as _ <-; exact Hw0].
  destruct (vm !! b) as [visits|]; [|injection Hb as _ <-; exact Hw0].
  revert Hb. apply (for_fold_invariant (fun x : World F => self x = self w)); [|exact Hw0].
  intros lc1 v w2 r2 w2' Hw2 Hv. rewrite visit_body_run in Hv.
  destruct (fp_table_dir (self w)); [|injection Hv as _ <-; exact Hw2].
  cbv zeta in Hv.
  destruct (fits_open E _); [|injection Hv as _ <-; exact Hw2].
  destruct (head _); [|injection Hv as _ <-; exact Hw2].
  destruct (visit_mjd (self w)) as [mjds|]; [|injection Hv as _ <-; exact Hw2].
  destruct (mjds !! v); injection Hv as _ <-; exact Hw2.
Qed.

(** X5.  An instance built without a forced-photometry directory cannot
    assemble from files: [build_lightcurve] raises [AttributeError] on
    [bandpasses] before any file is opened, and nothing changes. *)
Theorem build_lightcurve_needs_directory (E : Env F) dbConn mjd_file filter_list o
    objid ev :
  new E dbConn None mjd_file filter_list = Ok o ->
  build_lightcurve E objid {| self := o; events := ev |}
  = (Raise (AttributeError "bandpasses"), {| self := o; events := ev |}).
Proof.
  unfold new. destruct (init _ _ _ _ _) as [[u|e] o1] eqn:Hinit; [|discriminate].
  intros Ho. injection Ho as ->. apply init_without_table_dir in Hinit. subst o.
  reflexivity.
Qed.

Lemma visits_loop_ok (E : Env F) objid o b dir mjds :
  fp_table_dir o = Some dir -> visit_mjd o = Some mjds ->
  forall visits, Forall (usable E dir objid mjds) ((fun v => (b, v)) <$> visits) ->
  forall lc (w : World F),
  for_fold visits lc (visit_body E objid o b) w
  = (Ok (foldl add_row lc (measured_rows E dir objid mjds ((fun v => (b, v)) <$> visits))),
     add_events (open_event dir <$> ((fun v => (b, v)) <$> visits)) w).
Proof.
  intros Hdir Hmjd. induction visits as [|v visits IH]; intros Hall lc w.
  - simpl. rewrite lc_add_events_nil. reflexivity.
  - rewrite fmap_cons in Hall. apply Forall_cons in Hall as [[[data Hopen] Hdate] Hall].
    simpl in Hopen, Hdate. simpl for_fold. unfold bind.
    rewrite visit_body_run, Hdir, Hmjd. cbv zeta. rewrite Hopen.
    unfold measured_rows. simpl. unfold measurement at 1. simpl. rewrite Hopen.
    unfold measurement in Hdate. rewrite Hopen in Hdate.
    destruct (head (filter (fun r => objectId r = objid) data)) as [row|]; simpl.
    + destruct Hdate as [mjd Hl]; [eauto|]. rewrite Hl. simpl.
      rewrite (IH Hall), lc_add_events_app. reflexivity.
    + rewrite (IH Hall), lc_add_events_app. reflexivity.
Qed.

Lemma bandpasses_loop_ok (E : Env F) objid o dir mjds vm :
  fp_table_dir o = Some dir -> visit_mjd o = Some mjds -> visit_map o = Some vm ->
  forall bps, Forall (fun b => is_Some (vm !! b)) bps ->
  Forall (usable E dir objid mjds) (visit_pairs bps vm) ->
  forall lc (w : World F),
  for_fold bps lc (bandpass_body E objid o) w
  = (Ok (foldl add_row lc (measured_rows E dir objid mjds (visit_pairs bps vm))),
     add_events (open_event dir <$> visit_pairs bps vm) w).
Proof.
  intros Hdir Hmjd Hvm. induction bps as [|b bps IH]; intros Hbps Hall lc w.
  - simpl. rewrite lc_add_events_nil. reflexivity.
  - apply Forall_cons in Hbps as [[visits Hb] Hbps].
    rewrite visit_pairs_cons in *. rewrite Hb in *. simpl default in *.
    apply Forall_app in Hall as [Hall1 Hall2].
    simpl for_fold. unfold bind. rewrite (bandpass_body_run _ _ _ vm) by exact Hvm.
    rewrite Hb, (visits_loop_ok E objid o b dir mjds Hdir Hmjd visits Hall1).
    rewrite (IH Hbps Hall2), lc_add_events_app, measured_rows_app, foldl_app, fmap_app.
    reflexivity.
Qed.

(** X6.  [build_lightcurve] returns whenever every bandpass of the
    instance has an entry in its visit map, every file of a
    (bandpass, visit) pair opens, and every visit whose table holds the
    object has a date; a visit without a date is harmless as long as the
    object is not in its table. *)
Theorem build_lightcurve_succeeds (E : Env F) objid (w : World F) dir bps vm mjds :
  fp_table_dir (self w) = Some dir -> bandpasses (self w) = Some bps ->
  visit_map (self w) = Some vm -> visit_mjd (self w) = Some mjds ->
  Forall (fun b => is_Some (vm !! b)) bps ->
  Forall (fun p => exists data, fits_open E (fits_path dir p.2 p.1) = Ok data)
    (visit_pairs bps vm) ->
  Forall (fun p => is_Some (measurement E dir objid p.1 p.2) -> is_Some (mjds !! p.2))
    (visit_pairs bps vm) ->
  build_lightcurve E objid w
  = (Ok tt,
     {| self := set_lightcurve
                  (Some (table_of_rows
                           (measured_rows E dir objid mjds (visit_pairs bps vm))))
                  (self w);
        events := events w ++
          ((fun p => FitsOpen (fits_path dir p.2 p.1)) <$> visit_pairs bps vm) |}).
Proof.
  intros Hdir Hbps Hvm Hmjd Hkeys Hopen Hdate.
  rewrite build_lightcurve_unfold, Hbps.
  rewrite (bandpasses_loop_ok E objid (self w) dir mjds vm Hdir Hmjd Hvm bps Hkeys).
  - reflexivity.
  - apply Forall_forall. intros p Hp. rewrite Forall_forall in Hopen, Hdate.
    split; [apply Hopen, Hp | apply Hdate, Hp].
Qed.

Lemma bandpass_files_loop (E : Env F) filter_list (o : LightCurve F) r o' :
  for_each filter_list (fun filter_name : string =>
     lift (W:=LightCurve F) (load_bandpass E
             (throughputs_dir E +:+ "/baseline/total_" +:+ filter_name +:+ ".dat")
             ("lsst" +:+ filter_name))) o = (r, o') -> o' = o.
Proof.
  apply (for_each_invariant (fun x => x = o)); [|reflexivity].
  intros x w1 r1 w1' -> Hx. unfold lift in Hx. injection Hx as _ <-. reflexivity.
Qed.

Lemma set_visit_mjd_id (o : LightCurve F) m :
  visit_mjd o = Some m -> set_visit_mjd m o = o.
Proof. destruct o. simpl. intros ->. reflexivity. Qed.

Lemma set_visit_map_id (o : LightCurve F) vm :
  visit_map o = Some vm -> set_visit_map vm o = o.
Proof. destruct o. simpl. intros ->. reflexivity. Qed.

Lemma date_body_run (E : Env F) v (o : LightCurve F) m :
  visit_mjd o = Some m ->
  date_body E v o =
  match item_index v 1 with
  | Raise e => (Raise e, o)
  | Ok mjd =>
      match item_index v 0 with
      | Raise e => (Raise e, o)
      | Ok x =>
          match str_int E x with
          | Raise e => (Raise e, o)
          | Ok key => (Ok tt, set_visit_mjd (<[key := mjd]> m) o)
          end
      end
  end.
Proof.
  intros Hm. unfold date_body, bind, get, attribute, lift, modify, ret.
  destruct (item_index v 1) as [mjd|e]; [|reflexivity]. rewrite Hm.
  destruct (item_index v 0) as [x|e]; [|reflexivity].
  destruct (str_int E x); reflexivity.
Qed.

Lemma date_body_line (E : Env F) v (o : LightCurve F) m :
  visit_mjd o = Some m ->
  match date_line E v with
  | Some line => date_body E v o = (Ok tt, set_visit_mjd (<[line.1 := line.2]> m) o)
  | None => exists e, date_body E v o = (Raise e, o)
  end.
Proof.
  intros Hm. rewrite (date_body_run E v o m Hm). unfold date_line.
  destruct (item_index v 1) as [mjd|e]; [|destruct (item_index v 0); eauto].
  destruct (item_index v 0) as [x|e]; [|eauto].
  destruct (str_int E x) as [key|e]; [reflexivity | eauto].
Qed.

Lemma dates_loop (E : Env F) visit_dates :
  forall (o : LightCurve F) m r o',
  visit_mjd o = Some m ->
  for_each visit_dates (date_body E) o = (r, o') ->
  r = Ok tt ->
  Forall (fun v => is_Some (date_line E v)) visit_dates /\
  o' = set_visit_mjd (mjd_map (omap (date_line E) visit_dates) m) o.
Proof.
  induction visit_dates as [|v l IH]; intros o m r o' Hm Hrun ->.
  - simpl in Hrun. injection Hrun as <-. split; [constructor|].
    symmetry. apply set_visit_mjd_id. exact Hm.
  - simpl in Hrun. unfold bind in Hrun.
    pose proof (date_body_line E v o m Hm) as Hv.
    destruct (date_line E v) as [line|] eqn:Hline.
    + rewrite Hv in Hrun.
      apply (IH _ (<[line.1 := line.2]> m)) in Hrun as (Hall & ->);
        [|reflexivity|reflexivity].
      split; [constructor; [eauto | exact Hall]|].
      cbn [omap list_omap]. rewrite Hline. reflexivity.
    + destruct Hv as (e & Hv). rewrite Hv in Hrun. discriminate Hrun.
Qed.

Lemma dates_loop_ok (E : Env F) visit_dates :
  Forall (fun v => is_Some (date_line E v)) visit_dates ->
  forall (o : LightCurve F) m, visit_mjd o = Some m ->
  for_each visit_dates (date_body E) o
  = (Ok tt, set_visit_mjd (mjd_map (omap (date_line E) visit_dates) m) o).
Proof.
  induction 1 as [|v l [line Hline] _ IH]; intros o m Hm; simpl.
  - unfold ret. rewrite set_visit_mjd_id by exact Hm. reflexivity.
  - unfold bind. pose proof (date_body_line E v o m Hm) as Hv.
    rewrite Hline in Hv. rewrite Hv.
    rewrite (IH _ (<[line.1 := line.2]> m)) by reflexivity.
    cbn [omap list_omap]. rewrite Hline. reflexivity.
Qed.

Lemma dir_body_run d (o : LightCurve F) vm :
  visit_map o = Some vm ->
  dir_body d o =
  match last_char d with
  | None => (Raise IndexError, o)
  | Some c =>
      match vm !! c with
      | None => (Raise (KeyError c), o)
      | Some l => (Ok tt, set_visit_map (<[c := l ++ [slice_1_m3 d]]> vm) o)
      end
  end.
Proof.
  intros Hvm. unfold dir_body, bind, get, attribute, ret, raise, modify.
  destruct (last_char d) as [c|]; [|reflexivity]. rewrite Hvm.
  destruct (vm !! c); reflexivity.
Qed.

Lemma dirs_loop dirs :
  forall (o : LightCurve F) vm0 r o',
  visit_map o = Some vm0 ->
  for_each dirs dir_body o = (r, o') ->
  r = Ok tt ->
  exists vm, o' = set_visit_map vm o /\
    (forall b, vm !! b = (fun l => l ++ visits_of_band dirs b) <$> vm0 !! b) /\
    Forall (fun d => exists c, last_char d = Some c /\ is_Some (vm0 !! c)) dirs.
Proof.
  induction dirs as [|d dirs IH]; intros o vm0 r o' Hvm Hrun ->.
  - simpl in Hrun. injection Hrun as <-. exists vm0.
    split; [symmetry; apply set_visit_map_id; exact Hvm|]. split; [|constructor].
    intros b. unfold visits_of_band. simpl. destruct (vm0 !! b); simpl; [|reflexivity].
    rewrite app_nil_r. reflexivity.
  - simpl in Hrun. unfold bind in Hrun. rewrite (dir_body_run d o vm0 Hvm) in Hrun.
    destruct (last_char d) as [c|] eqn:Hc; [|discriminate].
    destruct (vm0 !! c) as [l|] eqn:Hl; [|discriminate].
    apply (IH _ (<[c := l ++ [slice_1_m3 d]]> vm0)) in Hrun; [|reflexivity|reflexivity].
    destruct Hrun as (vm & -> & Hlook & Hall). exists vm. split; [reflexivity|]. split.
    + intros b. rewrite Hlook. unfold visits_of_band.
      destruct (decide (c = b)) as [<-|Hne].
      * rewrite lookup_insert_eq, Hl. simpl.
        rewrite filter_cons_True by exact Hc. simpl. rewrite <- app_assoc. reflexivity.
      * rewrite lookup_insert_ne by exact Hne.
        rewrite filter_cons_False by (rewrite Hc; congruence). reflexivity.
    + constructor; [exists c; rewrite Hl; eauto|].
      eapply Forall_impl; [exact Hall|]. intros d' (c' & Hc' & Hsome). exists c'.
      split; [exact Hc'|]. destruct (decide (c = c')) as [<-|Hne].
      * rewrite Hl. eauto.
      * rewrite lookup_insert_ne in Hsome by exact Hne. exact Hsome.
Qed.

Lemma dirs_loop_ok dirs :
  forall (o : LightCurve F) vm0,
  visit_map o = Some vm0 ->
  Forall (fun d => exists c, last_char d = Some c /\ is_Some (vm0 !! c)) dirs ->
  exists vm, for_each dirs dir_body o = (Ok tt, set_visit_map vm o).
Proof.
  induction dirs as [|d dirs IH]; intros o vm0 Hvm Hall.
  - exists vm0. simpl. unfold ret. rewrite set_visit_map_id by exact Hvm. reflexivity.
  - apply Forall_cons in Hall as [(c & Hc & [l Hl]) Hall].
    simpl. unfold bind. rewrite (dir_body_run d o vm0 Hvm), Hc, Hl.
    destruct (IH (set_visit_map (<[c := l ++ [slice_1_m3 d]]> vm0) o)
                 (<[c := l ++ [slice_1_m3 d]]> vm0) eq_refl) as (vm & Hrun).
    + eapply Forall_impl; [exact Hall|]. intros d' (c' & Hc' & Hsome). exists c'.
      split; [exact Hc'|]. destruct (decide (c = c')) as [<-|Hne].
      * rewrite lookup_insert_eq. eauto.
      * rewrite lookup_insert_ne by exact Hne. exact Hsome.
    + exists vm. rewrite Hrun. reflexivity.
Qed.

Lemma empty_visit_map (filter_list : list string) b :
  (list_to_map (map (fun x => (x, [])) filter_list) : gmap string (list string)) !! b
  = if decide (b ∈ filter_list) then Some [] else None.
Proof.
  induction filter_list as [|x l IH].
  - cbn [map list_to_map foldr]. rewrite lookup_empty. case_decide as Hin; [|reflexivity].
    apply elem_of_nil in Hin. contradiction.
  - cbn [map]. rewrite list_to_map_cons.
    destruct (decide (x = b)) as [->|Hne].
    + rewrite lookup_insert_eq. clear IH.
      destruct (decide (b ∈ b :: l)) as [_|Hn]; [reflexivity|].
      exfalso. apply Hn. left.
    + rewrite lookup_insert_ne by exact Hne. rewrite IH. clear IH.
      destruct (decide (b ∈ l)) as [Hin|Hn];
        destruct (decide (b ∈ x :: l)) as [Hin'|Hn']; try reflexivity.
      * exfalso. apply Hn'. right. exact Hin.
      * exfalso. apply elem_of_cons in Hin' as [->|Hin']; [congruence | contradiction].
Qed.

Lemma init_unfold (E : Env F) dir mjd_file filter_list (o0 : LightCurve F) :
  init E (Some dir) mjd_file filter_list o0 =
  match for_each filter_list (fun filter_name : string =>
     lift (W:=LightCurve F) (load_bandpass E
             (throughputs_dir E +:+ "/baseline/total_" +:+ filter_name +:+ ".dat")
             ("lsst" +:+ filter_name))) o0 with
  | (Raise e, o) => (Raise e, o)
  | (Ok _, o) =>
      let o1 := prepared (dbConn_lc o) dir filter_list in
      match genfromtxt_mjd E mjd_file with
      | Raise e => (Raise e, o1)
      | Ok mjd_list =>
          match items mjd_list with
          | Raise e => (Raise e, o1)
          | Ok visit_dates =>
              match for_each visit_dates (date_body E) o1 with
              | (Raise e, o2) => (Raise e, o2)
              | (Ok _, o2) =>
                  match listdir E (dir +:+ "/0/") with
                  | Raise e => (Raise e, o2)
                  | Ok dirs => for_each dirs dir_body o2
                  end
              end
          end
      end
  end.
Proof.
  unfold init. unfold bind at 1.
  destruct (for_each filter_list _ o0) as [[u|e] o]; [|reflexivity].
  unfold bind at 1 2 3 4 5, modify at 1 2 3 4 5. simpl.
  unfold bind at 1, lift at 1.
  destruct (genfromtxt_mjd E mjd_file) as [mjd_list|e]; [|reflexivity].
  unfold bind at 1, lift at 1.
  destruct (items mjd_list) as [visit_dates|e]; [|reflexivity].
  unfold bind at 1.
  destruct (for_each visit_dates (date_body E) _) as [[u'|e] o2]; [|reflexivity].
  unfold bind at 1, lift at 1.
  destruct (listdir E (dir +:+ "/0/")) as [dirs|e]; reflexivity.
Qed.

(** Everything a successful construction over a directory leaves. *)
Lemma new_run (E : Env F) dbConn dir mjd_file filter_list o :
  new E dbConn (Some dir) mjd_file filter_list = Ok o ->
  exists mjd_list visit_dates dirs vm,
    genfromtxt_mjd E mjd_file = Ok mjd_list /\ items mjd_list = Ok visit_dates /\
    Forall (fun v => is_Some (date_line E v)) visit_dates /\
    listdir E (dir +:+ "/0/") = Ok dirs /\
    o = set_visit_map vm
          (set_visit_mjd (mjd_map (omap (date_line E) visit_dates) ∅)
             (prepared dbConn dir filter_list)) /\
    (forall b, vm !! b = if decide (b ∈ filter_list)
                         then Some (visits_of_band dirs b) else None) /\
    Forall (fun d => exists c, last_char d = Some c /\ c ∈ filter_list) dirs.
Proof.
  unfold new. rewrite init_unfold.
  destruct (for_each filter_list _ (blank dbConn)) as [[u|e] o0] eqn:Hfirst;
    [|discriminate].
  apply bandpass_files_loop in Hfirst. subst o0. cbv zeta. simpl dbConn_lc.
  destruct (genfromtxt_mjd E mjd_file) as [mjd_list|e]; [|discriminate].
  destruct (items mjd_list) as [visit_dates|e] eqn:Hitems; [|discriminate].
  destruct (for_each visit_dates (date_body E) _) as [[u0|e] o2] eqn:Hdates;
    [|discriminate].
  destruct u0. eapply dates_loop in Hdates as (Hdated & ->); [|reflexivity|reflexivity].
  destruct (listdir E (dir +:+ "/0/")) as [dirs|e]; [|discriminate].
  destruct (for_each dirs dir_body _) as [[u'|e] o'] eqn:Hdirs; [|discriminate].
  intros Ho. injection Ho as ->. destruct u'.
  eapply dirs_loop in Hdirs as (vm & -> & Hlook & Hall); [|reflexivity|reflexivity].
  exists mjd_list, visit_dates, dirs, vm. split; [reflexivity|].
  split; [exact Hitems|]. split; [exact Hdated|]. do 2 (split; [reflexivity|]). split.
  - intros b. rewrite Hlook, empty_visit_map.
    destruct (decide (b ∈ filter_list)); reflexivity.
  - eapply Forall_impl; [exact Hall|]. intros d (c & Hc & Hsome). exists c.
    split; [exact Hc|]. rewrite empty_visit_map in Hsome.
    destruct (decide (c ∈ filter_list)) as [Hin|]; [exact Hin|].
    destruct Hsome as [x Hx]. discriminate Hx.
Qed.

(** X7.  An instance built over a forced-photometry directory has all its
    file attributes: the directory, the filter list as its bandpasses, a
    [None] light curve, a date map, and a visit map whose keys are exactly
    the filters of the list. *)
Theorem new_instance_attributes (E : Env F) dbConn dir mjd_file filter_list o :
  new E dbConn (Some dir) mjd_file filter_list = Ok o ->
  dbConn_lc o = dbConn /\ fp_table_dir o = Some dir /\
  bandpasses o = Some filter_list /\ lightcurve o = Some None /\
  is_Some (visit_mjd o) /\
  exists vm, visit_map o = Some vm /\
             forall b, is_Some (vm !! b) <-> b ∈ filter_list.
Proof.
  intros Hnew.
  apply new_run in Hnew as (mjd_list & visit_dates & dirs & vm & _ & _ & _ & _ & ->
                            & Hlook & _).
  simpl. do 4 (split; [reflexivity|]). split; [eauto|].
  exists vm. split; [reflexivity|]. intros b. rewrite Hlook.
  destruct (decide (b ∈ filter_list)) as [Hin|Hn]; split; intros Hx; eauto.
  - destruct Hx as [x Hx]. discriminate Hx.
  - contradiction.
Qed.

(** X8.  The visit map of a new instance files every directory entry
    under its last character, with the characters from the second to the
    fourth from the end as visit number, in listing order. *)
Theorem new_instance_visit_map (E : Env F) dbConn dir mjd_file filter_list o dirs b :
  new E dbConn (Some dir) mjd_file filter_list = Ok o ->
  listdir E (dir +:+ "/0/") = Ok dirs ->
  b ∈ filter_list ->
  exists vm, visit_map o = Some vm /\
    vm !! b = Some (slice_1_m3 <$> filter (fun d => last_char d = Some b) dirs).
Proof.
  intros Hnew Hdirs Hb.
  apply new_run in Hnew as (mjd_list & visit_dates & dirs' & vm & _ & _ & _ & Hdirs'
                            & -> & Hlook & _).
  rewrite Hdirs in Hdirs'. injection Hdirs' as <-.
  exists vm. split; [reflexivity|]. rewrite Hlook.
  destruct (decide (b ∈ filter_list)); [reflexivity | contradiction].
Qed.

(** X9.  The construction only succeeds when every entry of the directory
    listing is non-empty and ends in one of the filters of the list;
    otherwise line 84 or line 86 raises. *)
Theorem new_instance_directory_names (E : Env F) dbConn dir mjd_file filter_list o dirs :
  new E dbConn (Some dir) mjd_file filter_list = Ok o ->
  listdir E (dir +:+ "/0/") = Ok dirs ->
  Forall (fun d => exists c, last_char d = Some c /\ c ∈ filter_list) dirs.
Proof.
  intros Hnew Hdirs.
  apply new_run in Hnew as (mjd_list & visit_dates & dirs' & vm & _ & _ & _ & Hdirs'
                            & _ & _ & Hall).
  rewrite Hdirs in Hdirs'. injection Hdirs' as <-. exact Hall.
Qed.

Lemma mjd_map_lookup (lines : list (string * F)) :
  forall (m : gmap string F) k,
  mjd_map lines m !! k
  = match last (filter (fun r => r.1 = k) lines) with
    | Some r => Some r.2
    | None => m !! k
    end.
Proof.
  unfold mjd_map. induction lines as [|line lines IH]; intros m k; simpl; [reflexivity|].
  rewrite IH. destruct (decide (line.1 = k)) as [Hk|Hk].
  - rewrite filter_cons_True by exact Hk. rewrite last_cons.
    destruct (last (filter _ lines)); [reflexivity|].
    rewrite Hk, lookup_insert_eq. reflexivity.
  - rewrite filter_cons_False by exact Hk.
    destruct (last (filter _ lines)); [reflexivity|].
    rewrite lookup_insert_ne by exact Hk. reflexivity.
Qed.

(** X10.  The date map of a new instance gives a visit the date of the
    last line of the date file that names it, and nothing for a visit no
    line names; the construction only succeeds when the date file reads as
    an array that can be iterated and every item of it has the two fields
    line 81 reads, the first of which converts to an integer. *)
Theorem new_instance_visit_mjd (E : Env F) dbConn dir mjd_file filter_list o
    mjd_list k :
  new E dbConn (Some dir) mjd_file filter_list = Ok o ->
  genfromtxt_mjd E mjd_file = Ok mjd_list ->
  exists visit_dates m,
    items mjd_list = Ok visit_dates /\
    Forall (fun v => is_Some (date_line E v)) visit_dates /\
    visit_mjd o = Some m /\
    m !! k = snd <$> last (filter (fun r => r.1 = k)
                             (omap (date_line E) visit_dates)).
Proof.
  intros Hnew Hrows.
  apply new_run in Hnew as (mjd_list' & visit_dates & dirs & vm & Hrows' & Hitems
                            & Hdated & _ & -> & _ & _).
  rewrite Hrows in Hrows'. injection Hrows' as <-.
  exists visit_dates, (mjd_map (omap (date_line E) visit_dates) ∅).
  split; [exact Hitems|]. split; [exact Hdated|]. split; [reflexivity|].
  rewrite mjd_map_lookup, lookup_empty. destruct (last _); reflexivity.
Qed.

Lemma bandpass_files_loop_ok (E : Env F) filter_list (o : LightCurve F) :
  Forall (fun f => load_bandpass E
            (throughputs_dir E +:+ "/baseline/total_" +:+ f +:+ ".dat")
            ("lsst" +:+ f) = Ok tt) filter_list ->
  for_each filter_list (fun filter_name : string =>
     lift (W:=LightCurve F) (load_bandpass E
             (throughputs_dir E +:+ "/baseline/total_" +:+ filter_name +:+ ".dat")
             ("lsst" +:+ filter_name))) o = (Ok tt, o).
Proof.
  induction 1 as [|f l Hf _ IH]; simpl; [reflexivity|].
  unfold bind, lift. rewrite Hf. exact IH.
Qed.

(** X11.  The construction over a directory succeeds whenever the
    throughput file of every filter loads, the date file reads as an
    array that can be iterated and whose items all have the two fields
    line 81 reads, the first of which converts to an integer, the directory
    listing can be read, and every entry of the listing ends in a filter of
    the list. *)
Theorem new_instance_succeeds (E : Env F) dbConn dir mjd_file filter_list
    mjd_list visit_dates dirs :
  Forall (fun f => load_bandpass E
            (throughputs_dir E +:+ "/baseline/total_" +:+ f +:+ ".dat")
            ("lsst" +:+ f) = Ok tt) filter_list ->
  genfromtxt_mjd E mjd_file = Ok mjd_list ->
  items mjd_list = Ok visit_dates ->
  Forall (fun v => is_Some (date_line E v)) visit_dates ->
  listdir E (dir +:+ "/0/") = Ok dirs ->
  Forall (fun d => exists c, last_char d = Some c /\ c ∈ filter_list) dirs ->
  exists o, new E dbConn (Some dir) mjd_file filter_list = Ok o.
Proof.
  intros Hload Hrows Hitems Hdated Hdirs Hall. unfold new. rewrite init_unfold.
  rewrite (bandpass_files_loop_ok E filter_list _ Hload). cbv zeta.
  rewrite Hrows, Hitems.
  rewrite (dates_loop_ok E visit_dates Hdated _ ∅) by reflexivity.
  rewrite Hdirs.
  destruct (dirs_loop_ok dirs
              (set_visit_mjd (mjd_map (omap (date_line E) visit_dates) ∅)
                 (prepared (dbConn_lc (blank dbConn)) dir filter_list))
              (list_to_map (map (fun x => (x, [])) filter_list)) eq_refl)
    as (vm & ->).
  - eapply Forall_impl; [exact Hall|]. intros d (c & Hc & Hin). exists c.
    split; [exact Hc|]. rewrite empty_visit_map.
    destruct (decide (c ∈ filter_list)); [eauto | contradiction].
  - eexists. reflexivity.
Qed.

(** X31.  A date file that [np.genfromtxt] reads as a vector, as it does
    a file of a single line, stops the construction over a directory: the
    loop of line 80 yields numbers, and indexing the first of them at
    line 81 raises [IndexError]. *)
Theorem new_instance_one_line_date_file (E : Env F) dbConn dir mjd_file filter_list
    x xs :
  Forall (fun f => load_bandpass E
            (throughputs_dir E +:+ "/baseline/total_" +:+ f +:+ ".dat")
            ("lsst" +:+ f) = Ok tt) filter_list ->
  genfromtxt_mjd E mjd_file = Ok (array1 (x :: xs)) ->
  new E dbConn (Some dir) mjd_file filter_list = Raise IndexError.
Proof.
  intros Hload Hrows. unfold new. rewrite init_unfold.
  rewrite (bandpass_files_loop_ok E filter_list _ Hload). cbv zeta.
  rewrite Hrows. reflexivity.
Qed.

Lemma string_app_cons (x : ascii) (a b : string) :
  String x a +:+ b = String x (a +:+ b).
Proof. reflexivity. Qed.

Lemma string_app_length (a b : string) :
  String.length (a +:+ b) = (String.length a + String.length b)%nat.
Proof.
  induction a as [|c a IH]; [reflexivity|].
  rewrite string_app_cons. cbn [String.length]. rewrite IH. reflexivity.
Qed.

Lemma string_app_assoc (a b c : string) : (a +:+ b) +:+ c = a +:+ (b +:+ c).
Proof.
  induction a as [|x a IH]; [reflexivity|].
  rewrite !string_app_cons, IH. reflexivity.
Qed.

Lemma substring_skip (a b : string) k m :
  substring (String.length a + k) m (a +:+ b) = substring k m b.
Proof.
  induction a as [|c a IH]; [reflexivity|].
  rewrite string_app_cons. cbn [String.length Nat.add substring]. exact IH.
Qed.

Lemma substring_prefix (a b : string) :
  substring 0 (String.length a) (a +:+ b) = a.
Proof.
  induction a as [|c a IH].
  - destruct b; reflexivity.
  - rewrite string_app_cons. cbn [String.length substring]. rewrite IH. reflexivity.
Qed.

Lemma visit_dir_name_parts (dir visit : string) (c : ascii) :
  let band := String c "" in
  let d := visit_dir_name visit band in
  last_char d = Some band /\ slice_1_m3 d = visit /\
  fits_path dir (slice_1_m3 d) band = dir +:+ "/0/" +:+ d +:+ "/R22/S11.fits".
Proof.
  intros band d.
  assert (Hd : d = String "v"%char (visit +:+ "-f" +:+ band)) by reflexivity.
  assert (Hlen : String.length d = S (String.length visit + 3)).
  { rewrite Hd. cbn [String.length]. rewrite string_app_length. reflexivity. }
  assert (Hslice : slice_1_m3 d = visit).
  { unfold slice_1_m3. rewrite Hlen.
    replace (S (String.length visit + 3) - 4)%nat with (String.length visit) by lia.
    rewrite Hd. cbn [substring]. apply substring_prefix. }
  split; [|split; [exact Hslice|]].
  - unfold last_char. rewrite Hlen, Hd.
    replace (String.length visit + 3)%nat with (S (String.length visit + 2)) by lia.
    cbn [substring]. rewrite substring_skip. reflexivity.
  - rewrite Hslice. unfold fits_path. rewrite Hd.
    change (dir +:+ "/0/v" +:+ visit +:+ "-f" +:+ band +:+ "/R22/S11.fits")
      with (dir +:+ "/0/" +:+ String "v"%char (visit +:+ "-f" +:+ band +:+ "/R22/S11.fits")).
    do 2 f_equal.
    rewrite (string_app_cons "v" (visit +:+ "-f" +:+ band) "/R22/S11.fits").
    f_equal. rewrite string_app_assoc. reflexivity.
Qed.

(** X12.  Taking a visit directory name apart (lines 84-85) undoes putting
    it together (lines 105-107): for a one-character band, the name
    ['v' + visit + '-f' + band] gives back the band and the visit, and the
    file opened for them lies in that very directory. *)
Theorem visit_dir_name_round_trip (dir visit : string) (c : ascii) :
  let band := String c "" in
  let d := visit_dir_name visit band in
  last_char d = Some band /\ slice_1_m3 d = visit /\
  fits_path dir (slice_1_m3 d) band = dir +:+ "/0/" +:+ d +:+ "/R22/S11.fits".
Proof. exact (visit_dir_name_parts dir visit c). Qed.

(** X13.  On an instance built over a directory whose entries all follow
    the naming convention ['v' + visit + '-f' + band], a successful
    [build_lightcurve] opens exactly one file in each listed directory,
    band after band in the order of the filter list and, within a band, in
    listing order. *)
Theorem build_lightcurve_opens_listed_directories (E : Env F) dbConn dir mjd_file
    filter_list o dirs objid ev w' :
  new E dbConn (Some dir) mjd_file filter_list = Ok o ->
  listdir E (dir +:+ "/0/") = Ok dirs ->
  Forall (fun d => exists v c, d = visit_dir_name v (String c "")) dirs ->
  build_lightcurve E objid {| self := o; events := ev |} = (Ok tt, w') ->
  events w' = ev ++
    (filter_list ≫= fun b =>
       (fun d => FitsOpen (dir +:+ "/0/" +:+ d +:+ "/R22/S11.fits"))
         <$> filter (fun d => last_char d = Some b) dirs).
Proof.
  intros Hnew Hdirs Hnames Hrun.
  apply new_run in Hnew as (mjd_list & visit_dates & dirs' & vm & _ & _ & _ & Hdirs'
                            & -> & Hlook & _).
  rewrite Hdirs in Hdirs'. injection Hdirs' as <-.
  set (mjds := mjd_map (omap (date_line E) visit_dates) ∅) in *.
  set (o := set_visit_map vm
              (set_visit_mjd mjds (prepared dbConn dir filter_list))) in *.
  pose proof (build_lightcurve_run E objid {| self := o; events := ev |} dir filter_list
                vm mjds (Ok tt) w' eq_refl eq_refl eq_refl eq_refl Hrun)
    as Hb. cbv zeta in Hb.
  destruct Hb as (k & _ & Hev & _ & Hok).
  destruct (Hok eq_refl) as (-> & _ & _ & _). rewrite firstn_all in Hev.
  rewrite Hev. simpl. f_equal.
  assert (Hgen : forall l, (forall b, b ∈ l -> b ∈ filter_list) ->
    open_event (F:=F) dir <$> visit_pairs l vm
    = l ≫= fun b => (fun d => FitsOpen (dir +:+ "/0/" +:+ d +:+ "/R22/S11.fits"))
                      <$> filter (fun d => last_char d = Some b) dirs).
  { induction l as [|b l IH]; intros Hsub; [reflexivity|].
    rewrite visit_pairs_cons, fmap_app, IH by (intros b' Hb'; apply Hsub; right; exact Hb').
    cbn [mbind list_bind]. f_equal. rewrite Hlook.
    destruct (decide (b ∈ filter_list)) as [_|Hn]; [|exfalso; apply Hn, Hsub; left].
    simpl. unfold visits_of_band. rewrite <- !list_fmap_compose.
    apply Forall_fmap_ext, Forall_forall. intros d Hd.
    apply list_elem_of_filter in Hd as [Hlast Hd].
    rewrite Forall_forall in Hnames. destruct (Hnames d Hd) as (v & c & ->).
    destruct (visit_dir_name_parts dir v c) as (Hl & Hs & Hp).
    cbv zeta in Hl, Hs, Hp. rewrite Hl in Hlast. injection Hlast as <-.
    unfold compose, open_event. simpl. rewrite Hp. reflexivity. }
  apply Hgen. auto.
Qed.

(** X14.  When the id lookup finds the object and [Time] converts the
    column of start times, one date per forced-source row,
    [build_lightcurve_from_db] makes exactly two database calls and stores
    a rectangular table with one row per forced-source row: the visit ids
    as [obsHistId], the dates [Time] gave, the position of the first object
    returned in every row, zeropoint 25.0 and system 'ab'. *)
Theorem from_db_by_id_table (E : Env F) id (tol : F) (w : World F) o rest mjd :
  objectFromId (dbConn_lc (self w)) id = o :: rest ->
  let fs_info := all_fs_visits_from_id (dbConn_lc (self w)) id in
  let n := length fs_info in
  Time_mjd E (fs_obs_start <$> fs_info) = Some mjd ->
  length mjd = n ->
  exists t,
    build_lightcurve_from_db E (Some id) None tol w
    = (Ok tt, {| self := set_lightcurve (Some t) (self w);
                 events := events w ++ [DbObjectFromId id; DbAllFsVisitsFromId id] |}) /\
    rectangular n t /\
    col_obsHistId t = Some (fs_visit_id <$> fs_info) /\
    col_mjd t = mjd /\
    col_flux t = fs_psf_flux <$> fs_info /\
    col_flux_error t = fs_psf_flux_err <$> fs_info /\
    col_ra t = replicate n (obj_ra o) /\ col_dec t = replicate n (obj_dec o) /\
    col_zp t = replicate n (lit 25.0) /\ col_zpsys t = replicate n "ab".
Proof.
  intros Hobj fs_info n Htime Hlen.
  pose proof (from_db_objid E id tol w) as Hrun. cbv zeta in Hrun.
  change (map fs_obs_start (all_fs_visits_from_id (dbConn_lc (self w)) id))
    with (fs_obs_start <$> fs_info) in Hrun.
  rewrite Htime, Hobj in Hrun. unfold Table_of in Hrun. cbn [col_mjd col_bandpass] in Hrun.
  rewrite !length_map in Hrun. fold fs_info in Hrun. fold n in Hrun.
  destruct (decide (length mjd = n)) as [_|Hn]; [|contradiction].
  eexists. split; [exact Hrun|].
  split; [|repeat split; reflexivity].
  unfold rectangular. simpl. rewrite !length_map, !length_replicate.
  repeat apply conj; first [exact Hlen | reflexivity].
Qed.

(** X15.  When the id lookup returns no object, the call stores nothing
    and raises after both database calls: the [ValueError] of [Time]
    (line 147) when it rejects the column of start times, and [IndexError]
    (line 150) otherwise. *)
Theorem from_db_by_id_no_object (E : Env F) id (tol : F) (w : World F) :
  objectFromId (dbConn_lc (self w)) id = [] ->
  build_lightcurve_from_db E (Some id) None tol w
  = (Raise (match Time_mjd E (fs_obs_start
                                <$> all_fs_visits_from_id (dbConn_lc (self w)) id) with
            | None => ValueError msg_time
            | Some _ => IndexError
            end),
     {| self := self w;
        events := events w ++ [DbObjectFromId id; DbAllFsVisitsFromId id] |}).
Proof.
  intros Hobj. pose proof (from_db_objid E id tol w) as Hrun. cbv zeta in Hrun.
  rewrite Hobj in Hrun. rewrite Hrun.
  change (map fs_obs_start (all_fs_visits_from_id (dbConn_lc (self w)) id))
    with (fs_obs_start <$> all_fs_visits_from_id (dbConn_lc (self w)) id).
  destruct (Time_mjd E _); reflexivity.
Qed.

(** X16.  [build_lightcurve_from_db] changes nothing but the [lightcurve]
    attribute, and that only when it returns: after any error the instance
    is as it was, so an earlier light curve stays in place. *)
Theorem from_db_failure_keeps_object (E : Env F) objid ra_dec (tol : F) (w : World F)
    r w' :
  build_lightcurve_from_db E objid ra_dec tol w = (r, w') ->
  dbConn_lc (self w') = dbConn_lc (self w) /\
  fp_table_dir (self w') = fp_table_dir (self w) /\
  bandpasses (self w') = bandpasses (self w) /\
  visit_map (self w') = visit_map (self w) /\
  visit_mjd (self w') = visit_mjd (self w) /\
  (forall e, r = Raise e -> self w' = self w).
Proof.
  destruct objid as [id|], ra_dec as [[ra dec]|].
  - rewrite from_db_both. intros Hr. injection Hr as <- <-. auto 10.
  - rewrite from_db_objid. cbv zeta.
    destruct (Time_mjd E _) as [mjd|];
      [|intros Hr; injection Hr as <- <-; simpl; auto 10].
    destruct (objectFromId _ id);
      [intros Hr; injection Hr as <- <-; simpl; auto 10|].
    destruct (Table_of _) as [t|e]; intros Hr; injection Hr as <- <-; simpl.
    + do 5 (split; [reflexivity|]). discriminate.
    + auto 10.
  - rewrite from_db_ra_dec. cbv zeta.
    destruct (objectFromRaDec _ ra dec tol) as [|o [|o' rest]]; intros Hr;
      injection Hr as <- <-; simpl; auto 10.
  - rewrite from_db_neither. intros Hr. injection Hr as <- <-. auto 10.
Qed.

End Properties.

Section Concrete.
Import monitor_demo.

Lemma file_pairs : visit_pairs default_filter_list file_vm = [("r", "200")].
Proof. vm_compute. reflexivity. Qed.

(** The table of object 7 on the one-visit instance. *)
Lemma build_lightcurve_table_witness :
  self (snd (build_lightcurve demo_env 7 file_world))
  = set_lightcurve
      (Some (table_of_rows
               (measured_rows demo_env "/data/fp" 7 file_mjds
                  (visit_pairs default_filter_list file_vm))))
      (self file_world) /\
  Forall (fun p => is_Some (measurement demo_env "/data/fp" 7 p.1 p.2) ->
                   is_Some (file_mjds !! p.2))
    (visit_pairs default_filter_list file_vm).
Proof.
  apply (build_lightcurve_table demo_env 7 file_world "/data/fp" default_filter_list
           file_vm file_mjds (snd (build_lightcurve demo_env 7 file_world)));
    vm_compute; reflexivity.
Defined.

(** The one file opened on the one-visit instance. *)
Lemma build_lightcurve_files_witness :
  exists k, (k <= length (visit_pairs default_filter_list file_vm))%nat /\
    events (snd (build_lightcurve demo_env 7 file_world))
    = events file_world ++
      ((fun p => FitsOpen (fits_path "/data/fp" p.2 p.1))
         <$> take k (visit_pairs default_filter_list file_vm)) /\
    (fst (build_lightcurve demo_env 7 file_world) = Ok tt ->
     k = length (visit_pairs default_filter_list file_vm)).
Proof.
  apply (build_lightcurve_files demo_env 7 file_world "/data/fp" default_filter_list
           file_vm file_mjds (fst (build_lightcurve demo_env 7 file_world))
           (snd (build_lightcurve demo_env 7 file_world)));
    vm_compute; reflexivity.
Defined.

(** The one-row table of the one-visit instance. *)
Lemma build_lightcurve_rectangular_witness :
  exists t n,
    lightcurve (self (snd (build_lightcurve demo_env 7 file_world))) = Some (Some t) /\
    rectangular n t /\
    (n <= length (visit_pairs default_filter_list file_vm))%nat /\
    col_obsHistId t = None /\
    col_zp t = replicate n (lit 25.0) /\ col_zpsys t = replicate n "ab" /\
    Forall (fun s => exists b, b ∈ default_filter_list /\ s = "lsst" +:+ b)
      (col_bandpass t).
Proof.
  apply (build_lightcurve_rectangular demo_env 7 file_world "/data/fp"
           default_filter_list file_vm file_mjds
           (snd (build_lightcurve demo_env 7 file_world)));
    vm_compute; reflexivity.
Defined.

(** Visit 200 holds object 7 but has no date: the assembly raises and the
    instance stays. *)
Lemma build_lightcurve_failure_keeps_object_witness :
  fst (build_lightcurve demo_env 7 undated_world) = Raise (KeyError "200") /\
  self (snd (build_lightcurve demo_env 7 undated_world)) = self undated_world.
Proof.
  split; [vm_compute; reflexivity|].
  apply (build_lightcurve_failure_keeps_object demo_env 7 undated_world
           (KeyError "200") (snd (build_lightcurve demo_env 7 undated_world))).
  vm_compute. reflexivity.
Defined.

(** An instance built for database use only. *)
Lemma build_lightcurve_needs_directory_witness :
  build_lightcurve demo_env 7 {| self := blank (db []); events := [] |}
  = (Raise (AttributeError "bandpasses"), {| self := blank (db []); events := [] |}).
Proof.
  apply (build_lightcurve_needs_directory demo_env (db []) None default_filter_list
           (blank (db [])) 7 []).
  reflexivity.
Defined.

(** The one-visit instance meets the conditions. *)
Lemma build_lightcurve_succeeds_witness :
  build_lightcurve demo_env 7 file_world
  = (Ok tt,
     {| self := set_lightcurve
                  (Some (table_of_rows
                           (measured_rows demo_env "/data/fp" 7 file_mjds
                              (visit_pairs default_filter_list file_vm))))
                  (self file_world);
        events := events file_world ++
          ((fun p => FitsOpen (fits_path "/data/fp" p.2 p.1))
             <$> visit_pairs default_filter_list file_vm) |}).
Proof.
  apply (build_lightcurve_succeeds demo_env 7 file_world "/data/fp" default_filter_list
           file_vm file_mjds); try (vm_compute; reflexivity).
  - repeat constructor; eexists; vm_compute; reflexivity.
  - rewrite file_pairs. repeat constructor. eexists. reflexivity.
  - rewrite file_pairs. repeat constructor. intros _. eexists. vm_compute. reflexivity.
Defined.

(** The attributes of the one-visit instance. *)
Lemma new_instance_attributes_witness :
  dbConn_lc file_object = db [] /\ fp_table_dir file_object = Some "/data/fp" /\
  bandpasses file_object = Some default_filter_list /\
  lightcurve file_object = Some None /\
  is_Some (visit_mjd file_object) /\
  exists vm, visit_map file_object = Some vm /\
             forall b, is_Some (vm !! b) <-> b ∈ default_filter_list.
Proof.
  apply (new_instance_attributes demo_env (db []) "/data/fp" (Some "mjd.csv")
           default_filter_list file_object).
  vm_compute. reflexivity.
Defined.

(** Directory [v200-fr] is filed under r as visit 200. *)
Lemma new_instance_visit_map_witness :
  exists vm, visit_map file_object = Some vm /\
    vm !! "r" = Some (slice_1_m3 <$> filter (fun d => last_char d = Some "r") ["v200-fr"]).
Proof.
  apply (new_instance_visit_map demo_env (db []) "/data/fp" (Some "mjd.csv")
           default_filter_list file_object ["v200-fr"] "r").
  - vm_compute. reflexivity.
  - reflexivity.
  - repeat constructor.
Defined.

(** The listing of the one-visit instance. *)
Lemma new_instance_directory_names_witness :
  Forall (fun d => exists c, last_char d = Some c /\ c ∈ default_filter_list)
    ["v200-fr"].
Proof.
  apply (new_instance_directory_names demo_env (db []) "/data/fp" (Some "mjd.csv")
           default_filter_list file_object ["v200-fr"]).
  - vm_compute. reflexivity.
  - reflexivity.
Defined.

(** The date of visit 200, which two lines of the date file name. *)
Lemma new_instance_visit_mjd_witness :
  exists visit_dates m,
    items date_file = Ok visit_dates /\
    Forall (fun v => is_Some (date_line demo_env v)) visit_dates /\
    visit_mjd file_object = Some m /\
    m !! "200" = snd <$> last (filter (fun r => r.1 = "200")
                                 (omap (date_line demo_env) visit_dates)).
Proof.
  apply (new_instance_visit_mjd demo_env (db []) "/data/fp" (Some "mjd.csv")
           default_filter_list file_object date_file "200").
  - vm_compute. reflexivity.
  - reflexivity.
Defined.

(** The one-visit directory with its two-line date file can be built over. *)
Lemma new_instance_succeeds_witness :
  exists o,
    new demo_env (db []) (Some "/data/fp") (Some "mjd.csv") default_filter_list = Ok o.
Proof.
  apply (new_instance_succeeds demo_env (db []) "/data/fp" (Some "mjd.csv")
           default_filter_list date_file date_items ["v200-fr"]).
  - repeat constructor.
  - reflexivity.
  - reflexivity.
  - repeat constructor; eexists; reflexivity.
  - reflexivity.
  - constructor; [|constructor]. exists "r". split; [reflexivity | repeat constructor].
Defined.

(** The same directory with a one-line date file. *)
Lemma new_instance_one_line_date_file_witness :
  new one_line_env (db []) (Some "/data/fp") (Some "mjd.csv") default_filter_list
  = Raise IndexError.
Proof.
  apply (new_instance_one_line_date_file one_line_env (db []) "/data/fp"
           (Some "mjd.csv") default_filter_list (lit 200) [lit 59839.175]).
  - repeat constructor.
  - reflexivity.
Defined.

(** The file opened in directory [v200-fr]. *)
Lemma build_lightcurve_opens_listed_directories_witness :
  events (snd (build_lightcurve demo_env 7 {| self := file_object; events := [] |}))
  = [] ++
    (default_filter_list ≫= fun b =>
       (fun d => FitsOpen ("/data/fp" +:+ "/0/" +:+ d +:+ "/R22/S11.fits"))
         <$> filter (fun d => last_char d = Some b) ["v200-fr"]).
Proof.
  apply (build_lightcurve_opens_listed_directories demo_env (db []) "/data/fp"
           (Some "mjd.csv") default_filter_list file_object ["v200-fr"] 7 []
           (snd (build_lightcurve demo_env 7 {| self := file_object; events := [] |}))).
  - vm_compute. reflexivity.
  - reflexivity.
  - constructor; [|constructor]. exists "200", "r"%char. reflexivity.
  - vm_compute. reflexivity.
Defined.

(** The light curve of object 7 from its two forced-source rows. *)
Lemma from_db_by_id_table_witness :
  exists t,
    build_lightcurve_from_db demo_env (Some 7%Z) None default_tol (fresh [obj1])
    = (Ok tt, {| self := set_lightcurve (Some t) (self (fresh [obj1]));
                 events := events (fresh [obj1])
                           ++ [DbObjectFromId 7; DbAllFsVisitsFromId 7] |}) /\
    rectangular 2 t /\
    col_obsHistId t = Some (fs_visit_id <$> [fs1; fs2]) /\
    col_mjd t = [lit 59839.175; lit 59839.175] /\
    col_flux t = fs_psf_flux <$> [fs1; fs2] /\
    col_flux_error t = fs_psf_flux_err <$> [fs1; fs2] /\
    col_ra t = replicate 2 (obj_ra obj1) /\ col_dec t = replicate 2 (obj_dec obj1) /\
    col_zp t = replicate 2 (lit 25.0) /\ col_zpsys t = replicate 2 "ab".
Proof.
  apply (from_db_by_id_table demo_env 7%Z default_tol (fresh [obj1]) obj1 []
           [lit 59839.175; lit 59839.175]); reflexivity.
Defined.

(** An id the connection has neither an object nor a forced-source row
    for: [Time] rejects the empty column. *)
Lemma from_db_by_id_no_object_witness :
  build_lightcurve_from_db demo_env (Some 7%Z) None default_tol
    {| self := blank empty_db; events := [] |}
  = (Raise (ValueError msg_time),
     {| self := blank empty_db;
        events := [] ++ [DbObjectFromId 7; DbAllFsVisitsFromId 7] |}).
Proof.
  apply (from_db_by_id_no_object demo_env 7%Z default_tol
           {| self := blank empty_db; events := [] |}).
  reflexivity.
Defined.

(** A coordinate lookup without a match on the one-visit instance. *)
Lemma from_db_failure_keeps_object_witness :
  dbConn_lc (self (snd (build_lightcurve_from_db demo_env None (Some here)
                          default_tol file_world))) = dbConn_lc (self file_world) /\
  fp_table_dir (self (snd (build_lightcurve_from_db demo_env None (Some here)
                             default_tol file_world))) = fp_table_dir (self file_world) /\
  bandpasses (self (snd (build_lightcurve_from_db demo_env None (Some here)
                           default_tol file_world))) = bandpasses (self file_world) /\
  visit_map (self (snd (build_lightcurve_from_db demo_env None (Some here)
                          default_tol file_world))) = visit_map (self file_world) /\
  visit_mjd (self (snd (build_lightcurve_from_db demo_env None (Some here)
                          default_tol file_world))) = visit_mjd (self file_world) /\
  (forall e, fst (build_lightcurve_from_db demo_env None (Some here)
                    default_tol file_world) = Raise e ->
             self (snd (build_lightcurve_from_db demo_env None (Some here)
                          default_tol file_world)) = self file_world).
Proof.
  apply (from_db_failure_keeps_object demo_env None (Some here) default_tol file_world
           (fst (build_lightcurve_from_db demo_env None (Some here) default_tol
                   file_world))
           (snd (build_lightcurve_from_db demo_env None (Some here) default_tol
                   file_world))).
  reflexivity.
Defined.

End Concrete.
End monitor_extra.

(** * Further properties of CreateTruthDB.py *)

Module CreateTruthDB_extra.
Import CreateTruthDB CreateTruthDB_spec.
Section Properties.
Context {F : Type} `{Float F} {Bandpass Sed PhotParams : Type}.
Abbreviation Env' := (Env F Bandpass Sed PhotParams).
Abbreviation World' := (World F Sed).

Lemma metadata_loop_exact (E : Env') opsim total ids ms :
  visits_of E opsim ids ms ->
  forall acc (w : World'),
  for_fold ids acc (metadata_step E opsim total) w
  = (Ok ((fst acc + length ids)%nat, snd acc ++ ms),
     add_events (meta_events total (fst acc) ids) w).
Proof.
  induction 1 as [|id m ids ms Hm _ IH]; intros acc w.
  - simpl. rewrite app_nil_r, add_events_nil, Nat.add_0_r. destruct acc; reflexivity.
  - simpl. destruct (getObservationMetaData E opsim id) as [|m' rest] eqn:Hg;
      [discriminate|]. simpl in Hm. injection Hm as ->.
    specialize (IH ((fst acc + 1)%nat, snd acc ++ [m])). simpl in IH.
    unfold bind at 1. unfold metadata_step at 1. rewrite Hg.
    assert (Hstep : forall k : Py World' (nat * list (ObsMetaData F)),
      bind (if decide (fst acc mod 100 = 0)%nat
            then log (PrintObsMetadata (fst acc + 1) total) else ret tt)
           (fun _ => bind (log (GetObservationMetaData id)) (fun _ => k)) w
      = k (add_events ((if decide (fst acc mod 100 = 0)%nat
                        then [PrintObsMetadata (fst acc + 1) total] else [])
                       ++ [GetObservationMetaData id]) w)).
    { intros k. unfold bind, log, modify, ret, add_events.
      destruct (decide _); simpl; rewrite <- ?app_assoc; simpl;
        destruct (k _) as [[a0|e0] w1]; reflexivity. }
    rewrite Hstep. unfold ret. rewrite IH, add_events_app, <- !app_assoc.
    replace (fst acc + 1 + length ids)%nat with (fst acc + S (length ids))%nat by lia.
    reflexivity.
Qed.

Lemma visits_loaded_exact (E : Env') bp_dict total ma pp db l blocks :
  Forall2 (fun obs block =>
             visit_table E bp_dict ma pp (chunk_of E db obs) obs = Ok block)
    l blocks ->
  forall st (w : World'),
  seds_loaded st = true -> mag_array st = Some ma -> phot_params st = pp ->
  dbConn (self w) = db ->
  exists st',
    for_fold l st (visit_step E bp_dict total) w
    = (Ok st', add_events (visit_events ma total (visit_on st) l) w) /\
    star_df_acc st' = star_df_acc st ++ concat blocks.
Proof.
  induction 1 as [|obs block l blocks Htab _ IH]; intros st w Hl Hma Hpp Hdb.
  - exists st. simpl. rewrite add_events_nil, app_nil_r. split; reflexivity.
  - simpl. unfold bind. rewrite (visit_step_loaded _ _ _ _ _ _ Hl), Hma. cbv zeta.
    rewrite Hpp, Hdb, Htab, (snr_call_ok E _ _ _ _ _ _ Htab).
    destruct (IH (next_locals E st ma pp block)
                 (add_events ((progress st total ++ [CatalogQuery obs star_constraint])
                              ++ [snr_event ma obs]) w)
                 eq_refl eq_refl eq_refl Hdb) as (st' & Hrun & Hdf).
    exists st'. rewrite Hrun, add_events_app. split.
    + unfold progress, query_of. simpl. rewrite <- !app_assoc. reflexivity.
    + rewrite Hdf. simpl. rewrite app_assoc. reflexivity.
Qed.

(** The world a call leaves when all its steps succeed. *)
Lemma get_true_stars_exact (E : Env') for_obsHistIds (w : World') ids obs_list
    bp_dict seds blocks :
  ids_of E for_obsHistIds = Ok ids ->
  visits_of E (opsimDB (self w)) ids obs_list ->
  loadTotalBandpassesFromFiles E = Ok bp_dict ->
  (forall obs0, head obs_list = Some obs0 ->
     SedList E (map sed_entry (chunk_of E (dbConn (self w)) obs0)) = Ok seds) ->
  Forall2 (fun obs block =>
             visit_table E bp_dict (magArrayForSedList E bp_dict seds)
               (Some (PhotometricParameters E))
               (chunk_of E (dbConn (self w)) obs) obs = Ok block) obs_list blocks ->
  get_true_stars E for_obsHistIds w
  = (Ok tt,
     {| self := {| dbConn := dbConn (self w); opsimDB := opsimDB (self w);
                   star_df := Some (concat blocks) |};
        events := events w ++ call_events E (dbConn (self w)) for_obsHistIds ids
                                obs_list bp_dict seds;
        files := files w |}).
Proof.
  intros Hids Hvis Hload Hseds Hblocks. rewrite get_true_stars_unfold. cbv zeta.
  rewrite Hids.
  rewrite (metadata_loop_exact E _ (length ids) _ _ Hvis (0%nat, [])).
  rewrite Hload. simpl snd. simpl fst. unfold call_events.
  destruct Hblocks as [|obs0 block0 rest blocks Htab0 Hrest].
  - simpl. rewrite <- !app_assoc. reflexivity.
  - specialize (Hseds obs0 eq_refl).
    simpl for_fold. unfold bind at 1. rewrite visit_step_first by reflexivity.
    cbv zeta. simpl self. rewrite Hseds, Htab0, (snr_call_ok E _ _ _ _ _ _ Htab0).
    match goal with |- context [for_fold rest ?st ?f ?w1] =>
      destruct (visits_loaded_exact E bp_dict (length ids)
                  _ _ _ rest blocks Hrest st w1 eq_refl eq_refl eq_refl eq_refl)
        as (st' & -> & Hdf)
    end.
    simpl. rewrite Hdf. simpl. rewrite <- !app_assoc. simpl.
    rewrite <- ?app_assoc. reflexivity.
Qed.

Lemma metadata_loop_stops (E : Env') opsim total good bad rest :
  Forall (fun id => getObservationMetaData E opsim id <> []) good ->
  getObservationMetaData E opsim bad = [] ->
  forall acc (w : World'),
  for_fold (good ++ bad :: rest) acc (metadata_step E opsim total) w
  = (Raise IndexError, add_events (meta_events total (fst acc) (good ++ [bad])) w).
Proof.
  intros Hgood Hbad. induction Hgood as [|id good Hid _ IH]; intros acc w.
  - simpl. unfold bind at 1. unfold metadata_step. rewrite Hbad.
    unfold bind, log, modify, ret, raise, add_events.
    destruct (decide _); simpl; rewrite <- ?app_assoc; reflexivity.
  - simpl. unfold bind at 1. unfold metadata_step at 1.
    destruct (getObservationMetaData E opsim id) as [|m ms] eqn:Hg; [congruence|].
    specialize (IH ((fst acc + 1)%nat, snd acc ++ [m])). simpl in IH.
    unfold bind, log, modify, ret.
    destruct (decide _); simpl; rewrite IH; unfold add_events; simpl;
      rewrite <- ?app_assoc; reflexivity.
Qed.

Lemma SedList_length (E : Env') entries seds :
  SedList E entries = Ok seds -> length seds = length entries.
Proof.
  intros Hs. symmetry. eapply Forall2_length. exact (SedList_Forall2 E _ _ Hs).
Qed.

Lemma SedList_ok (E : Env') entries :
  Forall (fun e => exists sed, load_sed E e = Ok sed) entries ->
  exists seds, SedList E entries = Ok seds.
Proof.
  induction 1 as [|e entries [sed Hsed] _ [seds IH]]; simpl.
  - exists []. reflexivity.
  - rewrite Hsed, IH. exists (sed :: seds). reflexivity.
Qed.

Lemma star_row_fluxes (E : Env') bp obs (chunk : list (Star F)) (seds : list Sed) :
  length chunk = length seds ->
  map df_true_flux (zip_with (star_row E bp obs) chunk seds)
  = map (fun sed => flux_of_mag (calcMag E sed bp)) seds /\
  map df_true_flux_error (zip_with (star_row E bp obs) chunk seds)
  = map (fun sed => fdiv (flux_of_mag (calcMag E sed bp))
                      (fst (calcSNR_m5 E (calcMag E sed bp) bp (fiveSigmaDepth obs)
                              (PhotometricParameters E)))) seds /\
  map df_uniqueId (zip_with (star_row E bp obs) chunk seds) = map uniqueId chunk /\
  Forall (fun row => df_obsHistId row = obsHistID obs /\ df_filter row = obs_filter obs)
    (zip_with (star_row E bp obs) chunk seds).
Proof.
  revert seds. induction chunk as [|s chunk IH]; intros [|sed seds] Hlen;
    try discriminate Hlen.
  - repeat split; constructor.
  - simpl in Hlen. injection Hlen as Hlen.
    destruct (IH seds Hlen) as (H1 & H2 & H3 & H4). simpl.
    rewrite H1, H2, H3. repeat split; try reflexivity.
    constructor; [split; reflexivity | exact H4].
Qed.

Lemma read_table_lookup (w : World') filename table_name :
  read_table w filename table_name
  = map snd <$> (default ∅ (files w !! filename) !! table_name).
Proof.
  unfold read_table. destruct (files w !! filename) as [db|]; simpl.
  - destruct (db !! table_name); reflexivity.
  - rewrite lookup_empty. reflexivity.
Qed.

Lemma imap_index (df : list (DfRow F)) k :
  map fst (imap (fun i r => (k + i, r)%nat) df) = seq k (length df).
Proof.
  revert k. induction df as [|r l IH]; intros k; [reflexivity|].
  simpl. rewrite Nat.add_0_r. f_equal. rewrite <- IH. f_equal.
  apply imap_ext. intros i x _. simpl. f_equal. lia.
Qed.

Lemma read_table_None (w : World') filename table_name :
  read_table w filename table_name = None <->
  default ∅ (files w !! filename) !! table_name = None.
Proof.
  rewrite read_table_lookup.
  destruct (default ∅ (files w !! filename) !! table_name); simpl;
    split; intros Hx; first [discriminate Hx | reflexivity].
Qed.

Lemma read_table_Some (w : World') filename table_name t :
  default ∅ (files w !! filename) !! table_name = Some t ->
  read_table w filename table_name = Some (map snd t).
Proof. intros Ht. rewrite read_table_lookup, Ht. reflexivity. Qed.

(** X17.  With no visit to work on, [get_true_stars] still loads the
    bandpasses (line 103), after reading the visits file when no ids are
    given, and makes no other call: when the load fails the call raises
    its error and the object is as it was, otherwise [star_df] becomes the
    empty table, whatever it held. *)
Theorem get_true_stars_no_visits (E : Env') for_obsHistIds (w : World') :
  ids_of E for_obsHistIds = Ok [] ->
  get_true_stars E for_obsHistIds w
  = (match loadTotalBandpassesFromFiles E with
     | Ok _ => Ok tt
     | Raise e => Raise e
     end,
     {| self := match loadTotalBandpassesFromFiles E with
                | Ok _ => {| dbConn := dbConn (self w); opsimDB := opsimDB (self w);
                             star_df := Some [] |}
                | Raise _ => self w
                end;
        events := events w ++ read_events for_obsHistIds ++ [LoadTotalBandpasses];
        files := files w |}).
Proof.
  intros Hids. rewrite get_true_stars_unfold. cbv zeta. rewrite Hids. simpl.
  destruct (loadTotalBandpassesFromFiles E) as [bp_dict|e]; unfold add_events; simpl;
    rewrite <- ?app_assoc; reflexivity.
Qed.

(** X18.  A visit id the OpSim database has no record of stops the call in
    the first loop with [IndexError] (the [[0]] of line 98): the ids up to
    and including it have been requested, neither the bandpasses nor a
    catalog have been asked for, and the object and the files are as they
    were. *)
Theorem get_true_stars_unknown_visit (E : Env') for_obsHistIds (w : World')
    good bad rest :
  ids_of E for_obsHistIds = Ok (good ++ bad :: rest) ->
  Forall (fun id => getObservationMetaData E (opsimDB (self w)) id <> []) good ->
  getObservationMetaData E (opsimDB (self w)) bad = [] ->
  get_true_stars E for_obsHistIds w
  = (Raise IndexError,
     {| self := self w;
        events := events w ++ read_events for_obsHistIds ++
                  meta_events (length (good ++ bad :: rest)) 0 (good ++ [bad]);
        files := files w |}).
Proof.
  intros Hids Hgood Hbad. rewrite get_true_stars_unfold. cbv zeta. rewrite Hids.
  rewrite (metadata_loop_stops E _ _ good bad rest Hgood Hbad (0%nat, [])).
  unfold add_events. simpl. rewrite <- ?app_assoc. reflexivity.
Qed.

(** X19.  A successful call writes, for every visit, one row per star of
    the visit's catalog; and it can only succeed when every visit's catalog
    has as many stars as the first visit's. *)
Theorem get_true_stars_row_count (E : Env') for_obsHistIds (w : World') w' :
  get_true_stars E for_obsHistIds w = (Ok tt, w') ->
  exists ids obs_list df,
    ids_of E for_obsHistIds = Ok ids /\
    visits_of E (opsimDB (self w)) ids obs_list /\
    star_df (self w') = Some df /\
    length df
    = list_sum (map (fun obs => length (chunk_of E (dbConn (self w)) obs)) obs_list) /\
    forall obs0, head obs_list = Some obs0 ->
      Forall (fun obs => length (chunk_of E (dbConn (self w)) obs)
                         = length (chunk_of E (dbConn (self w)) obs0)) obs_list.
Proof.
  intros Hrun.
  destruct (get_true_stars_run E _ _ _ _ Hrun)
    as (new & _ & _ & _ & _ & _ & _ & Hok).
  destruct (Hok eq_refl) as (ids & obs_list & df & Hids & Hvis & _ & Hdf & Htab).
  exists ids, obs_list, df. do 3 (split; [assumption|]).
  destruct obs_list as [|obs0 rest].
  - destruct Htab as (bp_dict & _ & Htab). simpl in Htab. subst df.
    split; [reflexivity|]. intros obs0 Hh. discriminate Hh.
  - destruct (run_tables_rows E _ _ _ _ Htab)
      as (bp_dict & seds & blocks & _ & Hseds & -> & Hblocks).
    apply SedList_length in Hseds. rewrite length_map in Hseds.
    split.
    + rewrite length_concat. f_equal.
      clear -Hblocks. induction Hblocks as [|obs block l bs (bp & _ & Hlen & ->) _ IH];
        [reflexivity|].
      simpl. rewrite IH, length_zip_with_l_eq by exact Hlen. reflexivity.
    + intros o Ho. injection Ho as <-. rewrite <- Hseds.
      clear -Hblocks. induction Hblocks as [|obs block l bs (bp & _ & Hlen & _) _ IH];
        constructor; [exact Hlen | exact IH].
Qed.

(** X20.  In the table of a successful call, two visits taken in the same
    filter get the same column of true fluxes, whatever stars their
    catalogs hold; if they also have the same five-sigma depth they get the
    same column of flux errors. *)
Theorem same_filter_same_fluxes (E : Env') for_obsHistIds (w : World') w' :
  get_true_stars E for_obsHistIds w = (Ok tt, w') ->
  exists ids obs_list blocks,
    ids_of E for_obsHistIds = Ok ids /\
    visits_of E (opsimDB (self w)) ids obs_list /\
    star_df (self w') = Some (concat blocks) /\
    Forall2 (fun obs block =>
               map df_uniqueId block
               = map uniqueId (chunk_of E (dbConn (self w)) obs) /\
               Forall (fun row => df_obsHistId row = obsHistID obs /\
                                  df_filter row = obs_filter obs) block)
      obs_list blocks /\
    forall i j obs_i obs_j block_i block_j,
      obs_list !! i = Some obs_i -> obs_list !! j = Some obs_j ->
      blocks !! i = Some block_i -> blocks !! j = Some block_j ->
      obs_filter obs_i = obs_filter obs_j ->
      map df_true_flux block_i = map df_true_flux block_j /\
      (fiveSigmaDepth obs_i = fiveSigmaDepth obs_j ->
       map df_true_flux_error block_i = map df_true_flux_error block_j).
Proof.
  intros Hrun.
  destruct (get_true_stars_run E _ _ _ _ Hrun)
    as (new & _ & _ & _ & _ & _ & _ & Hok).
  destruct (Hok eq_refl) as (ids & obs_list & df & Hids & Hvis & _ & Hdf & Htab).
  exists ids, obs_list.
  destruct obs_list as [|obs0 rest].
  - destruct Htab as (bp_dict & _ & Htab). simpl in Htab. subst df.
    exists []. do 3 (split; [assumption|]).
    split; [constructor|]. intros i j ? ? ? ? Hi. rewrite lookup_nil in Hi. discriminate Hi.
  - destruct (run_tables_rows E _ _ _ _ Htab)
      as (bp_dict & seds & blocks & _ & _ & -> & Hblocks).
    exists blocks. do 3 (split; [assumption|]). split.
    + eapply Forall2_impl; [exact Hblocks|].
      intros obs block (bp & _ & Hlen & ->).
      destruct (star_row_fluxes E bp obs _ _ Hlen) as (_ & _ & Hid & Hrow).
      split; assumption.
    + intros i j obs_i obs_j block_i block_j Hi Hj Hbi Hbj Hf.
      destruct (Forall2_lookup_lr _ _ _ _ _ _ Hblocks Hi Hbi)
        as (bp_i & Hbp_i & Hlen_i & ->).
      destruct (Forall2_lookup_lr _ _ _ _ _ _ Hblocks Hj Hbj)
        as (bp_j & Hbp_j & Hlen_j & ->).
      rewrite Hf, Hbp_j in Hbp_i. injection Hbp_i as <-.
      destruct (star_row_fluxes E bp_j obs_i _ _ Hlen_i) as (Hfi & Hei & _).
      destruct (star_row_fluxes E bp_j obs_j _ _ Hlen_j) as (Hfj & Hej & _).
      split; [congruence|]. intros Hm5. rewrite Hei, Hej, Hm5. reflexivity.
Qed.

(** X21.  [get_true_stars] returns whenever the visit ids can be iterated,
    every id has a metadata record, the bandpasses load and hold every
    visit's filter, the SEDs of the first visit's stars load, and every
    visit's catalog has as many stars as the first visit's. *)
Theorem get_true_stars_returns (E : Env') for_obsHistIds (w : World') ids obs_list
    bp_dict :
  ids_of E for_obsHistIds = Ok ids ->
  visits_of E (opsimDB (self w)) ids obs_list ->
  loadTotalBandpassesFromFiles E = Ok bp_dict ->
  Forall (fun obs => is_Some (bp_dict !! obs_filter obs)) obs_list ->
  (forall obs0, head obs_list = Some obs0 ->
     Forall (fun s => exists sed, load_sed E (sed_entry s) = Ok sed)
       (chunk_of E (dbConn (self w)) obs0) /\
     Forall (fun obs => length (chunk_of E (dbConn (self w)) obs)
                        = length (chunk_of E (dbConn (self w)) obs0)) obs_list) ->
  exists w', get_true_stars E for_obsHistIds w = (Ok tt, w').
Proof.
  intros Hids Hvis Hload Hbp Hfirst.
  destruct obs_list as [|obs0 rest].
  - eexists. apply (get_true_stars_exact E for_obsHistIds w ids [] bp_dict [] []);
      [assumption | assumption | assumption | discriminate | constructor].
  - destruct (Hfirst obs0 eq_refl) as (Hsed & Hlens).
    destruct (SedList_ok E (map sed_entry (chunk_of E (dbConn (self w)) obs0)))
      as (seds & Hseds).
    { apply Forall_map. exact Hsed. }
    pose proof (SedList_length E _ _ Hseds) as Hlen. rewrite length_map in Hlen.
    assert (Hblocks : exists blocks,
      Forall2 (fun obs block =>
                 visit_table E bp_dict (magArrayForSedList E bp_dict seds)
                   (Some (PhotometricParameters E))
                   (chunk_of E (dbConn (self w)) obs) obs = Ok block)
        (obs0 :: rest) blocks).
    { clear -Hbp Hlens Hlen. revert Hbp Hlens.
      generalize (obs0 :: rest) as l. induction l as [|obs l IH]; intros Hbp Hlens.
      - exists []. constructor.
      - apply Forall_cons in Hbp as [[bp Hbp0] Hbp].
        apply Forall_cons in Hlens as [Hl0 Hlens].
        destruct (IH Hbp Hlens) as (blocks & Hblocks).
        eexists (_ :: blocks). constructor; [|exact Hblocks].
        apply (visit_table_ok E _ _ _ _ bp Hbp0). congruence. }
    destruct Hblocks as (blocks & Hblocks).
    eexists.
    apply (get_true_stars_exact E for_obsHistIds w ids (obs0 :: rest) bp_dict seds blocks);
      [assumption | assumption | assumption | | assumption].
    intros o Ho. injection Ho as <-. exact Hseds.
Qed.

(** X22.  When, the bandpasses loaded, an SED of the first visit's stars
    fails to load, the call raises that error right after the first catalog
    query: no magnitude is computed, no later visit is queried, and the
    object and the files are as they were. *)
Theorem get_true_stars_sed_failure (E : Env') for_obsHistIds (w : World')
    ids obs0 rest bp_dict e :
  ids_of E for_obsHistIds = Ok ids ->
  visits_of E (opsimDB (self w)) ids (obs0 :: rest) ->
  loadTotalBandpassesFromFiles E = Ok bp_dict ->
  SedList E (map sed_entry (chunk_of E (dbConn (self w)) obs0)) = Raise e ->
  get_true_stars E for_obsHistIds w
  = (Raise e,
     {| self := self w;
        events := events w ++ read_events for_obsHistIds ++
                  meta_events (length ids) 0 ids ++
                  [LoadTotalBandpasses; PrintFluxes 1 (length ids); query_of obs0;
                   SedListLoad (map sed_entry (chunk_of E (dbConn (self w)) obs0))];
        files := files w |}).
Proof.
  intros Hids Hvis Hload Hseds. rewrite get_true_stars_unfold. cbv zeta. rewrite Hids.
  rewrite (metadata_loop_exact E _ (length ids) _ _ Hvis (0%nat, [])).
  rewrite Hload. simpl snd. simpl fst.
  simpl for_fold. unfold bind at 1. rewrite visit_step_first by reflexivity.
  cbv zeta. simpl self. rewrite Hseds.
  unfold add_events. simpl. rewrite <- ?app_assoc. reflexivity.
Qed.

(** X23.  The calls a successful [get_true_stars] makes to the visits file,
    the metadata generator, the catalog and the photometry library, and the
    lines it prints, in order: the read of the visits file when no ids are
    given; one metadata request per visit id; the load of the bandpasses;
    then, per visit, the catalog query and the signal-to-noise call, with
    the SED list, the magnitude array and the photometric parameters made
    between the two in the first visit only.  A progress line is printed
    before every hundredth request and every hundredth query, starting with
    the first. *)
Theorem get_true_stars_calls (E : Env') for_obsHistIds (w : World') w' :
  get_true_stars E for_obsHistIds w = (Ok tt, w') ->
  exists ids obs_list bp_dict seds,
    ids_of E for_obsHistIds = Ok ids /\
    visits_of E (opsimDB (self w)) ids obs_list /\
    loadTotalBandpassesFromFiles E = Ok bp_dict /\
    (forall obs0, head obs_list = Some obs0 ->
       SedList E (map sed_entry (chunk_of E (dbConn (self w)) obs0)) = Ok seds) /\
    events w' = events w ++ call_events E (dbConn (self w)) for_obsHistIds ids
                              obs_list bp_dict seds.
Proof.
  intros Hrun.
  destruct (get_true_stars_run E _ _ _ _ Hrun)
    as (new & _ & _ & _ & _ & _ & _ & Hok).
  destruct (Hok eq_refl)
    as (ids & obs_list & df & Hids & Hvis & _ & Hdf & bp_dict & Hload & Htab).
  exists ids, obs_list, bp_dict.
  destruct obs_list as [|obs0 rest].
  - exists []. do 3 (split; [assumption|]). split; [discriminate|].
    rewrite (get_true_stars_exact E for_obsHistIds w ids [] bp_dict [] []) in Hrun;
      [|assumption|assumption|assumption|discriminate|constructor].
    injection Hrun as <-. reflexivity.
  - destruct Htab as (seds & blocks & Hseds & _ & Hblocks).
    exists seds. do 3 (split; [assumption|]).
    split; [intros o Ho; injection Ho as <-; exact Hseds|].
    rewrite (get_true_stars_exact E for_obsHistIds w ids (obs0 :: rest) bp_dict seds
               blocks) in Hrun; [|assumption|assumption|assumption| |assumption].
    + injection Hrun as <-. reflexivity.
    + intros o Ho. injection Ho as <-. exact Hseds.
Qed.

(** X24.  A successful [write_to_db] to a file (a name other than the
    in-memory names [''] and [':memory:']) has opened it and stores the
    rows of [star_df] with their index 0, 1, 2, ... as table [stars] of the
    file, which the file did not have before; every other table of the
    file, every other file and the object itself are as they were. *)
Theorem write_to_db_stores_stars (E : Env') filename table_name (w : World') w' :
  in_memory filename = false ->
  write_to_db E filename table_name w = (Ok tt, w') ->
  connect E filename = Ok tt /\
  self w' = self w /\ events w' = events w /\
  read_table w filename "stars" = None /\
  (exists df t, star_df (self w) = Some df /\
     files w' !! filename ≫= (.!! "stars") = Some t /\
     map snd t = df /\ map fst t = seq 0 (length df)) /\
  (forall t, t <> "stars" -> read_table w' filename t = read_table w filename t) /\
  (forall f, f <> filename -> files w' !! f = files w !! f).
Proof.
  intros Hfile. rewrite write_to_db_run, Hfile.
  destruct (star_df (self w)) as [df|]; [|discriminate].
  destruct (connect E filename) as [[]|e]; [|discriminate].
  cbv zeta. destruct (default ∅ (files w !! filename) !! "stars") as [t0|] eqn:Hold;
    [discriminate|].
  intros Heq. injection Heq as <-. simpl.
  split; [reflexivity|]. split; [reflexivity|]. split; [reflexivity|]. split.
  { apply read_table_None. exact Hold. }
  split.
  { exists df, (imap (fun i r => (i, r)) df). split; [reflexivity|].
    rewrite lookup_insert_eq. simpl. rewrite lookup_insert_eq.
    split; [reflexivity|]. split; [apply imap_rows|].
    exact (imap_index df 0). }
  split.
  - intros t Ht. rewrite !read_table_lookup. simpl. rewrite lookup_insert_eq. simpl.
    rewrite lookup_insert_ne by congruence. reflexivity.
  - intros f Hf. rewrite lookup_insert_ne by congruence. reflexivity.
Qed.

(** X25.  A failing [write_to_db] changes nothing, and it fails in one of
    three ways: with [AttributeError] when [star_df] has not been built;
    with the error of opening the file when it cannot be opened for
    writing; with [ValueError] when the file opens and already has a table
    [stars].  Once [star_df] is built, writing to an in-memory name never
    fails. *)
Theorem write_to_db_failure (E : Env') filename table_name (w : World') e w' :
  write_to_db E filename table_name w = (Raise e, w') ->
  w' = w /\
  ((star_df (self w) = None /\ e = AttributeError "star_df") \/
   (is_Some (star_df (self w)) /\ in_memory filename = false /\
    (connect E filename = Raise e \/
     (connect E filename = Ok tt /\ is_Some (read_table w filename "stars") /\
      exists msg, e = ValueError msg)))).
Proof.
  rewrite write_to_db_run. destruct (star_df (self w)) as [df|].
  - destruct (in_memory filename); [discriminate|].
    destruct (connect E filename) as [[]|e0].
    + cbv zeta.
      destruct (default ∅ (files w !! filename) !! "stars") as [t0|] eqn:Hold;
        [|discriminate].
      intros Heq. injection Heq as <- <-. split; [reflexivity|]. right.
      split; [eexists; reflexivity|]. split; [reflexivity|]. right.
      split; [reflexivity|]. split; [|eexists; reflexivity].
      eexists. apply read_table_Some. exact Hold.
    + intros Heq. injection Heq as <- <-. split; [reflexivity|]. right.
      split; [eexists; reflexivity|]. split; [reflexivity|]. left. reflexivity.
  - intros Heq. injection Heq as <- <-. split; [reflexivity|]. left.
    split; reflexivity.
Qed.

(** X26.  A file can be written once: after a successful [write_to_db] to
    a file (a name other than the in-memory names), writing to the same
    file again raises [ValueError] and changes nothing, whatever table name
    is given. *)
Theorem write_to_db_twice (E : Env') filename table_name other_name (w : World') w' :
  in_memory filename = false ->
  write_to_db E filename table_name w = (Ok tt, w') ->
  exists msg, write_to_db E filename other_name w' = (Raise (ValueError msg), w').
Proof.
  intros Hfile. rewrite !write_to_db_run, Hfile.
  destruct (star_df (self w)) as [df|] eqn:Hdf; [|discriminate].
  destruct (connect E filename) as [[]|e]; [|discriminate].
  cbv zeta. destruct (default ∅ (files w !! filename) !! "stars"); [discriminate|].
  intros Heq. injection Heq as <-. simpl. rewrite Hdf, lookup_insert_eq. simpl.
  rewrite lookup_insert_eq. eexists. reflexivity.
Qed.

(** X28.  Nothing is kept between calls: a second call with the same
    visits succeeds again, makes the same external calls again, the SED
    loads included, and leaves the same table, not one appended to the
    first. *)
Theorem get_true_stars_again (E : Env') for_obsHistIds (w : World') w1 :
  get_true_stars E for_obsHistIds w = (Ok tt, w1) ->
  exists w2 new,
    get_true_stars E for_obsHistIds w1 = (Ok tt, w2) /\
    star_df (self w2) = star_df (self w1) /\
    events w1 = events w ++ new /\ events w2 = events w1 ++ new.
Proof.
  intros Hrun.
  destruct (get_true_stars_run E _ _ _ _ Hrun)
    as (new & _ & Hfiles & Hdb & Hop & _ & _ & Hok).
  destruct (Hok eq_refl)
    as (ids & obs_list & df & Hids & Hvis & _ & Hdf & bp_dict & Hload & Htab).
  assert (Hex : exists seds blocks,
    (forall obs0, head obs_list = Some obs0 ->
       SedList E (map sed_entry (chunk_of E (dbConn (self w)) obs0)) = Ok seds) /\
    df = concat blocks /\
    Forall2 (fun obs block =>
               visit_table E bp_dict (magArrayForSedList E bp_dict seds)
                 (Some (PhotometricParameters E))
                 (chunk_of E (dbConn (self w)) obs) obs = Ok block) obs_list blocks).
  { destruct obs_list as [|obs0 rest].
    - exists [], []. split; [discriminate|]. split; [exact Htab | constructor].
    - destruct Htab as (seds & blocks & Hseds & Hcat & Hblocks).
      exists seds, blocks. split; [|split; assumption].
      intros o Ho. injection Ho as <-. exact Hseds. }
  destruct Hex as (seds & blocks & Hseds & -> & Hblocks).
  pose proof (get_true_stars_exact E for_obsHistIds w ids obs_list bp_dict seds blocks
                Hids Hvis Hload Hseds Hblocks) as H1.
  rewrite Hrun in H1. injection H1 as ->.
  eexists _, _. split; [|split; [|split]].
  - apply (get_true_stars_exact E for_obsHistIds _ ids obs_list bp_dict seds blocks);
      simpl; assumption.
  - reflexivity.
  - reflexivity.
  - reflexivity.
Qed.

(** X29.  A [TrueStars] object has no [star_df] until [get_true_stars] has
    returned: writing a newly constructed object fails with
    [AttributeError], and no file is touched. *)
Theorem write_before_get_true_stars (E : Env') (db : list (Star F)) opsimDB_filename
    filename table_name (ev : list (event F Sed)) fs :
  write_to_db E filename table_name
    {| self := TrueStars_new db opsimDB_filename; events := ev; files := fs |}
  = (Raise (AttributeError "star_df"),
     {| self := TrueStars_new db opsimDB_filename; events := ev; files := fs |}).
Proof. rewrite write_to_db_run. reflexivity. Qed.

(** X30.  [get_true_stars] never touches a file nor the two attributes set
    by the constructor, and it assigns [star_df] only when it returns:
    after any error the object is as it was. *)
Theorem get_true_stars_keeps_object (E : Env') for_obsHistIds (w : World') r w' :
  get_true_stars E for_obsHistIds w = (r, w') ->
  files w' = files w /\
  dbConn (self w') = dbConn (self w) /\ opsimDB (self w') = opsimDB (self w) /\
  (forall e, r = Raise e -> self w' = self w).
Proof.
  intros Hrun.
  destruct (get_true_stars_run E _ _ _ _ Hrun)
    as (new & _ & Hfiles & Hdb & Hop & _ & Hraise & _).
  do 3 (split; [assumption|]). intros e He. specialize (Hraise e He).
  destruct (self w'), (self w). simpl in *. congruence.
Qed.

End Properties.

Section Concrete.
Import CreateTruthDB_demo.

Lemma written_run :
  exists w', write_to_db demo_env "truth.db" "truth" built_world = (Ok tt, w').
Proof. eexists. rewrite write_to_db_run. reflexivity. Qed.

Lemma broken_chunk_3 : chunk_of broken_env demo_db (visit 3) = [starA; starB].
Proof. cbv -[Rgtb Q2R]. rewrite ?Rgtb_Q2R. reflexivity. Qed.

Lemma chunk_visit_5 : chunk_of demo_env demo_db (visit 5) = [starA; starB].
Proof. cbv -[Rgtb Q2R]. rewrite ?Rgtb_Q2R. reflexivity. Qed.

(** Visits 3 and 5 are both taken in r and see the same two stars. *)
Lemma same_filter_run :
  exists w', get_true_stars demo_env (Some [3; 5]%Z) demo_world = (Ok tt, w').
Proof.
  destruct (get_true_stars_succeeds demo_env (Some [3; 5]%Z) demo_world [3; 5]%Z
              [visit 3; visit 5]
              (concat [zip_with (star_row demo_env "total_r.dat" (visit 3))
                         [starA; starB] [sed_entry starA; sed_entry starB];
                       zip_with (star_row demo_env "total_r.dat" (visit 5))
                         [starA; starB] [sed_entry starA; sed_entry starB]]))
    as (w' & Hrun & _).
  - reflexivity.
  - repeat constructor.
  - exists demo_bandpasses. split; [reflexivity|].
    change (dbConn (self demo_world)) with demo_db.
    rewrite chunk_visit_3.
    exists [sed_entry starA; sed_entry starB],
      [zip_with (star_row demo_env "total_r.dat" (visit 3))
         [starA; starB] [sed_entry starA; sed_entry starB];
       zip_with (star_row demo_env "total_r.dat" (visit 5))
         [starA; starB] [sed_entry starA; sed_entry starB]].
    split; [reflexivity|]. split; [reflexivity|].
    constructor; [|constructor; [|constructor]].
    + rewrite chunk_visit_3.
      rewrite (visit_table_ok demo_env _ _ _ _ "total_r.dat"); reflexivity.
    + rewrite chunk_visit_5.
      rewrite (visit_table_ok demo_env _ _ _ _ "total_r.dat"); reflexivity.
  - exists w'. exact Hrun.
Qed.

(** A call on an empty list of visits. *)
Lemma get_true_stars_no_visits_witness :
  get_true_stars demo_env (Some []) demo_world
  = (Ok tt,
     {| self := {| dbConn := dbConn (self demo_world);
                   opsimDB := opsimDB (self demo_world); star_df := Some [] |};
        events := events demo_world ++ read_events (Some []) ++ [LoadTotalBandpasses];
        files := files demo_world |}).
Proof.
  apply (get_true_stars_no_visits demo_env (Some []) demo_world). reflexivity.
Defined.

(** Visits 3, 9 and 4 on a database without visit 9. *)
Lemma get_true_stars_unknown_visit_witness :
  get_true_stars sparse_env (Some [3; 9; 4]%Z) demo_world
  = (Raise IndexError,
     {| self := self demo_world;
        events := events demo_world ++ read_events (Some [3; 9; 4]%Z) ++
                  meta_events (length ([3] ++ 9 :: [4])%Z) 0 ([3] ++ [9])%Z;
        files := files demo_world |}).
Proof.
  apply (get_true_stars_unknown_visit sparse_env (Some [3; 9; 4]%Z) demo_world
           [3%Z] 9%Z [4%Z]).
  - reflexivity.
  - constructor; [|constructor]. simpl. discriminate.
  - reflexivity.
Defined.

(** The four rows of the default visits. *)
Lemma get_true_stars_row_count_witness :
  exists w',
    get_true_stars demo_env None demo_world = (Ok tt, w') /\
    exists ids obs_list df,
      ids_of demo_env None = Ok ids /\
      visits_of demo_env (opsimDB (self demo_world)) ids obs_list /\
      star_df (self w') = Some df /\
      length df
      = list_sum (map (fun obs => length (chunk_of demo_env (dbConn (self demo_world)) obs))
                    obs_list) /\
      forall obs0, head obs_list = Some obs0 ->
        Forall (fun obs => length (chunk_of demo_env (dbConn (self demo_world)) obs)
                           = length (chunk_of demo_env (dbConn (self demo_world)) obs0))
          obs_list.
Proof.
  destruct steady_run as (w' & Hrun). exists w'. split; [exact Hrun|].
  exact (get_true_stars_row_count demo_env None demo_world w' Hrun).
Defined.

(** The flux columns of visits 3 and 5, both taken in r. *)
Lemma same_filter_same_fluxes_witness :
  obs_filter (visit 3) = obs_filter (visit 5) /\
  exists w',
    get_true_stars demo_env (Some [3; 5]%Z) demo_world = (Ok tt, w') /\
    exists ids obs_list blocks,
      ids_of demo_env (Some [3; 5]%Z) = Ok ids /\
      visits_of demo_env (opsimDB (self demo_world)) ids obs_list /\
      star_df (self w') = Some (concat blocks) /\
      Forall2 (fun obs block =>
                 map df_uniqueId block
                 = map uniqueId (chunk_of demo_env (dbConn (self demo_world)) obs) /\
                 Forall (fun row => df_obsHistId row = obsHistID obs /\
                                    df_filter row = obs_filter obs) block)
        obs_list blocks /\
      forall i j obs_i obs_j block_i block_j,
        obs_list !! i = Some obs_i -> obs_list !! j = Some obs_j ->
        blocks !! i = Some block_i -> blocks !! j = Some block_j ->
        obs_filter obs_i = obs_filter obs_j ->
        map df_true_flux block_i = map df_true_flux block_j /\
        (fiveSigmaDepth obs_i = fiveSigmaDepth obs_j ->
         map df_true_flux_error block_i = map df_true_flux_error block_j).
Proof.
  split; [reflexivity|].
  destruct same_filter_run as (w' & Hrun). exists w'. split; [exact Hrun|].
  exact (same_filter_same_fluxes demo_env (Some [3; 5]%Z) demo_world w' Hrun).
Defined.

(** The default visits meet the conditions. *)
Lemma get_true_stars_returns_witness :
  exists w', get_true_stars demo_env None demo_world = (Ok tt, w').
Proof.
  apply (get_true_stars_returns demo_env None demo_world [3; 4]%Z [visit 3; visit 4]
           demo_bandpasses).
  - reflexivity.
  - repeat constructor.
  - reflexivity.
  - repeat constructor; eexists; reflexivity.
  - intros obs0 Hhead. injection Hhead as <-.
    change (dbConn (self demo_world)) with demo_db.
    split.
    + rewrite chunk_visit_3. repeat constructor; eexists; reflexivity.
    + constructor; [|constructor; [|constructor]];
        rewrite ?chunk_visit_3, ?chunk_visit_4; reflexivity.
Defined.

(** The SED file of star B is missing. *)
Lemma get_true_stars_sed_failure_witness :
  get_true_stars broken_env None demo_world
  = (Raise (IOError "starSED/kurucz/b.txt.gz"),
     {| self := self demo_world;
        events := events demo_world ++ read_events None ++
                  meta_events (length [3; 4]%Z) 0 [3; 4]%Z ++
                  [LoadTotalBandpasses; PrintFluxes 1 (length [3; 4]%Z);
                   query_of (visit 3);
                   SedListLoad (map sed_entry
                                  (chunk_of broken_env (dbConn (self demo_world))
                                     (visit 3)))];
        files := files demo_world |}).
Proof.
  apply (get_true_stars_sed_failure broken_env None demo_world [3; 4]%Z (visit 3)
           [visit 4] demo_bandpasses (IOError "starSED/kurucz/b.txt.gz")).
  - reflexivity.
  - repeat constructor.
  - reflexivity.
  - change (dbConn (self demo_world)) with demo_db. rewrite broken_chunk_3. reflexivity.
Defined.

(** The calls of the default visits. *)
Lemma get_true_stars_calls_witness :
  exists w',
    get_true_stars demo_env None demo_world = (Ok tt, w') /\
    exists ids obs_list bp_dict seds,
      ids_of demo_env None = Ok ids /\
      visits_of demo_env (opsimDB (self demo_world)) ids obs_list /\
      loadTotalBandpassesFromFiles demo_env = Ok bp_dict /\
      (forall obs0, head obs_list = Some obs0 ->
         SedList demo_env (map sed_entry (chunk_of demo_env (dbConn (self demo_world)) obs0))
         = Ok seds) /\
      events w' = events demo_world
                  ++ call_events demo_env (dbConn (self demo_world)) None ids obs_list
                       bp_dict seds.
Proof.
  destruct steady_run as (w' & Hrun). exists w'. split; [exact Hrun|].
  exact (get_true_stars_calls demo_env None demo_world w' Hrun).
Defined.

(** A one-row table written to a new file. *)
Lemma write_to_db_stores_stars_witness :
  exists w',
    write_to_db demo_env "truth.db" "truth" built_world = (Ok tt, w') /\
    connect demo_env "truth.db" = Ok tt /\
    self w' = self built_world /\ events w' = events built_world /\
    read_table built_world "truth.db" "stars" = None /\
    (exists df t, star_df (self built_world) = Some df /\
       files w' !! "truth.db" ≫= (.!! "stars") = Some t /\
       map snd t = df /\ map fst t = seq 0 (length df)) /\
    (forall t, t <> "stars" ->
       read_table w' "truth.db" t = read_table built_world "truth.db" t) /\
    (forall f, f <> "truth.db" -> files w' !! f = files built_world !! f).
Proof.
  destruct written_run as (w' & Hrun). exists w'. split; [exact Hrun|].
  exact (write_to_db_stores_stars demo_env "truth.db" "truth" built_world w'
           eq_refl Hrun).
Defined.

(** A file in a directory that does not exist. *)
Lemma write_to_db_failure_witness :
  snd (write_to_db demo_env "/missing/truth.db" "stars" built_world) = built_world /\
  ((star_df (self built_world) = None /\
    IOError "/missing/truth.db" = AttributeError "star_df") \/
   (is_Some (star_df (self built_world)) /\ in_memory "/missing/truth.db" = false /\
    (connect demo_env "/missing/truth.db" = Raise (IOError "/missing/truth.db") \/
     (connect demo_env "/missing/truth.db" = Ok tt /\
      is_Some (read_table built_world "/missing/truth.db" "stars") /\
      exists msg, IOError "/missing/truth.db" = ValueError msg)))).
Proof.
  apply (write_to_db_failure demo_env "/missing/truth.db" "stars" built_world
           (IOError "/missing/truth.db")
           (snd (write_to_db demo_env "/missing/truth.db" "stars" built_world))).
  reflexivity.
Defined.

(** A second write to the same file under another name. *)
Lemma write_to_db_twice_witness :
  exists w',
    write_to_db demo_env "truth.db" "truth" built_world = (Ok tt, w') /\
    exists msg,
      write_to_db demo_env "truth.db" "truth2" w' = (Raise (ValueError msg), w').
Proof.
  destruct written_run as (w' & Hrun). exists w'. split; [exact Hrun|].
  exact (write_to_db_twice demo_env "truth.db" "truth" "truth2" built_world w'
           eq_refl Hrun).
Defined.

(** The default visits, twice. *)
Lemma get_true_stars_again_witness :
  exists w1,
    get_true_stars demo_env None demo_world = (Ok tt, w1) /\
    exists w2 new,
      get_true_stars demo_env None w1 = (Ok tt, w2) /\
      star_df (self w2) = star_df (self w1) /\
      events w1 = events demo_world ++ new /\ events w2 = events w1 ++ new.
Proof.
  destruct steady_run as (w1 & Hrun). exists w1. split; [exact Hrun|].
  exact (get_true_stars_again demo_env None demo_world w1 Hrun).
Defined.

(** The object after the call that stops at visit 9. *)
Lemma get_true_stars_keeps_object_witness :
  files (snd (get_true_stars sparse_env (Some [9]%Z) demo_world)) = files demo_world /\
  dbConn (self (snd (get_true_stars sparse_env (Some [9]%Z) demo_world)))
  = dbConn (self demo_world) /\
  opsimDB (self (snd (get_true_stars sparse_env (Some [9]%Z) demo_world)))
  = opsimDB (self demo_world) /\
  (forall e, fst (get_true_stars sparse_env (Some [9]%Z) demo_world) = Raise e ->
             self (snd (get_true_stars sparse_env (Some [9]%Z) demo_world))
             = self demo_world).
Proof.
  apply (get_true_stars_keeps_object sparse_env (Some [9]%Z) demo_world
           (fst (get_true_stars sparse_env (Some [9]%Z) demo_world))
           (snd (get_true_stars sparse_env (Some [9]%Z) demo_world))).
  reflexivity.
Defined.

End Concrete.
End CreateTruthDB_extra.
